(** * Pulse survey bot: the storage core, the question parser and the
      results aggregator, embedded from the JavaScript sources

    Sources embedded here:
    - [netlify/functions/lib/store.js]: survey CRUD, the anonymous response
      ledger, the one-way dedup tracking set;
    - [lib/parse-questions.js]: [parseQuestions];
    - [lib/blocks.js]: [buildResultsBlocks] and [buildCsvExport];
    - the [/pulse] slash-command function next to [interactions.js]: its
      [try]/[catch] and the [share] and [results] sub-commands.

    Conventions.  A JavaScript string is a Rocq [string] holding its UTF-8
    encoding.  A JavaScript number is an IEEE-754 binary64 value, Rocq's
    primitive [float]; array lengths and the counters of this program, which
    JavaScript keeps exact, are [nat].  A function that can throw returns a
    [completion]; the asynchronous store functions are sequential programs
    over the [World] of the three blob stores. *)

From Stdlib Require Import ZArith NArith Ascii Floats DecimalString Bool Lia.
From Stdlib Require String.
From stdpp Require Import gmap strings sorting.

Open Scope Z_scope.

(** ** JavaScript strings *)

Module JsString.

(** The line feed; Rocq's string literals have no escape for it. *)
Definition LF : string := String "010"%char "".

Definition bytes (l : list N) : string :=
  String.string_of_list_ascii (map ascii_of_N l).

(** ECMAScript [WhiteSpace] and [LineTerminator] code points, the set that
    [String.prototype.trim], [parseFloat] and the regular expression class
    [\s] share, each in its UTF-8 encoding: TAB, LF, VT, FF, CR, SP, U+00A0,
    U+1680, U+2000 to U+200A, U+2028, U+2029, U+202F, U+205F, U+3000 and
    U+FEFF. *)
Definition whiteSpace : list string :=
  map bytes
    ([[9]; [10]; [11]; [12]; [13]; [32]; [194; 160]; [225; 154; 128]]
     ++ map (fun x => [226; 128; x]) [128; 129; 130; 131; 132; 133; 134; 135; 136; 137; 138]
     ++ [[226; 128; 168]; [226; 128; 169]; [226; 128; 175]; [226; 129; 159];
         [227; 128; 128]; [239; 187; 191]])%N.

(** [LineTerminator] alone: what the regular expression [.] refuses. *)
Definition lineTerminators : list string :=
  map bytes [[10]; [13]; [226; 128; 168]; [226; 128; 169]]%N.

Fixpoint stripPrefix (p s : string) : option string :=
  match p, s with
  | EmptyString, _ => Some s
  | String a p', String b s' => if Ascii.eqb a b then stripPrefix p' s' else None
  | String _ _, EmptyString => None
  end.

Fixpoint stripAny (ps : list string) (s : string) : option string :=
  match ps with
  | [] => None
  | p :: ps' => match stripPrefix p s with
                | Some r => Some r
                | None => stripAny ps' s
                end
  end.

Fixpoint stripWhile (ps : list string) (fuel : nat) (s : string) : string :=
  match fuel with
  | O => s
  | S f => match stripAny ps s with
           | Some r => stripWhile ps f r
           | None => s
           end
  end.

Definition reverse (s : string) : string :=
  String.string_of_list_ascii (rev (String.list_ascii_of_string s)).

Definition trimStart (s : string) : string :=
  stripWhile whiteSpace (String.length s) s.

Definition trimEnd (s : string) : string :=
  reverse (stripWhile (map reverse whiteSpace) (String.length s) (reverse s)).

(** [s.trim()] *)
Definition trim (s : string) : string := trimEnd (trimStart s).

(** [s.includes(p)] *)
Fixpoint includes (p s : string) : bool :=
  match stripPrefix p s with
  | Some _ => true
  | None => match s with
            | String _ s' => includes p s'
            | EmptyString => false
            end
  end.

(** [s.split(c)] for a one-character separator [c]. *)
Fixpoint split (c : ascii) (s : string) : list string :=
  match s with
  | EmptyString => [EmptyString]
  | String a s' =>
      if Ascii.eqb a c then EmptyString :: split c s'
      else match split c s' with
           | w :: ws => String a w :: ws
           | [] => [String a EmptyString]
           end
  end.

(** [s.replace(/c/g, by)] for a one-character pattern [c]. *)
Fixpoint replaceAll (c : ascii) (by_ : string) (s : string) : string :=
  match s with
  | EmptyString => EmptyString
  | String a s' =>
      if Ascii.eqb a c then by_ +:+ replaceAll c by_ s'
      else String a (replaceAll c by_ s')
  end.

(** [parts.join(sep)] on an array of strings. *)
Definition join (sep : string) (parts : list string) : string :=
  String.concat sep parts.

Fixpoint copies (n : nat) (s : string) : string :=
  match n with
  | O => EmptyString
  | S m => s +:+ copies m s
  end.

(** Canonicalisation of a code unit under the [i] flag of a regular
    expression without the [u] flag: only the ASCII letters have an ASCII
    counterpart in the other case. *)
Definition foldCase (a : ascii) : ascii :=
  let n := N_of_ascii a in
  if ((97 <=? n) && (n <=? 122))%N then ascii_of_N (n - 32) else a.

Fixpoint stripPrefixIgnoreCase (p s : string) : option string :=
  match p, s with
  | EmptyString, _ => Some s
  | String a p', String b s' =>
      if Ascii.eqb (foldCase a) (foldCase b) then stripPrefixIgnoreCase p' s' else None
  | String _ _, EmptyString => None
  end.

Definition isDigit (c : ascii) : bool :=
  let n := N_of_ascii c in ((48 <=? n) && (n <=? 57))%N.

(** The longest prefix of decimal digits, and the rest. *)
Fixpoint takeDigits (s : string) : string * string :=
  match s with
  | String c r =>
      if isDigit c then let '(d, t) := takeDigits r in (String c d, t)
      else (EmptyString, s)
  | EmptyString => (EmptyString, EmptyString)
  end.

(** The value of a string of decimal digits. *)
Fixpoint digitsValue (acc : Z) (s : string) : Z :=
  match s with
  | String c r => digitsValue (10 * acc + (Z.of_N (N_of_ascii c) - 48)) r
  | EmptyString => acc
  end.

Definition ofNat (n : nat) : string := NilZero.string_of_uint (Nat.to_uint n).

Definition ofZ (z : Z) : string := NilZero.string_of_uint (N.to_uint (Z.to_N z)).

End JsString.

(** ** JavaScript numbers *)

Module JsNumber.
Import JsString.

(** The double nearest to [M * 10^E] (ties to even), signed by [neg]:
    the value of a decimal literal. *)
Definition decimalToFloat (neg : bool) (M E : Z) : float :=
  SF2Prim
    (if M =? 0 then S754_zero neg
     else
       let '(m1, m2) := if 0 <=? E then (M * 10 ^ E, 1) else (M, 10 ^ (- E)) in
       let '(q, e, l) := SFdiv_core_binary prec emax m1 0 m2 0 in
       binary_round_aux prec emax neg q e l).

Definition ofZ (z : Z) : float := SF2Prim (binary_normalize prec emax z 0 false).

(** The number of an array length or of a counter. *)
Definition ofNat (n : nat) : float := ofZ (Z.of_nat n).

Definition isNaN (x : float) : bool := negb (PrimFloat.eqb x x).

(** [Math.round]: the nearest integer, a tie going towards +∞; the sign of a
    zero result is the sign of the argument. *)
Definition Math_round (x : float) : float :=
  match Prim2SF x with
  | S754_finite s m e =>
      if 0 <=? e then x
      else
        let mz := if s then Zneg m else Zpos m in
        let r := (2 * mz + 2 ^ (- e)) / 2 ^ (- e + 1) in
        if r =? 0 then (if s then neg_zero else zero) else ofZ r
  | _ => x
  end.

Inductive integerOrInfinity := Finite (z : Z) | PlusInfinity | MinusInfinity.

(** [ToIntegerOrInfinity]: NaN is 0, a finite number is truncated. *)
Definition ToIntegerOrInfinity (x : float) : integerOrInfinity :=
  match Prim2SF x with
  | S754_nan => Finite 0
  | S754_zero _ => Finite 0
  | S754_infinity s => if s then MinusInfinity else PlusInfinity
  | S754_finite s m e =>
      let a := if 0 <=? e then Zpos m * 2 ^ e else Zpos m / 2 ^ (- e) in
      Finite (if s then - a else a)
  end.

(** [Number::toString], radix 10.  For a positive finite [x = num / den] the
    specification asks for integers [n], [k], [s] with [k] least such that
    [s * 10^(n-k)] has [k] digits and reads back as [x], and among those the
    [s] nearest to [x]. *)
Definition ltPow10 (num den n : Z) : bool :=
  if 0 <=? n then num <? den * 10 ^ n else num * 10 ^ (- n) <? den.

(** The least [n] from the start value on with [x < 10^n]. *)
Fixpoint magnitude (fuel : nat) (num den n : Z) : Z :=
  match fuel with
  | O => n
  | S f => if ltPow10 num den n then n else magnitude f num den (n + 1)
  end.

(** The [k]-digit decimals just below and just above [x]: the one that
    reads back as [x], the nearer one when both do. *)
Definition shortestAt (x : float) (num den n0 k : Z) : option (Z * Z) :=
  let sc := k - n0 in
  let '(a, b) := if 0 <=? sc then (num * 10 ^ sc, den) else (num, den * 10 ^ (- sc)) in
  let lo := a / b in
  let hi := lo + 1 in
  let pickHi := if hi =? 10 ^ k then Some (n0 + 1, 10 ^ (k - 1)) else Some (n0, hi) in
  match PrimFloat.eqb (decimalToFloat false lo (n0 - k)) x,
        PrimFloat.eqb (decimalToFloat false hi (n0 - k)) x with
  | true, true =>
      match 2 * (a mod b) ?= b with
      | Lt => Some (n0, lo)
      | Gt => pickHi
      | Eq => if Z.even lo then Some (n0, lo) else pickHi
      end
  | true, false => Some (n0, lo)
  | false, true => pickHi
  | false, false => None
  end.

Fixpoint shortest (fuel : nat) (x : float) (num den n0 k : Z) : Z * Z * Z :=
  match fuel with
  | O => (n0, k, 0)
  | S f => match shortestAt x num den n0 k with
           | Some (n, s) => (n, k, s)
           | None => shortest f x num den n0 (k + 1)
           end
  end.

Definition zeros (n : Z) : string := copies (Z.to_nat n) "0".

Definition formatDecimal (n k s : Z) : string :=
  let ds := JsString.ofZ s in
  if (k <=? n) && (n <=? 21) then ds +:+ zeros (n - k)
  else if (0 <? n) && (n <=? 21) then
    String.substring 0 (Z.to_nat n) ds +:+ "." +:+
    String.substring (Z.to_nat n) (Z.to_nat (k - n)) ds
  else if (-6 <? n) && (n <=? 0) then "0." +:+ zeros (- n) +:+ ds
  else
    let e := n - 1 in
    let es := (if 0 <=? e then "+" else "-") +:+ JsString.ofZ (Z.abs e) in
    if k =? 1 then ds +:+ "e" +:+ es
    else String.substring 0 1 ds +:+ "." +:+
         String.substring 1 (Z.to_nat (k - 1)) ds +:+ "e" +:+ es.

Definition Number_toString (x : float) : string :=
  match Prim2SF x with
  | S754_nan => "NaN"
  | S754_zero _ => "0"
  | S754_infinity s => if s then "-Infinity" else "Infinity"
  | S754_finite sg m e =>
      let '(num, den) := if 0 <=? e then (Zpos m * 2 ^ e, 1) else (Zpos m, 2 ^ (- e)) in
      let b := Z.log2 num - Z.log2 den - 1 in
      let n0 := magnitude 8 num den
                  (if 0 <=? b then b * 30102 / 100000 else b * 30103 / 100000) in
      let '(n, k, s) := shortest 17 (abs x) num den n0 1 in
      (if sg then "-" else "") +:+ formatDecimal n k s
  end.

(** The exponent part of a decimal literal, 0 when there is none or when it
    has no digit. *)
Definition parseExponent (s : string) : Z :=
  match s with
  | String c r =>
      if Ascii.eqb c "e" || Ascii.eqb c "E" then
        let '(neg, r1) :=
          match r with
          | String "-" t => (true, t)
          | String "+" t => (false, t)
          | _ => (false, r)
          end in
        let '(ds, _) := takeDigits r1 in
        if String.eqb ds "" then 0
        else if neg then - digitsValue 0 ds else digitsValue 0 ds
      else 0
  | EmptyString => 0
  end.

(** [parseFloat] on a string: leading white space is skipped, the longest
    prefix that is a [StrDecimalLiteral] is read, NaN when there is none. *)
Definition parseFloatString (input : string) : float :=
  let t := trimStart input in
  let '(neg, u) :=
    match t with
    | String "-" r => (true, r)
    | String "+" r => (false, r)
    | _ => (false, t)
    end in
  match stripPrefix "Infinity" u with
  | Some _ => if neg then neg_infinity else infinity
  | None =>
      let '(ip, r1) := takeDigits u in
      let '(fp, r2) :=
        match r1 with
        | String "." r => takeDigits r
        | _ => (EmptyString, r1)
        end in
      if String.eqb ip "" && String.eqb fp "" then nan
      else
        decimalToFloat neg (digitsValue 0 (ip +:+ fp))
          (parseExponent r2 - Z.of_nat (String.length fp))
  end.

End JsNumber.

(** ** SHA-256 (FIPS 180-4), as [crypto.createHash("sha256")] computes it *)

Module Sha256.

Definition word (x : Z) : Z := Z.land x 0xffffffff.
Definition rotr (n x : Z) : Z := word (Z.lor (Z.shiftr x n) (Z.shiftl x (32 - n))).
Definition Ch (x y z : Z) : Z := Z.lxor (Z.land x y) (Z.land (Z.lxor x 0xffffffff) z).
Definition Maj (x y z : Z) : Z :=
  Z.lxor (Z.land x y) (Z.lxor (Z.land x z) (Z.land y z)).
Definition bigSigma0 (x : Z) : Z := Z.lxor (rotr 2 x) (Z.lxor (rotr 13 x) (rotr 22 x)).
Definition bigSigma1 (x : Z) : Z := Z.lxor (rotr 6 x) (Z.lxor (rotr 11 x) (rotr 25 x)).
Definition smallSigma0 (x : Z) : Z :=
  Z.lxor (rotr 7 x) (Z.lxor (rotr 18 x) (Z.shiftr x 3)).
Definition smallSigma1 (x : Z) : Z :=
  Z.lxor (rotr 17 x) (Z.lxor (rotr 19 x) (Z.shiftr x 10)).

(** The primes below [bound], by trial division. *)
Definition primesBelow (bound : nat) : list Z :=
  List.filter (fun p => forallb (fun d => negb (p mod d =? 0)) (map Z.of_nat (seq 2 (Z.to_nat p - 2))))
    (map Z.of_nat (seq 2 (bound - 2))).

(** The integer cube root, bit by bit from the top. *)
Definition cubeRoot (n : Z) : Z :=
  fold_left (fun r b => let r' := r + 2 ^ Z.of_nat b in if r' * r' * r' <=? n then r' else r)
    (rev (seq 0 40)) 0.

(** The round constants: the first 32 bits of the fractional parts of the
    cube roots of the first 64 primes. *)
Definition K : list Z :=
  Eval vm_compute in map (fun p => word (cubeRoot (p * 2 ^ 96))) (primesBelow 312).

(** The initial hash value: the first 32 bits of the fractional parts of
    the square roots of the first 8 primes. *)
Definition H0 : list Z :=
  Eval vm_compute in map (fun p => word (Z.sqrt (p * 2 ^ 64))) (primesBelow 20).

Definition bytesOf (s : string) : list Z :=
  map (fun c => Z.of_N (N_of_ascii c)) (String.list_ascii_of_string s).

Definition bigEndian (width : nat) (x : Z) : list Z :=
  map (fun i => Z.land (Z.shiftr x (8 * Z.of_nat i)) 0xff) (rev (seq 0 width)).

(** The message, the byte 0x80, zero bytes up to 56 modulo 64, and the
    length in bits on eight bytes. *)
Definition pad (msg : list Z) : list Z :=
  let len := Z.of_nat (length msg) in
  msg ++ [0x80] ++ replicate (Z.to_nat ((55 - len) mod 64)) 0 ++ bigEndian 8 (8 * len).

Fixpoint wordsOf (fuel : nat) (bs : list Z) : list Z :=
  match fuel, bs with
  | S f, a :: b :: c :: d :: r =>
      (Z.shiftl a 24 + Z.shiftl b 16 + Z.shiftl c 8 + d) :: wordsOf f r
  | _, _ => []
  end.

Fixpoint blocksOf (fuel : nat) (ws : list Z) : list (list Z) :=
  match fuel with
  | O => []
  | S f => match ws with
           | [] => []
           | _ => take 16 ws :: blocksOf f (drop 16 ws)
           end
  end.

(** The message schedule, grown by [n] words. *)
Fixpoint schedule (n : nat) (w : list Z) : list Z :=
  match n with
  | O => w
  | S m =>
      let back (i : nat) := nth (length w - i) w 0 in
      schedule m
        (w ++ [word (smallSigma1 (back 2%nat) + back 7%nat
                     + smallSigma0 (back 15%nat) + back 16%nat)])
  end.

Definition step (st : list Z) (kw : Z * Z) : list Z :=
  match st with
  | [a; b; c; d; e; f; g; h] =>
      let t1 := word (h + bigSigma1 e + Ch e f g + fst kw + snd kw) in
      let t2 := word (bigSigma0 a + Maj a b c) in
      [word (t1 + t2); a; b; c; word (d + t1); e; f; g]
  | _ => st
  end.

Definition compress (h : list Z) (block : list Z) : list Z :=
  let st := fold_left step (combine K (schedule 48 block)) h in
  map (fun p => word (fst p + snd p)) (combine h st).

Definition hexDigit (n : Z) : ascii :=
  ascii_of_N (Z.to_N (if n <? 10 then 48 + n else 87 + n)).

Definition hexWord (x : Z) : string :=
  String.string_of_list_ascii
    (map (fun i => hexDigit (Z.land (Z.shiftr x (4 * Z.of_nat i)) 0xf)) (rev (seq 0 8))).

(** [crypto.createHash("sha256").update(s).digest("hex")] *)
Definition digestHex (s : string) : string :=
  let bs := pad (bytesOf s) in
  let ws := wordsOf (length bs) bs in
  String.concat "" (map hexWord (fold_left compress (blocksOf (length ws) ws) H0)).

End Sha256.

(** ** Completions *)

Inductive exn :=
  | RangeError
  | TypeError
  | StorageError (reason : string).

(** How a synchronous call ends: normally, by throwing, or in a way that
    ECMAScript leaves to the implementation (the text of a native function). *)
Inductive completion (A : Type) :=
  | Normal (a : A)
  | Throw (e : exn)
  | ImplementationDefined.

Arguments Normal {A} a.
Arguments Throw {A} e.
Arguments ImplementationDefined {A}.

Definition andThen {A B : Type} (c : completion A) (k : A -> completion B) : completion B :=
  match c with
  | Normal a => k a
  | Throw e => Throw e
  | ImplementationDefined => ImplementationDefined
  end.

#[global] Instance completion_bind : MBind completion := fun A B k c => andThen c k.

(** The calls of a loop body, in order; the first one that does not end
    normally ends the loop. *)
Fixpoint forEach {A B : Type} (f : A -> completion B) (l : list A) : completion (list B) :=
  match l with
  | [] => Normal []
  | a :: l' => b ← f a; bs ← forEach f l'; Normal (b :: bs)
  end.

(** ** JSON values, as [store.get(key, { type: "json" })] returns them *)

#[warnings="-register-all"]
Inductive value :=
  | VUndefined
  | VNull
  | VBoolean (b : bool)
  | VNumber (x : float)
  | VString (s : string)
  | VArray (items : list value)
  | VObject.

Module Js.
Import JsString JsNumber.

Definition DQUOTE : string := String "034"%char EmptyString.

(** [ToBoolean] *)
Definition ToBoolean (v : value) : bool :=
  match v with
  | VUndefined | VNull => false
  | VBoolean b => b
  | VNumber x => negb (isNaN x || PrimFloat.eqb x zero)
  | VString s => negb (String.eqb s EmptyString)
  | VArray _ | VObject => true
  end.

(** [ToString]; an array prints as [join(",")] does, where [undefined] and
    [null] elements are empty. *)
Fixpoint ToString (v : value) : string :=
  match v with
  | VUndefined => "undefined"
  | VNull => "null"
  | VBoolean b => if b then "true" else "false"
  | VNumber x => Number_toString x
  | VString s => s
  | VArray items =>
      join ","
        (map (fun e => match e with
                       | VUndefined | VNull => EmptyString
                       | _ => ToString e
                       end) items)
  | VObject => "[object Object]"
  end.

(** [items.join(sep)] *)
Definition Array_join (sep : string) (items : list value) : string :=
  join sep
    (map (fun e => match e with
                   | VUndefined | VNull => EmptyString
                   | _ => ToString e
                   end) items).

(** [a || b] *)
Definition or (a b : value) : value := if ToBoolean a then a else b.

(** [parseFloat(v)]: the argument is converted to a string first. *)
Definition parseFloat (v : value) : float := parseFloatString (ToString v).

(** [s.repeat(count)] *)
Definition String_repeat (s : string) (count : float) : completion string :=
  match ToIntegerOrInfinity count with
  | Finite n => if n <? 0 then Throw RangeError else Normal (copies (Z.to_nat n) s)
  | PlusInfinity | MinusInfinity => Throw RangeError
  end.

(** [l.sort(compare)] for a consistent [compare]: the sort is stable, so an
    element stays ahead of the elements after it, except of those that must
    come first, for which [compare] is negative. *)
Fixpoint insertSorted {A : Type} (mustPrecede : A -> A -> bool) (e : A) (l : list A) : list A :=
  match l with
  | [] => [e]
  | x :: l' => if mustPrecede x e then x :: insertSorted mustPrecede e l' else e :: l
  end.

Definition Array_sort {A : Type} (mustPrecede : A -> A -> bool) (l : list A) : list A :=
  foldr (insertSorted mustPrecede) [] l.


(** An array index: the canonical decimal string of an integer from 0 to
    2^32 - 2.  [Object.entries] lists these keys first. *)
Definition arrayIndex (key : string) : option Z :=
  let '(ds, rest) := takeDigits key in
  let n := digitsValue 0 ds in
  if String.eqb rest EmptyString && negb (String.eqb ds EmptyString)
     && (String.eqb ds "0" || negb (String.prefix "0" ds))
     && (n <=? 2 ^ 32 - 2)
  then Some n else None.

(** The properties of [Object.prototype] that hold a native function. *)
Definition nativeFunctionKeys : list string :=
  ["constructor"; "__defineGetter__"; "__defineSetter__"; "hasOwnProperty";
   "__lookupGetter__"; "__lookupSetter__"; "isPrototypeOf";
   "propertyIsEnumerable"; "toString"; "valueOf"; "toLocaleString"].

End Js.

(** ** Data model *)

Record Question := {
  label : string;
  type : string;
  options : option (list string);   (* present on multi-select questions only *)
}.

Record Settings := {
  showResults : bool;
  shareFreetext : bool;
}.

Record Survey := {
  id : string;
  title : string;
  questions : list Question;
  createdBy : string;
  settings : option Settings;
  status : string;
  responseCount : nat;
  createdAt : string;
}.

(** A response: the answers of one respondent, keyed [q_0], [q_1], ... .
    [prop r key] is [r[key]]. *)
Definition prop (r : gmap string value) (key : string) : value :=
  default VUndefined (r !! key).

Definition questionKey (i : nat) : string := "q_" +:+ JsString.ofNat i.

(** ** [parseQuestions]  (lib/parse-questions.js) *)

Module Parser.
Import JsString.

(** [raw.split("\n").map((l) => l.trim()).filter(Boolean)] *)
Definition nonBlankLines (raw : string) : list string :=
  List.filter (fun l => Js.ToBoolean (VString l)) (map trim (split "010"%char raw)).

(** The last white-space character of a string of white space, when the
    string is not empty. *)
Definition lastWhiteSpace (ws : string) : option string :=
  match stripAny (map reverse whiteSpace) (reverse ws) with
  | Some r =>
      Some (String.substring (String.length r) (String.length ws - String.length r) ws)
  | None => None
  end.

(** [line.match(/^Q(\d+)\s*:\s*(.+)$/i)]: the two captures.  The quantifiers
    are greedy: the white space after the colon goes to [\s*], unless the
    line ends there, in which case its last character is left to [(.+)].
    [.] takes no line terminator, and without the [m] flag [$] is the end
    of the line only. *)
Definition matchOptionLine (line : string) : option (string * string) :=
  match line with
  | String c r =>
      if Ascii.eqb (foldCase c) "Q" then
        let '(ds, r1) := takeDigits r in
        if String.eqb ds EmptyString then None
        else
          match trimStart r1 with
          | String ":" r2 =>
              let r3 := trimStart r2 in
              let capture :=
                if String.eqb r3 EmptyString then lastWhiteSpace r2 else Some r3 in
              match capture with
              | Some t =>
                  if existsb (fun lt => includes lt t) lineTerminators then None
                  else Some (ds, t)
              | None => None
              end
          | _ => None
          end
      else None
  | EmptyString => None
  end.

(** [parseInt(digits)] on a string of decimal digits.  JavaScript rounds a
    value from 2^53 on to a double; such a key is out of reach of every
    question number, so the exact integer is kept here. *)
Definition parseInt (digits : string) : Z := digitsValue 0 digits.

(** [optionsMap[qNum] = match[2].split(",").map((o) => o.trim())] *)
Definition addOptionLine (optionsMap : gmap Z (list string)) (line : string)
  : gmap Z (list string) :=
  match matchOptionLine line with
  | Some (digits, rest) => <[parseInt digits := map trim (split "," rest)]> optionsMap
  | None => optionsMap
  end.

Definition parseOptions (rawOptions : string) : gmap Z (list string) :=
  if Js.ToBoolean (VString rawOptions)
  then fold_left addOptionLine (nonBlankLines rawOptions) ∅
  else ∅.

(** [/marker/i.test(line)] for a marker without special characters. *)
Fixpoint test (marker line : string) : bool :=
  match stripPrefixIgnoreCase marker line with
  | Some _ => true
  | None => match line with
            | String _ r => test marker r
            | EmptyString => false
            end
  end.

(** [line.replace(/\s*marker/i, "")]: the leftmost match is removed. *)
Fixpoint removeFirst (marker line : string) : string :=
  match stripPrefixIgnoreCase marker (trimStart line) with
  | Some rest => rest
  | None => match line with
            | String c r => String c (removeFirst marker r)
            | EmptyString => EmptyString
            end
  end.

Definition defaultOptions : list string := ["Option A"; "Option B"; "Option C"].

Definition parseQuestion (optionsMap : gmap Z (list string)) (i : nat) (line : string)
  : Question :=
  let qNum := (i + 1)%nat in
  if test "(multi-select)" line then
    {| label := trim (removeFirst "(multi-select)" line);
       type := "multi-select";
       options := Some (default defaultOptions (optionsMap !! Z.of_nat qNum)) |}
  else if test "(free-text)" line then
    {| label := trim (removeFirst "(free-text)" line);
       type := "free-text";
       options := None |}
  else
    {| label := trim line; type := "scale"; options := None |}.

Definition parseQuestions (rawQuestions rawOptions : string) : list Question :=
  imap (parseQuestion (parseOptions rawOptions)) (nonBlankLines rawQuestions).

End Parser.

(** ** Results formatting and CSV export  (lib/blocks.js) *)

(** A Block Kit block: [{ type: "section", text: { type: "mrkdwn", text } }]
    or [{ type: "divider" }]. *)
Inductive Block :=
  | SectionBlock (text : string)
  | DividerBlock.

(** The viewer context [{ isAdmin = false, isShare = false }]. *)
Record ViewerContext := {
  isAdmin : bool;
  isShare : bool;
}.

Module Blocks.
Import JsString JsNumber Js.

(** *** Scale questions *)

(** [responses.map((r) => parseFloat(r[key])).filter(Boolean)] *)
Definition scaleValues (responses : list (gmap string value)) (key : string) : list float :=
  List.filter (fun x => ToBoolean (VNumber x))
    (map (fun r => parseFloat (prop r key)) responses).

(** [values.reduce((a, b) => a + b, 0) / values.length] *)
Definition average (values : list float) : float :=
  (fold_left PrimFloat.add values zero / JsNumber.ofNat (length values))%float.

(** [Math.round(avg * 10) / 10] *)
Definition roundedAverage (values : list float) : float :=
  (Math_round (average values * JsNumber.ofZ 10) / JsNumber.ofZ 10)%float.

(** [[1, 2, 3, 4, 5].map((n) => values.filter((v) => v === n).length)] *)
Definition distribution (values : list float) : list nat :=
  map (fun n => length (List.filter (fun v => PrimFloat.eqb v (JsNumber.ofZ n)) values))
    [1; 2; 3; 4; 5].

Definition scaleText (q : Question) (values : list float) (bar : string) : string :=
  "*" +:+ label q +:+ "*" +:+ LF +:+ bar +:+ " *"
  +:+ Number_toString (roundedAverage values) +:+ "/5* ("
  +:+ JsString.ofNat (length values) +:+ " responses)" +:+ LF
  +:+ join " · "
        (imap (fun idx count => JsString.ofNat (idx + 1) +:+ "★: " +:+ JsString.ofNat count)
           (distribution values)).

Definition scaleBlock (q : Question) (responses : list (gmap string value)) (key : string)
  : completion Block :=
  let values := scaleValues responses key in
  let filledBars := Math_round (average values) in
  filled ← String_repeat "█" filledBars;
  empty ← String_repeat "░" (JsNumber.ofZ 5 - filledBars)%float;
  Normal (SectionBlock (scaleText q values (filled +:+ empty))).

(** *** Multi-select questions *)

(** [responses.flatMap((r) => r[key] || [])]: an array answer contributes its
    elements, any other truthy answer contributes itself. *)
Definition allSelections (responses : list (gmap string value)) (key : string) : list value :=
  flat_map (fun r => match or (prop r key) (VArray []) with
                     | VArray items => items
                     | v => [v]
                     end) responses.

(** The own properties of [counts], in creation order. *)
Fixpoint increment (opt : string) (counts : list (string * nat)) : option (list (string * nat)) :=
  match counts with
  | [] => None
  | (k, n) :: rest =>
      if String.eqb k opt then Some ((k, S n) :: rest)
      else match increment opt rest with
           | Some rest' => Some ((k, n) :: rest')
           | None => None
           end
  end.

(** [counts[opt] = (counts[opt] || 0) + 1].  [counts] starts as [{}], so a
    key it does not own is looked up in [Object.prototype]: under
    [__proto__] the assignment reaches the inherited setter, which ignores
    a string; under the other names it stores the text of a native
    function, which the language does not fix. *)
Definition count (counts : list (string * nat)) (opt : value)
  : completion (list (string * nat)) :=
  let key := ToString opt in
  match increment key counts with
  | Some counts' => Normal counts'
  | None =>
      if String.eqb key "__proto__" then Normal counts
      else if existsb (String.eqb key) nativeFunctionKeys then ImplementationDefined
      else Normal (counts ++ [(key, 1%nat)])
  end.

(** [allSelections.forEach((opt) => { ... })] *)
Fixpoint countAll (counts : list (string * nat)) (selections : list value)
  : completion (list (string * nat)) :=
  match selections with
  | [] => Normal counts
  | opt :: rest => counts' ← count counts opt; countAll counts' rest
  end.

Definition isArrayIndex (key : string) : bool :=
  match arrayIndex key with Some _ => true | None => false end.

Definition indexOf (key : string) : Z := default 0 (arrayIndex key).

(** [Object.entries(counts)]: the array-index keys in ascending numeric
    order, then the other keys in creation order. *)
Definition entries (counts : list (string * nat)) : list (string * nat) :=
  Array_sort (fun x e => indexOf (fst x) <? indexOf (fst e))
    (List.filter (fun e => isArrayIndex (fst e)) counts)
  ++ List.filter (fun e => negb (isArrayIndex (fst e))) counts.

(** [entries.sort((a, b) => b[1] - a[1])] *)
Definition sortByCount (l : list (string * nat)) : list (string * nat) :=
  Array_sort (fun x e => (snd e <? snd x)%nat) l.

(** [Math.round((count / total) * 100)] *)
Definition percentage (n total : nat) : float :=
  Math_round (JsNumber.ofNat n / JsNumber.ofNat total * JsNumber.ofZ 100)%float.

Definition optionLine (total : nat) (e : string * nat) : completion string :=
  let pct := percentage (snd e) total in
  let barLen := Math_round (pct / JsNumber.ofZ 10)%float in
  filled ← String_repeat "█" barLen;
  empty ← String_repeat "░" (JsNumber.ofZ 10 - barLen)%float;
  Normal (fst e +:+ ": " +:+ filled +:+ empty +:+ " " +:+ Number_toString pct
          +:+ "% (" +:+ JsString.ofNat (snd e) +:+ ")").

Definition multiSelectBlock (q : Question) (responses : list (gmap string value)) (key : string)
  : completion Block :=
  counts ← countAll [] (allSelections responses key);
  lines ← forEach (optionLine (length responses)) (sortByCount (entries counts));
  Normal (SectionBlock ("*" +:+ label q +:+ "*" +:+ LF +:+ join LF lines)).

(** *** Free-text questions *)

(** [responses.map((r) => r[key]).filter(Boolean)] *)
Definition freeTexts (responses : list (gmap string value)) (key : string) : list value :=
  List.filter ToBoolean (map (fun r => prop r key) responses).

(** [isAdmin || (!isShare && survey.settings?.shareFreetext)] *)
Definition showFreeText (survey : Survey) (ctx : ViewerContext) : bool :=
  isAdmin ctx
  || (negb (isShare ctx)
      && match settings survey with
         | Some s => shareFreetext s
         | None => false
         end).

Definition freeTextBlock (survey : Survey) (q : Question)
    (responses : list (gmap string value)) (ctx : ViewerContext) (key : string) : Block :=
  let texts := freeTexts responses key in
  if showFreeText survey ctx && (0 <? length texts)%nat then
    SectionBlock
      ("*" +:+ label q +:+ "* (" +:+ JsString.ofNat (length texts) +:+ " responses)" +:+ LF
       +:+ join LF (map (fun t => "> _" +:+ ToString t +:+ "_") texts))
  else if isShare ctx then
    SectionBlock
      ("*" +:+ label q +:+ "*" +:+ LF +:+ "_" +:+ JsString.ofNat (length texts)
       +:+ " free-text responses (visible to survey creator only)_")
  else
    SectionBlock
      ("*" +:+ label q +:+ "*" +:+ LF +:+ "_" +:+ JsString.ofNat (length texts)
       +:+ " responses · Free-text answers are only visible to the survey creator_").

(** *** [buildResultsBlocks] *)

(** The body of [survey.questions.forEach((q, i) => { ... })]: the blocks
    one question pushes. *)
Definition questionBlocks (survey : Survey) (responses : list (gmap string value))
    (ctx : ViewerContext) (iq : nat * Question) : completion (list Block) :=
  let '(i, q) := iq in
  let key := questionKey i in
  if String.eqb (type q) "scale" then
    b ← scaleBlock q responses key; Normal [b; DividerBlock]
  else if String.eqb (type q) "multi-select" then
    b ← multiSelectBlock q responses key; Normal [b; DividerBlock]
  else if String.eqb (type q) "free-text" then
    Normal [freeTextBlock survey q responses ctx key; DividerBlock]
  else Normal [DividerBlock].

Definition headerBlock (survey : Survey) (responses : list (gmap string value)) : Block :=
  SectionBlock
    (":bar_chart: *Results: " +:+ title survey +:+ "*" +:+ LF
     +:+ JsString.ofNat (length responses) +:+ " response"
     +:+ (if (length responses =? 1)%nat then EmptyString else "s")
     +:+ " · Status: " +:+ status survey).

Definition buildResultsBlocks (survey : Survey) (responses : list (gmap string value))
    (ctx : ViewerContext) : completion (list Block) :=
  let blocks := [headerBlock survey responses; DividerBlock] in
  if (length responses =? 0)%nat then
    Normal (blocks ++ [SectionBlock "_No responses yet._"])
  else
    pushed ← forEach (questionBlocks survey responses ctx)
               (imap (fun i q => (i, q)) (questions survey));
    Normal (blocks ++ concat pushed).

(** *** [buildCsvExport] *)

(** The callback of the inner [map]: a quoted string, or [val || ""]. *)
Definition csvCell (val : value) : value :=
  match val with
  | VArray items => VString (DQUOTE +:+ Array_join ", " items +:+ DQUOTE)
  | VString s =>
      if includes "," s || includes DQUOTE s
      then VString (DQUOTE +:+ replaceAll "034"%char (DQUOTE +:+ DQUOTE) s +:+ DQUOTE)
      else or val (VString EmptyString)
  | _ => or val (VString EmptyString)
  end.

Definition csvRow (survey : Survey) (r : gmap string value) : list value :=
  imap (fun i _ => csvCell (prop r (questionKey i))) (questions survey).

Definition buildCsvExport (survey : Survey) (responses : list (gmap string value)) : string :=
  let headers := map label (questions survey) in
  let rows := map (csvRow survey) responses in
  join LF (join "," headers :: map (Array_join ",") rows).

End Blocks.

(** ** The blob stores  (lib/store.js) *)

(** What the store [pulse-surveys] holds under a key: a survey record under a
    survey id, the list of a creator's survey ids under [user_<userId>]. *)
Inductive entry :=
  | SurveyRecord (s : Survey)
  | UserIndex (ids : list string).

(** The world outside one invocation: the three stores, the log of their
    writes (store name and key, latest last), the messages posted to Slack,
    and what the backend has in stock for the coming store calls, one item a
    call: [Some reason] makes the call fail. *)
Record World := {
  surveyStore : gmap string entry;
  responseStore : gmap string (list (gmap string value));
  trackingStore : gmap string (list string);
  writes : list (string * string);
  posted : list (string * list Block * string);
  faults : list (option string);
}.

(** How an [async] function settles; [Undetermined] after a step that the
    language leaves to the implementation. *)
Inductive outcome (A : Type) :=
  | Resolved (a : A) (w : World)
  | Rejected (e : exn) (w : World)
  | Undetermined (w : World).

Arguments Resolved {A} a w.
Arguments Rejected {A} e w.
Arguments Undetermined {A} w.

Definition Async (A : Type) : Type := World -> outcome A.

#[global] Instance Async_ret : MRet Async := fun A a w => Resolved a w.

#[global] Instance Async_bind : MBind Async := fun A B k m w =>
  match m w with
  | Resolved a w' => k a w'
  | Rejected e w' => Rejected e w'
  | Undetermined w' => Undetermined w'
  end.

(** A synchronous call inside an [async] function. *)
Definition await {A : Type} (c : completion A) : Async A := fun w =>
  match c with
  | Normal a => Resolved a w
  | Throw e => Rejected e w
  | ImplementationDefined => Undetermined w
  end.

Definition reads {A : Type} (f : World -> A) : Async A := fun w => Resolved (f w) w.

Definition updates (f : World -> World) : Async () := fun w => Resolved () (f w).

Module Store.
Import JsString JsNumber Js.

Definition SURVEYS_STORE : string := "pulse-surveys".
Definition RESPONSES_STORE : string := "pulse-responses".
Definition TRACKING_STORE : string := "pulse-tracking".

Definition consumeFault (w : World) : World :=
  {| surveyStore := surveyStore w; responseStore := responseStore w;
     trackingStore := trackingStore w; writes := writes w;
     posted := posted w; faults := tail (faults w) |}.

(** One request to the blob backend. *)
Definition request : Async () := fun w =>
  match faults w with
  | Some reason :: _ => Rejected (StorageError reason) (consumeFault w)
  | _ => Resolved () (consumeFault w)
  end.

(** What [JSON.parse(JSON.stringify(v))] makes of an array element. *)
Fixpoint jsonElement (v : value) : value :=
  match v with
  | VUndefined => VNull
  | VNumber x =>
      match Prim2SF x with
      | S754_finite _ _ _ => v
      | S754_zero _ => VNumber zero
      | _ => VNull
      end
  | VArray items => VArray (map jsonElement items)
  | _ => v
  end.

(** ... and of an object: a property that is [undefined] is left out. *)
Definition jsonObject (r : gmap string value) : gmap string value :=
  omap (fun v => match v with
                 | VUndefined => None
                 | _ => Some (jsonElement v)
                 end) r.

(** [getSurveyStore().get(key, { type: "json" })] *)
Definition getSurveyJSON (key : string) : Async (option entry) :=
  _ ← request; reads (fun w => surveyStore w !! key).

(** [getSurveyStore().setJSON(key, e)] *)
Definition setSurveyJSON (key : string) (e : entry) : Async () :=
  _ ← request;
  updates (fun w =>
    {| surveyStore := <[key := e]> (surveyStore w); responseStore := responseStore w;
       trackingStore := trackingStore w; writes := writes w ++ [(SURVEYS_STORE, key)];
       posted := posted w; faults := faults w |}).

Definition getResponseJSON (key : string) : Async (option (list (gmap string value))) :=
  _ ← request; reads (fun w => responseStore w !! key).

Definition setResponseJSON (key : string) (l : list (gmap string value)) : Async () :=
  _ ← request;
  updates (fun w =>
    {| surveyStore := surveyStore w;
       responseStore := <[key := map jsonObject l]> (responseStore w);
       trackingStore := trackingStore w; writes := writes w ++ [(RESPONSES_STORE, key)];
       posted := posted w; faults := faults w |}).

Definition getTrackingJSON (key : string) : Async (option (list string)) :=
  _ ← request; reads (fun w => trackingStore w !! key).

Definition setTrackingJSON (key : string) (l : list string) : Async () :=
  _ ← request;
  updates (fun w =>
    {| surveyStore := surveyStore w; responseStore := responseStore w;
       trackingStore := <[key := l]> (trackingStore w);
       writes := writes w ++ [(TRACKING_STORE, key)];
       posted := posted w; faults := faults w |}).

(** *** Survey records *)

Definition getSurvey (id : string) : Async (option entry) := getSurveyJSON id.

(** *** Response storage *)

Definition withResponseCount (n : nat) (s : Survey) : Survey :=
  {| id := id s; title := title s; questions := questions s; createdBy := createdBy s;
     settings := settings s; status := status s; responseCount := n;
     createdAt := createdAt s |}.

(** [addResponse].  An index array found under [surveyId] is truthy too: it
    takes the assignment of [responseCount], which [setJSON] then does not
    serialise. *)
Definition addResponse (surveyId : string) (answers : gmap string value) : Async nat :=
  stored ← getResponseJSON surveyId;
  let existing := default [] stored ++ [answers] in
  _ ← setResponseJSON surveyId existing;
  survey ← getSurveyJSON surveyId;
  _ ← match survey with
      | Some (SurveyRecord s) =>
          setSurveyJSON surveyId (SurveyRecord (withResponseCount (length existing) s))
      | Some (UserIndex ids) => setSurveyJSON surveyId (UserIndex ids)
      | None => mret ()
      end;
  mret (length existing).

Definition getResponses (surveyId : string) : Async (list (gmap string value)) :=
  stored ← getResponseJSON surveyId; mret (default [] stored).

(** *** Anonymous tracking *)

(** [crypto.createHash("sha256").update(`${surveyId}:${userId}`).digest("hex")] *)
Definition digest (surveyId userId : string) : string :=
  Sha256.digestHex (surveyId +:+ ":" +:+ userId).

(** [set.includes(hash)] *)
Definition Array_includes (set : list string) (hash : string) : bool :=
  existsb (String.eqb hash) set.

Definition hasUserResponded (surveyId userId : string) : Async bool :=
  let hash := digest surveyId userId in
  stored ← getTrackingJSON surveyId;
  mret (Array_includes (default [] stored) hash).

Definition markUserResponded (surveyId userId : string) : Async () :=
  let hash := digest surveyId userId in
  stored ← getTrackingJSON surveyId;
  let set := default [] stored in
  if Array_includes set hash then mret ()
  else setTrackingJSON surveyId (set ++ [hash]).

End Store.

(** ** The slash-command handler *)

Inductive Reply :=
  | SlackResponse (text : string)    (* [slackResponse(text)] *)
  | EmptyResponse (status : nat).    (* [new Response("", { status })] *)

Module Commands.
Import Js Store.

(** [slack.chat.postMessage({ channel, blocks, text })]; the Slack Web API
    is outside the model: the call is recorded and succeeds. *)
Definition postMessage (channel : string) (blocks : list Block) (text : string) : Async () :=
  updates (fun w =>
    {| surveyStore := surveyStore w; responseStore := responseStore w;
       trackingStore := trackingStore w; writes := writes w;
       posted := posted w ++ [(channel, blocks, text)]; faults := faults w |}).

(** [buildResultsBlocks] on what [getSurvey] resolved to.  An index array
    has none of the fields of a survey: its title and status print as
    [undefined], and reading its questions throws a [TypeError]. *)
Definition resultsBlocks (e : entry) (responses : list (gmap string value))
    (ctx : ViewerContext) : completion (list Block) :=
  match e with
  | SurveyRecord survey => Blocks.buildResultsBlocks survey responses ctx
  | UserIndex _ =>
      if (length responses =? 0)%nat then
        Blocks.buildResultsBlocks
          {| id := "undefined"; title := "undefined"; questions := [];
             createdBy := "undefined"; settings := None; status := "undefined";
             responseCount := 0; createdAt := "undefined" |} responses ctx
      else Throw TypeError
  end.

Definition titleOf (e : entry) : string :=
  match e with
  | SurveyRecord survey => title survey
  | UserIndex _ => "undefined"
  end.

(** [handleShare(slack, channelId, surveyId)]; [surveyId] is [args[0]],
    [undefined] when the command has no argument. *)
Definition handleShare (channelId : string) (surveyId : option string) : Async Reply :=
  match surveyId with
  | Some surveyId =>
      if ToBoolean (VString surveyId) then
        survey ← getSurvey surveyId;
        match survey with
        | Some e =>
            responses ← getResponses surveyId;
            blocks ← await (resultsBlocks e responses {| isAdmin := false; isShare := true |});
            _ ← postMessage channelId blocks ("Survey results: " +:+ titleOf e);
            mret (EmptyResponse 200)
        | None =>
            mret (SlackResponse (":x: Survey `" +:+ surveyId +:+ "` not found."))
        end
      else mret (SlackResponse "Usage: `/pulse share <survey-id>`")
  | None => mret (SlackResponse "Usage: `/pulse share <survey-id>`")
  end.

(** The [try { ... } catch (err) { ... }] of [handler] around the
    sub-command handlers: whatever is thrown is logged to the console and
    answered with one message. *)
Definition tryCatch (body : Async Reply) : Async Reply := fun w =>
  match body w with
  | Rejected _ w' =>
      Resolved
        (SlackResponse
           ":warning: Something went wrong. Please try again or contact your admin.") w'
  | settled => settled
  end.

(** [case "share": return await handleShare(slack, channelId, surveyId)] *)
Definition shareCommand (channelId : string) (surveyId : option string) : Async Reply :=
  tryCatch (handleShare channelId surveyId).

End Commands.

(** ** Runs of several invocations *)

Module Scenario.
Import Store.

(** The backend answers every request. *)
Definition noFault (w : World) : Prop := Forall (fun f => f = None) (faults w).

(** Submissions to one survey, one after the other; the counts returned. *)
Fixpoint addResponses (surveyId : string) (answers : list (gmap string value))
  : Async (list nat) :=
  match answers with
  | [] => mret []
  | a :: rest =>
      n ← addResponse surveyId a;
      ns ← addResponses surveyId rest;
      mret (n :: ns)
  end.

(** Marks for several (survey, user) pairs, one after the other. *)
Fixpoint markAll (pairs : list (string * string)) : Async () :=
  match pairs with
  | [] => mret ()
  | (surveyId, userId) :: rest =>
      _ ← markUserResponded surveyId userId; markAll rest
  end.

(** The digests on record for a survey. *)
Definition tracked (w : World) (surveyId : string) : list string :=
  default [] (trackingStore w !! surveyId).

(** The responses on record for a survey. *)
Definition recorded (w : World) (surveyId : string) : list (gmap string value) :=
  default [] (responseStore w !! surveyId).

End Scenario.

(** ** Reference definitions, in the words of the specification *)

Module Spec.
Import JsString JsNumber Js.

(** The answers that a list of responses gives under one key. *)
Definition answersAt (key : string) (responses : list (gmap string value)) : list value :=
  map (fun r => prop r key) responses.

(** Two response lists that a public viewer may not tell apart: as many
    responses, the same answers to every question that is not free text,
    and as many non-empty answers to every free-text question. *)
Definition sameUpToFreeText (survey : Survey) (rs1 rs2 : list (gmap string value)) : Prop :=
  length rs1 = length rs2
  /\ forall i q, questions survey !! i = Some q ->
       if decide (type q = "free-text")
       then length (Blocks.freeTexts rs1 (questionKey i))
            = length (Blocks.freeTexts rs2 (questionKey i))
       else answersAt (questionKey i) rs1 = answersAt (questionKey i) rs2.

(** The count-only rendering of a free-text question in a shared view. *)
Definition countOnly (q : Question) (n : nat) : Block :=
  SectionBlock
    ("*" +:+ label q +:+ "*" +:+ LF +:+ "_" +:+ JsString.ofNat n
     +:+ " free-text responses (visible to survey creator only)_").

(** The viewer of a public share. *)
Definition publicShare : ViewerContext := {| isAdmin := false; isShare := true |}.

(** *** CSV fields *)







(** *** Scale statistics *)

(** An answer that does not count: missing or not a number ([parseFloat]
    finds no number in it), or zero. *)
Definition unanswered (v : value) : bool :=
  isNaN (parseFloat v) || PrimFloat.eqb (parseFloat v) zero.

Definition numericAnswers (key : string) (responses : list (gmap string value)) : list float :=
  map parseFloat (List.filter (fun v => negb (unanswered v)) (answersAt key responses)).

Fixpoint sumFrom (acc : float) (values : list float) : float :=
  match values with
  | [] => acc
  | v :: rest => sumFrom (acc + v)%float rest
  end.

Definition mean (values : list float) : float :=
  (sumFrom zero values / JsNumber.ofNat (length values))%float.

Definition roundToOneDecimal (x : float) : float :=
  (Math_round (x * JsNumber.ofZ 10) / JsNumber.ofZ 10)%float.

(** How many of the values are exactly [n]. *)
Fixpoint bucket (n : Z) (values : list float) : nat :=
  match values with
  | [] => 0
  | v :: rest => (if PrimFloat.eqb v (JsNumber.ofZ n) then 1 else 0) + bucket n rest
  end%nat.

(** *** Option counts *)

(** The property keys that the selections of a question stand for. *)
Definition optionKeys (key : string) (responses : list (gmap string value)) : list string :=
  map ToString (Blocks.allSelections responses key).

(** The names that an empty object inherits from [Object.prototype]. *)
Definition inherited : list string := "__proto__" :: nativeFunctionKeys.

Fixpoint frequency (k : string) (keys : list string) : nat :=
  match keys with
  | [] => 0
  | x :: rest => (if String.eqb x k then 1 else 0) + frequency k rest
  end%nat.

(** The distinct keys, in the order in which each is first seen. *)
Fixpoint firstSeen (keys : list string) : list string :=
  match keys with
  | [] => []
  | k :: rest => k :: List.filter (fun x => negb (String.eqb x k)) (firstSeen rest)
  end.

(** Each distinct key with the number of times it was selected. *)
Definition tally (keys : list string) : list (string * nat) :=
  map (fun k => (k, frequency k keys)) (firstSeen keys).

(** *** Option lines *)

(** The options that one line gives to question [n]: those of a line
    [Q<n>: opt1, opt2, ...], split at the commas and trimmed. *)
Definition lineOptions (n : Z) (line : string) : option (list string) :=
  match Parser.matchOptionLine line with
  | Some (digits, rest) =>
      if decide (Parser.parseInt digits = n) then Some (map trim (split "," rest)) else None
  | None => None
  end.

(** The options mapped to [n]: those of the last line that gives any. *)
Definition optionsFor (n : Z) (lines : list string) : option (list string) :=
  last (omap (lineOptions n) lines).

Fixpoint allDigits (s : string) : bool :=
  match s with
  | String c r => isDigit c && allDigits r
  | EmptyString => true
  end.


(** The text of a line [Q<digits>: opt1, opt2, ...]; [q] is the letter Q in
    either case. *)
Definition optionLine (q : ascii) (digits : string) (opts : list string) : string :=
  String q (digits +:+ ": " +:+ join ", " opts).

(** A value that [JSON.parse(JSON.stringify(v))] gives back as it is, when
    it is not an array: [null], a boolean, a string, a finite number other
    than [-0]. *)
Definition jsonScalar (v : value) : bool :=
  match v with
  | VNull | VBoolean _ | VString _ => true
  | VNumber x =>
      match Prim2SF x with
      | S754_finite _ _ _ => true
      | S754_zero negative => negb negative
      | _ => false
      end
  | _ => false
  end.

(** ... or an array of such values. *)
Definition jsonValue (v : value) : bool :=
  match v with
  | VArray items => forallb jsonScalar items
  | _ => jsonScalar v
  end.

(** A response made of such values. *)
Definition jsonRecord (r : gmap string value) : Prop :=
  map_Forall (fun _ v => jsonValue v = true) r.

End Spec.

(** ** Sample data *)

Module Sample.
Import JsString Js.

Definition number (z : Z) : value := VNumber (JsNumber.ofZ z).

Definition question (label type : string) : Question :=
  {| label := label; type := type; options := None |}.

(** Scale answers 5, 5, 4, 3 and 0 to question 0. *)
Definition ratings : list (gmap string value) :=
  map (fun z => {[ "q_0" := number z ]}) [5; 5; 4; 3; 0].

(** Two responses selecting A and B, one selecting A. *)
Definition selections : list (gmap string value) :=
  [ {[ "q_0" := VArray [VString "A"; VString "B"] ]};
    {[ "q_0" := VArray [VString "A"; VString "B"] ]};
    {[ "q_0" := VArray [VString "A"] ]} ].

(** Three responses: one selecting A, one selecting B and C, one selecting
    C. *)
Definition ranked : list (gmap string value) :=
  [ {[ "q_0" := VArray [VString "A"] ]};
    {[ "q_0" := VArray [VString "B"; VString "C"] ]};
    {[ "q_0" := VArray [VString "C"] ]} ].

(** One response selecting the options 2 and 1, in this order. *)
Definition numbered : list (gmap string value) :=
  [ {[ "q_0" := VArray [VString "2"; VString "1"] ]} ].

(** A creation form: three questions, options for the second, given twice. *)
Definition rawQuestions : string :=
  "How supported do you feel?" +:+ LF +:+ "Which events? (multi-select)" +:+ LF
  +:+ "Which days? (Multi-Select)" +:+ LF +:+ "Any other feedback? (free-text)".

Definition rawOptions : string :=
  "Q2: Tea" +:+ LF +:+ "not an option line" +:+ LF
  +:+ "q2 : Social events,Mentorship ,  Speaker series".

(** A survey with one question of each type, free text shared by setting. *)
Definition survey : Survey :=
  {| id := "a1b2c3d4";
     title := "Team pulse";
     questions :=
       [ question "Mood" "scale";
         {| label := "Which?"; type := "multi-select"; options := Some ["A"; "B"] |};
         question "Why?" "free-text" ];
     createdBy := "U1";
     settings := Some {| showResults := false; shareFreetext := true |};
     status := "open";
     responseCount := 0;
     createdAt := "2024-05-01T10:00:00.000Z" |}.

(** The answers of one submission, as [handleSurveyResponseSubmit] stores
    them: the rating as a string, the selected values, the text. *)
Definition answers (rating : Z) (selected : list string) (text : string)
  : gmap string value :=
  {[ "q_0" := VString (JsString.ofZ rating);
     "q_1" := VArray (map VString selected);
     "q_2" := VString text ]}.

(** Two submissions, and the same two with another text in the first. *)
Definition told : list (gmap string value) :=
  [answers 4 ["A"] "my manager is Bob"; answers 5 ["A"; "B"] EmptyString].

Definition toldOtherwise : list (gmap string value) :=
  [answers 4 ["A"] "nothing to add"; answers 5 ["A"; "B"] EmptyString].

(** Empty stores, a backend that answers. *)
Definition fresh : World :=
  {| surveyStore := ∅; responseStore := ∅; trackingStore := ∅;
     writes := []; posted := []; faults := [] |}.

(** A response on record under an id that names no survey. *)
Definition orphaned : World :=
  {| surveyStore := ∅;
     responseStore := {[ "0badc0de" := [answers 4 ["A"] "first"] ]};
     trackingStore := ∅; writes := []; posted := []; faults := [] |}.

(** The survey, just created. *)
Definition created : World :=
  {| surveyStore := {[ "a1b2c3d4" := SurveyRecord survey ]};
     responseStore := ∅; trackingStore := ∅;
     writes := []; posted := []; faults := [] |}.

(** One response on record; the backend answers the first request and fails
    on the second. *)
Definition outage : World :=
  {| surveyStore := {[ "a1b2c3d4" := SurveyRecord survey ]};
     responseStore := {[ "a1b2c3d4" := [answers 4 ["A"] "fine"] ]};
     trackingStore := ∅; writes := []; posted := [];
     faults := [None; Some "fetch failed"] |}.

(** One response on record with a rating of 7; the backend answers. *)
Definition outOfRange : World :=
  {| surveyStore := {[ "a1b2c3d4" := SurveyRecord survey ]};
     responseStore := {[ "a1b2c3d4" := [answers 7 ["A"] "fine"] ]};
     trackingStore := ∅; writes := []; posted := []; faults := [] |}.

End Sample.

(** ** Survey records and the per-user index  (lib/store.js) *)

(** What [handleCreateSurveySubmit] hands to [createSurvey]:
    [{ title, questions, createdBy, settings }]. *)
Module Draft.
Record t := {
  title : string;
  questions : list Question;
  createdBy : string;
  settings : Settings;
}.
End Draft.

(** The second argument of [updateSurvey]: the fields to overwrite. *)
Module Updates.
Record t := {
  id : option string;
  title : option string;
  questions : option (list Question);
  createdBy : option string;
  settings : option Settings;
  status : option string;
  responseCount : option nat;
  createdAt : option string;
}.

Definition none : t :=
  {| id := None; title := None; questions := None; createdBy := None;
     settings := None; status := None; responseCount := None; createdAt := None |}.
End Updates.

Module Surveys.
Import Store.

(** [crypto.randomUUID().slice(0, 8)]; a UUID is made of ASCII characters. *)
Definition shortId (uuid : string) : string := String.substring 0 8 uuid.

(** [createSurvey(survey)].  [uuid] is what [crypto.randomUUID()] returns to
    this call and [now] what [new Date().toISOString()] returns. *)
Definition createSurvey (uuid now : string) (survey : Draft.t) : Async Survey :=
  let id := shortId uuid in
  let record :=
    {| id := id;
       title := Draft.title survey;
       questions := Draft.questions survey;
       createdBy := Draft.createdBy survey;
       settings := Some (Draft.settings survey);
       status := "open";
       responseCount := 0;
       createdAt := now |} in
  _ ← setSurveyJSON id (SurveyRecord record);
  mret record.

(** [{ ...survey, ...updates }] *)
Definition spread (survey : Survey) (updates : Updates.t) : Survey :=
  {| id := default (id survey) (Updates.id updates);
     title := default (title survey) (Updates.title updates);
     questions := default (questions survey) (Updates.questions updates);
     createdBy := default (createdBy survey) (Updates.createdBy updates);
     settings := match Updates.settings updates with
                 | Some s => Some s
                 | None => settings survey
                 end;
     status := default (status survey) (Updates.status updates);
     responseCount := default (responseCount survey) (Updates.responseCount updates);
     createdAt := default (createdAt survey) (Updates.createdAt updates) |}.

(** [updateSurvey(id, updates)]; [None] is the [null] it returns when nothing
    is stored under [id].  An index array found under [id] is truthy too:
    spreading it gives an object that is neither a survey nor an index, which
    the survey store of this model cannot hold, and the outcome is left
    undetermined. *)
Definition updateSurvey (id : string) (updates : Updates.t) : Async (option Survey) :=
  survey ← getSurveyJSON id;
  match survey with
  | None => mret None
  | Some (SurveyRecord s) =>
      let updated := spread s updates in
      _ ← setSurveyJSON id (SurveyRecord updated);
      mret (Some updated)
  | Some (UserIndex _) => fun w => Undetermined w
  end.

(** [closeSurvey(id)] *)
Definition closeSurvey (id : string) : Async (option Survey) :=
  updateSurvey id
    {| Updates.id := None; Updates.title := None; Updates.questions := None;
       Updates.createdBy := None; Updates.settings := None;
       Updates.status := Some "closed";
       Updates.responseCount := None; Updates.createdAt := None |}.

(** The key [`user_${userId}`] of a creator's index. *)
Definition indexKey (userId : string) : string := "user_" +:+ userId.

(** [addSurveyToUserIndex(userId, surveyId)].  A survey record found under
    the key has no [push]: the call throws a [TypeError]. *)
Definition addSurveyToUserIndex (userId surveyId : string) : Async () :=
  let key := indexKey userId in
  stored ← getSurveyJSON key;
  match stored with
  | Some (SurveyRecord _) => await (Throw TypeError)
  | Some (UserIndex ids) => setSurveyJSON key (UserIndex (ids ++ [surveyId]))
  | None => setSurveyJSON key (UserIndex [surveyId])
  end.

(** The ids listed for a creator. *)
Definition indexed (w : World) (userId : string) : list string :=
  match surveyStore w !! indexKey userId with
  | Some (UserIndex ids) => ids
  | _ => []
  end.

(** Several surveys added to one creator's index, one after the other. *)
Fixpoint addAllToUserIndex (userId : string) (surveyIds : list string) : Async () :=
  match surveyIds with
  | [] => mret ()
  | surveyId :: rest =>
      _ ← addSurveyToUserIndex userId surveyId; addAllToUserIndex userId rest
  end.

(** The sixteen hexadecimal digits of a UUID. *)
Definition isHexDigit (c : ascii) : bool :=
  let n := N_of_ascii c in
  ((48 <=? n) && (n <=? 57) || (97 <=? n) && (n <=? 102))%N.

Fixpoint allHex (s : string) : bool :=
  match s with
  | String c r => isHexDigit c && allHex r
  | EmptyString => true
  end.

End Surveys.

(** ** Forms of input *)

Module Lines.
Import JsString.
(** A question line as the form asks for it: not empty, no white space at
    either end, no line feed. *)
Definition plainLine (l : string) : Prop :=
  l ≠ EmptyString /\ trimStart l = l /\ trimEnd l = l /\ includes LF l = false.

(** What the form asks to write after the label of a question of a type
    other than the default one. *)
Definition marker (type : string) : string :=
  if String.eqb type "multi-select" then " (multi-select)"
  else if String.eqb type "free-text" then " (free-text)"
  else EmptyString.

(** The line that asks for the question [q]. *)
Definition written (q : Question) : string := label q +:+ marker (type q).

(** A label that can be written on a line: it reads as neither marker. *)
Definition plainLabel (l : string) : Prop :=
  plainLine l
  /\ Parser.test "(multi-select)" l = false /\ Parser.test "(free-text)" l = false.

(** No character of [m] matches a space when case is ignored. *)
Definition noSpace (m : string) : bool :=
  forallb (fun c => negb (Ascii.eqb (foldCase c) " ")) (String.list_ascii_of_string m).

(** A word of a command: no white space in it. *)
Fixpoint word (s : string) : bool :=
  match s with
  | EmptyString => true
  | String _ r => match stripAny whiteSpace s with
                  | Some _ => false
                  | None => word r
                  end
  end.

(** The text of a command: the sub-command, then a space and the survey id
    when one is given. *)
Definition command (subcommand : string) (surveyId : option string) : string :=
  match surveyId with
  | Some surveyId => subcommand +:+ " " +:+ surveyId
  | None => subcommand
  end.
End Lines.

(** ** Request signatures  (lib/verify.js) *)

(** HMAC-SHA-256 (RFC 2104), as [crypto.createHmac("sha256", key)] computes it. *)
Module Hmac.
Import Sha256.

(** The SHA-256 of a message of bytes, as 32 bytes. *)
Definition sha256 (msg : list Z) : list Z :=
  let bs := pad msg in
  let ws := wordsOf (length bs) bs in
  flat_map (bigEndian 4) (fold_left compress (blocksOf (length ws) ws) H0).

(** The key on one block of 64 bytes: hashed when it is longer, then filled
    with zero bytes. *)
Definition blockKey (key : list Z) : list Z :=
  let k := if (64 <? length key)%nat then sha256 key else key in
  k ++ replicate (64 - length k) 0.

Definition hmac (key msg : list Z) : list Z :=
  let k := blockKey key in
  sha256 (map (Z.lxor 0x5c) k ++ sha256 (map (Z.lxor 0x36) k ++ msg)).

Definition hex (bs : list Z) : string :=
  String.string_of_list_ascii
    (flat_map (fun b => [hexDigit (Z.shiftr b 4); hexDigit (Z.land b 0xf)]) bs).

(** [crypto.createHmac("sha256", key).update(msg).digest("hex")] *)
Definition digestHex (key msg : string) : string :=
  hex (hmac (bytesOf key) (bytesOf msg)).

End Hmac.

Module Verify.
Import JsString.

Definition isHexDigit (c : ascii) : bool :=
  let n := N_of_ascii c in
  ((48 <=? n) && (n <=? 57) || (65 <=? n) && (n <=? 70) || (97 <=? n) && (n <=? 102))%N.

Definition hexValue (c : ascii) : Z :=
  let n := Z.of_N (N_of_ascii c) in
  if n <=? 57 then n - 48 else if n <=? 70 then n - 55 else n - 87.

(** The longest prefix of digits of the radix, read from the left. *)
Fixpoint readDigits (hexadecimal : bool) (s : string) (acc : option Z) : option Z :=
  match s with
  | String c r =>
      if (if hexadecimal then isHexDigit c else isDigit c)
      then readDigits hexadecimal r
             (Some ((if hexadecimal then 16 else 10) * default 0 acc + hexValue c))
      else acc
  | EmptyString => acc
  end.

(** [parseInt(s)] without a radix: leading white space is skipped, a sign
    and, after it, the prefix [0x] are read, then the longest run of digits;
    no digit gives [NaN], here [None].  The result is the integer that the
    digits denote; the Number that JavaScript returns is that integer
    rounded to a double. *)
Definition parseInt (s : string) : option Z :=
  let s1 := trimStart s in
  let '(negative, s2) :=
    match s1 with
    | String "-" r => (true, r)
    | String "+" r => (false, r)
    | _ => (false, s1)
    end in
  let '(hexadecimal, s3) :=
    match s2 with
    | String "0" (String "x" r) | String "0" (String "X" r) => (true, r)
    | _ => (false, s2)
    end in
  match readDigits hexadecimal s3 None with
  | Some n => Some (if negative then - n else n)
  | None => None
  end.

(** [crypto.timingSafeEqual(Buffer.from(a), Buffer.from(b))]: buffers of
    different byte lengths make it throw a [RangeError]. *)
Definition timingSafeEqual (a b : string) : completion bool :=
  if (String.length a =? String.length b)%nat then Normal (String.eqb a b)
  else Throw RangeError.

(** [verifySlackRequest(headers, body)].  [signingSecret] is
    [process.env.SLACK_SIGNING_SECRET] and [now] is [Date.now()], a whole
    number of milliseconds of magnitude at most 8.64e15; on such numbers the
    division by 1000, [Math.floor] and the subtraction are exact in doubles,
    and the double that [parseInt] returns is below the result exactly when
    the integer it rounds is. *)
Definition verifySlackRequest (signingSecret : option string) (now : Z)
    (headers : gmap string string) (body : string) : completion bool :=
  let timestamp := headers !! "x-slack-request-timestamp" in
  let slackSignature := headers !! "x-slack-signature" in
  match timestamp, slackSignature, signingSecret with
  | Some timestamp, Some slackSignature, Some signingSecret =>
      if String.eqb timestamp EmptyString || String.eqb slackSignature EmptyString
         || String.eqb signingSecret EmptyString
      then Normal false
      else
        let fiveMinutesAgo := now / 1000 - 300 in
        if match parseInt timestamp with
           | Some t => t <? fiveMinutesAgo
           | None => false
           end
        then Normal false
        else
          let sigBasestring := "v0:" +:+ timestamp +:+ ":" +:+ body in
          let mySignature := "v0=" +:+ Hmac.digestHex signingSecret sigBasestring in
          timingSafeEqual mySignature slackSignature
  | _, _, _ => Normal false
  end.

End Verify.

(** ** Survey cards and response forms  (lib/blocks.js) *)

(** A button [{ type: "button", text: { type: "plain_text", text }, action_id,
    value, style }]. *)
Record Button := {
  buttonText : string;
  buttonAction : string;
  buttonValue : string;
  buttonStyle : string;
}.

(** A block of a message: a section or a divider, or
    [{ type: "actions", block_id, elements }]. *)
Inductive MessageBlock :=
  | Plain (b : Block)
  | ActionsBlock (block_id : string) (elements : list Button).

(** The element of an input block; an option is its text and its value. *)
Inductive Element :=
  | StaticSelect (action_id placeholder : string) (options : list (string * string))
  | MultiStaticSelect (action_id placeholder : string) (options : list (string * string))
  | PlainTextInput (action_id placeholder : string) (multiline : bool).

(** A block of a modal: a section or a divider, or
    [{ type: "input", block_id, label, element, optional }]. *)
Inductive ModalBlock :=
  | ModalContent (b : Block)
  | Input (block_id label : string) (element : Element) (optional : bool).

(** A modal view.  The creation form of [buildCreateSurveyModal] is the same
    on every call but for its [private_metadata]. *)
Inductive View :=
  | CreateSurveyModal (private_metadata : string)
  | Modal (callback_id private_metadata title submit close : string)
      (blocks : list ModalBlock).

(** The key [`answer_${i}`] of the element of question [i]. *)
Definition answerKey (i : nat) : string := "answer_" +:+ JsString.ofNat i.

Module Forms.
Import JsString Js.

(** [buildCreateSurveyModal(channelId)]: [private_metadata] is
    [channelId || ""]. *)
Definition buildCreateSurveyModal (channelId : string) : View :=
  CreateSurveyModal (if ToBoolean (VString channelId) then channelId else EmptyString).

(** The option of the rating [n], from 1 to 5: [n] black stars, [5 - n] white
    stars and the number; the value is [String(n)]. *)
Definition ratingOption (n : nat) : string * string :=
  (copies n "★" +:+ copies (5 - n) "☆" +:+ " (" +:+ ofNat n +:+ ")", ofNat n).

(** The body of [survey.questions.forEach((q, i) => { ... })]: the blocks
    that one question pushes. *)
Definition questionInput (i : nat) (q : Question) : list ModalBlock :=
  let blockId := questionKey i in
  if String.eqb (type q) "scale" then
    [Input blockId (label q)
       (StaticSelect (answerKey i) "Select a rating" (map ratingOption [1; 2; 3; 4; 5]%nat))
       false]
  else if String.eqb (type q) "multi-select" then
    [Input blockId (label q)
       (MultiStaticSelect (answerKey i) "Select all that apply"
          (map (fun opt => (opt, opt)) (default [] (options q))))
       false]
  else if String.eqb (type q) "free-text" then
    [Input blockId (label q)
       (PlainTextInput (answerKey i) "Your response is anonymous..." true)
       true]
  else [].

(** [buildResponseModal(survey)] *)
Definition buildResponseModal (survey : Survey) : View :=
  Modal "survey_response_submit" (id survey) "Pulse Survey" "Submit" "Cancel"
    ([ModalContent
        (SectionBlock
           ("*" +:+ title survey +:+ "*" +:+ LF
            +:+ ":lock: Your responses are completely anonymous. No identifying information is stored."));
      ModalContent DividerBlock]
     ++ concat (imap questionInput (questions survey))).

(** [buildSurveyMessage(survey)] *)
Definition buildSurveyMessage (survey : Survey) : list MessageBlock :=
  [ Plain
      (SectionBlock
         (":clipboard: *" +:+ title survey +:+ "*" +:+ LF +:+ LF
          +:+ ":lock: All responses are *completely anonymous*. Your identity is never stored."
          +:+ LF +:+ ":bar_chart: " +:+ ofNat (length (questions survey)) +:+ " question"
          +:+ (if (length (questions survey) =? 1)%nat then EmptyString else "s")
          +:+ " · Takes about 1 minute"));
    Plain DividerBlock;
    ActionsBlock ("survey_actions_" +:+ id survey)
      [ {| buttonText := "Take Survey"; buttonAction := "take_survey";
           buttonValue := id survey; buttonStyle := "primary" |} ] ].

(** [buildHelpBlocks(docsUrl)]; [None] is [null]. *)
Definition buildHelpBlocks (docsUrl : option string) : list Block :=
  [ SectionBlock ":clipboard: *Pulse Survey Bot - Help*";
    DividerBlock;
    SectionBlock
      ("*Getting Started*" +:+ LF
       +:+ "Pulse Survey Bot lets you run anonymous surveys right in Slack. Perfect for ERG feedback, team pulse checks, and more."
       +:+ LF +:+ LF
       +:+ ":lock: *Privacy First:* All responses are completely anonymous. We never store who responded - only a one-way hash to prevent duplicate submissions.");
    SectionBlock
      ("*Commands*" +:+ LF
       +:+ "• `/pulse create` - Create a new survey" +:+ LF
       +:+ "• `/pulse results <id>` - View survey results" +:+ LF
       +:+ "• `/pulse share <id>` - Post results to the channel" +:+ LF
       +:+ "• `/pulse export <id>` - Download results as CSV" +:+ LF
       +:+ "• `/pulse close <id>` - Close a survey" +:+ LF
       +:+ "• `/pulse help` - Show this help message");
    SectionBlock
      ("*Quick Start*" +:+ LF
       +:+ "1️⃣ Type `/pulse create` in any channel" +:+ LF
       +:+ "2️⃣ Fill in your survey title and questions" +:+ LF
       +:+ "3️⃣ The bot posts a survey card with a *Take Survey* button" +:+ LF
       +:+ "4️⃣ Team members click the button and respond anonymously" +:+ LF
       +:+ "5️⃣ Use `/pulse results <id>` to check responses anytime");
    SectionBlock
      ("*Question Types*" +:+ LF
       +:+ "• *Rating scale (default)* - 1-5 star rating" +:+ LF
       +:+ "• *(multi-select)* - Multiple choice, select all that apply" +:+ LF
       +:+ "• *(free-text)* - Open-ended text response (admin-only by default)") ]
  ++ match docsUrl with
     | Some url =>
         if ToBoolean (VString url) then
           [ DividerBlock;
             SectionBlock
               (":book: *Full documentation:* <" +:+ url +:+ "|Pulse Survey User Guide>") ]
         else []
     | None => []
     end.

End Forms.

(** ** Slack, as the handlers call it *)

(** A call of the Slack Web API: [slack.views.open({ trigger_id, view })],
    [slack.chat.postEphemeral({ channel, user, blocks, text })],
    [slack.chat.postMessage({ channel, blocks, text })] and
    [slack.filesUploadV2({ channel_id, content, filename, title,
    initial_comment })]; [blocks] is [None] where the call passes none. *)
Inductive SlackCall :=
  | views_open (trigger_id : string) (view : View)
  | chat_postEphemeral (channel user : string) (blocks : option (list Block)) (text : string)
  | chat_postMessage (channel : string) (blocks : option (list MessageBlock)) (text : string)
  | filesUploadV2 (channel_id content filename title initial_comment : string).

(** One invocation of a function: the world of the stores, and the calls
    made to Slack so far, latest last.  The Slack Web API is outside the
    model: a call is recorded and succeeds. *)
Record Session := {
  world : World;
  calls : list SlackCall;
}.

(** How an [async] handler settles. *)
Inductive settled (A : Type) :=
  | Fulfilled (a : A) (s : Session)
  | Failed (e : exn) (s : Session)
  | Unsettled (s : Session).

Arguments Fulfilled {A} a s.
Arguments Failed {A} e s.
Arguments Unsettled {A} s.

Definition Task (A : Type) : Type := Session -> settled A.

#[global] Instance Task_ret : MRet Task := fun A a s => Fulfilled a s.

#[global] Instance Task_bind : MBind Task := fun A B k m s =>
  match m s with
  | Fulfilled a s' => k a s'
  | Failed e s' => Failed e s'
  | Unsettled s' => Unsettled s'
  end.

(** A call of a store function. *)
Definition store {A : Type} (m : Async A) : Task A := fun s =>
  match m (world s) with
  | Resolved a w => Fulfilled a {| world := w; calls := calls s |}
  | Rejected e w => Failed e {| world := w; calls := calls s |}
  | Undetermined w => Unsettled {| world := w; calls := calls s |}
  end.

(** A call of the Slack Web API. *)
Definition slack (c : SlackCall) : Task () := fun s =>
  Fulfilled () {| world := world s; calls := calls s ++ [c] |}.

(** A synchronous call. *)
Definition run {A : Type} (c : completion A) : Task A := fun s =>
  match c with
  | Normal a => Fulfilled a s
  | Throw e => Failed e s
  | ImplementationDefined => Unsettled s
  end.

(** The session in which a handler has settled. *)
Definition sessionOf {A : Type} (r : settled A) : Session :=
  match r with
  | Fulfilled _ s | Failed _ s | Unsettled s => s
  end.

(** What a function returns to the platform: [new Response(body, { status })],
    or, with status 200 and the content type of JSON, the message
    [{ response_type: "ephemeral", blocks, text }] or the answer to a modal
    [{ response_action, errors: { [field]: message } }]. *)
Inductive Response :=
  | Body (body : string) (status : nat)
  | Ephemeral (blocks : option (list Block)) (text : string)
  | ResponseAction (action : string) (errors : option (string * string)).

(** ** The [/pulse] slash command *)

(** The fields of the command that the handler reads from the body of the
    request: [params.get("text")], which may be missing, and
    [params.get("trigger_id")], [params.get("user_id")],
    [params.get("channel_id")]. *)
Module Params.
Record t := {
  text : option string;
  trigger_id : string;
  user_id : string;
  channel_id : string;
}.
End Params.

Module Pulse.
Import JsString Js Store.

(** [slackResponse(text)] *)
Definition slackResponse (text : string) : Response := Ephemeral None text.

Definition ofReply (r : Reply) : Response :=
  match r with
  | SlackResponse text => slackResponse text
  | EmptyResponse status => Body EmptyString status
  end.

(** [command.split(/\s+/)]: the pieces between the runs of white space; a
    run at either end leaves an empty piece there. *)
Fixpoint splitWhiteSpace (fuel : nat) (s : string) : list string :=
  match fuel, s with
  | S f, String c r =>
      match stripAny whiteSpace s with
      | Some rest => EmptyString :: splitWhiteSpace f (trimStart rest)
      | None =>
          match splitWhiteSpace f r with
          | w :: ws => String c w :: ws
          | [] => [String c EmptyString]
          end
      end
  | _, _ => [s]
  end.

(** The ASCII letters of a string in lower case.  [toLowerCase] also
    rewrites letters outside ASCII: what it puts in their place has a
    character outside ASCII, but for the Kelvin sign, which becomes [k], a
    letter that no name of a sub-command has.  So [toLowerCase] of a string
    and [lowerCase] of it are equal to the same names. *)
Definition lowerCase (s : string) : string :=
  String.string_of_list_ascii
    (map (fun a => let n := N_of_ascii a in
                   if ((65 <=? n) && (n <=? 90))%N then ascii_of_N (n + 32) else a)
       (String.list_ascii_of_string s)).

(** The argument of a sub-command when [if (!surveyId)] lets it pass. *)
Definition given (surveyId : option string) : option string :=
  match surveyId with
  | Some surveyId => if ToBoolean (VString surveyId) then Some surveyId else None
  | None => None
  end.

Definition notFound (surveyId : string) : Response :=
  slackResponse (":x: Survey `" +:+ surveyId +:+ "` not found.").

(** [userId === survey.createdBy]; an index array has no [createdBy]. *)
Definition isCreator (userId : string) (e : entry) : bool :=
  match e with
  | SurveyRecord survey => String.eqb userId (createdBy survey)
  | UserIndex _ => false
  end.

(** [handleCreate(slack, triggerId, channelId)] *)
Definition handleCreate (triggerId channelId : string) : Task Response :=
  _ ← slack (views_open triggerId (Forms.buildCreateSurveyModal channelId));
  mret (Body EmptyString 200).

(** [handleResults(slack, channelId, userId, surveyId)] *)
Definition handleResults (channelId userId : string) (surveyId : option string)
  : Task Response :=
  match given surveyId with
  | None =>
      mret (slackResponse
              ("Usage: `/pulse results <survey-id>`" +:+ LF
               +:+ "You can find the survey ID at the bottom of any survey post."))
  | Some surveyId =>
      survey ← store (getSurvey surveyId);
      match survey with
      | None => mret (notFound surveyId)
      | Some e =>
          responses ← store (getResponses surveyId);
          let isAdmin := isCreator userId e in
          blocks ← run (Commands.resultsBlocks e responses
                          {| isAdmin := isAdmin; isShare := false |});
          _ ← slack (chat_postEphemeral channelId userId (Some blocks)
                       ("Results for " +:+ Commands.titleOf e));
          mret (Body EmptyString 200)
      end
  end.

(** [handleExport(slack, channelId, userId, surveyId)].  Past the check of
    the creator the survey is a record. *)
Definition handleExport (channelId userId : string) (surveyId : option string)
  : Task Response :=
  match given surveyId with
  | None => mret (slackResponse "Usage: `/pulse export <survey-id>`")
  | Some surveyId =>
      survey ← store (getSurvey surveyId);
      match survey with
      | None => mret (notFound surveyId)
      | Some (SurveyRecord survey) =>
          if negb (String.eqb userId (createdBy survey)) then
            mret (slackResponse ":lock: Only the survey creator can export results.")
          else
            responses ← store (getResponses surveyId);
            let csv := Blocks.buildCsvExport survey responses in
            _ ← slack (filesUploadV2 channelId csv
                         ("pulse-survey-" +:+ surveyId +:+ "-results.csv")
                         (title survey +:+ " - Export")
                         (":bar_chart: CSV export for *" +:+ title survey +:+ "* ("
                          +:+ ofNat (length responses) +:+ " responses)"));
            mret (Body EmptyString 200)
      | Some (UserIndex _) =>
          mret (slackResponse ":lock: Only the survey creator can export results.")
      end
  end.

(** [handleClose(slack, channelId, userId, surveyId)] *)
Definition handleClose (channelId userId : string) (surveyId : option string)
  : Task Response :=
  match given surveyId with
  | None => mret (slackResponse "Usage: `/pulse close <survey-id>`")
  | Some surveyId =>
      survey ← store (getSurvey surveyId);
      match survey with
      | None => mret (notFound surveyId)
      | Some (SurveyRecord survey) =>
          if negb (String.eqb userId (createdBy survey)) then
            mret (slackResponse ":lock: Only the survey creator can close a survey.")
          else if String.eqb (status survey) "closed" then
            mret (slackResponse
                    (":information_source: Survey `" +:+ surveyId +:+ "` is already closed."))
          else
            _ ← store (Surveys.closeSurvey surveyId);
            _ ← slack (chat_postMessage channelId None
                         (":checkered_flag: *" +:+ title survey +:+ "* is now closed. "
                          +:+ ofNat (responseCount survey)
                          +:+ " total responses. Use `/pulse results " +:+ surveyId
                          +:+ "` to view results."));
            mret (Body EmptyString 200)
      | Some (UserIndex _) =>
          mret (slackResponse ":lock: Only the survey creator can close a survey.")
      end
  end.

(** [handleHelp()]; [docsUrl] is [process.env.DOCS_URL]. *)
Definition handleHelp (docsUrl : option string) : Task Response :=
  let docsUrl := match docsUrl with
                 | Some url => if ToBoolean (VString url) then Some url else None
                 | None => None
                 end in
  mret (Ephemeral (Some (Forms.buildHelpBlocks docsUrl)) "Pulse Survey Bot - Help").

(** The [try { ... } catch (err) { ... }] of [handler]. *)
Definition tryCatch (body : Task Response) : Task Response := fun s =>
  match body s with
  | Failed _ s' =>
      Fulfilled
        (slackResponse
           ":warning: Something went wrong. Please try again or contact your admin.") s'
  | r => r
  end.

(** The [switch (subcommand?.toLowerCase())] of [handler]. *)
Definition route (docsUrl : option string) (params : Params.t)
    (subcommand : string) (surveyId : option string) : Task Response :=
  let triggerId := Params.trigger_id params in
  let userId := Params.user_id params in
  let channelId := Params.channel_id params in
  let name := lowerCase subcommand in
  if String.eqb name "create" then handleCreate triggerId channelId
  else if String.eqb name "results" then handleResults channelId userId surveyId
  else if String.eqb name "share" then
    r ← store (Commands.handleShare channelId surveyId); mret (ofReply r)
  else if String.eqb name "export" then handleExport channelId userId surveyId
  else if String.eqb name "close" then handleClose channelId userId surveyId
  else if String.eqb name "help" || String.eqb name EmptyString then handleHelp docsUrl
  else
    mret (slackResponse
            ("Unknown command: `" +:+ subcommand
             +:+ "`. Try `/pulse help` for a list of commands.")).

(** [handler(req)].  [signingSecret] and [docsUrl] are the variables
    [SLACK_SIGNING_SECRET] and [DOCS_URL] of the environment, [now] is
    [Date.now()], [headers] and [rawBody] are those of the request, and
    [params] is what [new URLSearchParams(rawBody)] gives. *)
Definition handler (signingSecret docsUrl : option string) (now : Z)
    (headers : gmap string string) (rawBody : string) (params : Params.t)
  : Task Response :=
  valid ← run (Verify.verifySlackRequest signingSecret now headers rawBody);
  if negb valid then mret (Body "Invalid signature" 401)
  else
    let command := match Params.text params with
                   | Some text => trim text
                   | None => EmptyString
                   end in
    let parts := splitWhiteSpace (String.length command) command in
    let subcommand := default EmptyString (head parts) in
    let surveyId := parts !! 1%nat in
    tryCatch (route docsUrl params subcommand surveyId).

End Pulse.

(** ** Interactive payloads  (interactions.js) *)

(** An element of [payload.actions]. *)
Module Action.
Record t := {
  action_id : string;
  value : string;
}.
End Action.

(** The state of one element of a submitted form: the value of
    [selected_option] and the values of [selected_options], where the
    element has them, and [value], the text of a text input ([null] when it
    was left empty). *)
Module BlockState.
Record t := {
  selected_option : option string;
  selected_options : option (list string);
  value : value;
}.
End BlockState.

(** What the creation form submits: [values.survey_title.title_input.value],
    [values.survey_questions.questions_input.value],
    [values.multiselect_options?.options_input?.value] and the values of
    [values.survey_settings?.settings_checkboxes?.selected_options]. *)
Module CreateForm.
Record t := {
  title : string;
  rawQuestions : string;
  rawOptions : option string;
  selectedSettings : option (list string);
}.
End CreateForm.

(** The payload of an interaction, by its [type] and, for a submitted view,
    its [callback_id], with the fields that the handler reads: the ids of the
    user and of the channel, [trigger_id], [actions], and of a view its
    [private_metadata] and [state.values]. *)
Inductive Payload :=
  | block_actions (user_id channel_id trigger_id : string) (actions : list Action.t)
  | create_survey_submit (user_id private_metadata : string) (form : CreateForm.t)
  | survey_response_submit (user_id private_metadata : string)
      (values : gmap string (gmap string BlockState.t))
  | unhandled.

Module Interactions.
Import JsString Js Store.

Definition ok : Response := Body EmptyString 200.

Definition clear : Response := ResponseAction "clear" None.

(** The [action.action_id === "take_survey"] branch; [Some] is what it
    returns, [None] lets the loop go on. *)
Definition takeSurvey (userId channelId triggerId surveyId : string)
  : Task (option Response) :=
  survey ← store (getSurvey surveyId);
  match survey with
  | None =>
      _ ← slack (chat_postEphemeral channelId userId None
                   ":x: This survey could not be found.");
      mret (Some ok)
  | Some e =>
      if match e with
         | SurveyRecord survey => String.eqb (status survey) "closed"
         | UserIndex _ => false
         end
      then
        _ ← slack (chat_postEphemeral channelId userId None
                     ":checkered_flag: This survey is closed and no longer accepting responses.");
        mret (Some ok)
      else
        alreadyResponded ← store (hasUserResponded surveyId userId);
        if (alreadyResponded : bool) then
          _ ← slack (chat_postEphemeral channelId userId None
                       ":white_check_mark: You've already submitted a response to this survey. Thank you!");
          mret (Some ok)
        else
          match e with
          | SurveyRecord survey =>
              _ ← slack (views_open triggerId (Forms.buildResponseModal survey));
              mret None
          | UserIndex _ => run (Throw TypeError)
          end
  end.

Definition surveyNotFound (userId : string) : Task (option Response) :=
  _ ← slack (chat_postMessage userId None ":x: Survey not found."); mret None.

(** The [action.action_id === "list_results"] branch. *)
Definition listResults (userId surveyId : string) : Task (option Response) :=
  survey ← store (getSurvey surveyId);
  match survey with
  | None => surveyNotFound userId
  | Some e =>
      responses ← store (getResponses surveyId);
      blocks ← run (Commands.resultsBlocks e responses
                      {| isAdmin := true; isShare := false |});
      _ ← slack (chat_postMessage userId (Some (map Plain blocks))
                   ("Results for " +:+ Commands.titleOf e));
      mret None
  end.

(** The [action.action_id === "list_close"] branch. *)
Definition listClose (userId surveyId : string) : Task (option Response) :=
  survey ← store (getSurvey surveyId);
  match survey with
  | None => surveyNotFound userId
  | Some (SurveyRecord survey) =>
      if String.eqb (status survey) "closed" then
        _ ← slack (chat_postMessage userId None
                     (":information_source: *" +:+ title survey +:+ "* is already closed."));
        mret None
      else
        _ ← store (Surveys.closeSurvey surveyId);
        _ ← slack (chat_postMessage userId None
                     (":checkered_flag: *" +:+ title survey +:+ "* is now closed. "
                      +:+ ofNat (responseCount survey) +:+ " total responses."));
        mret None
  | Some (UserIndex _) =>
      _ ← store (Surveys.closeSurvey surveyId);
      _ ← slack (chat_postMessage userId None
                   ":checkered_flag: *undefined* is now closed. 0 total responses.");
      mret None
  end.

(** The [action.action_id === "list_export"] branch.  An index array has no
    [questions] to map. *)
Definition listExport (userId surveyId : string) : Task (option Response) :=
  survey ← store (getSurvey surveyId);
  match survey with
  | None => surveyNotFound userId
  | Some (SurveyRecord survey) =>
      responses ← store (getResponses surveyId);
      let csv := Blocks.buildCsvExport survey responses in
      _ ← slack (filesUploadV2 userId csv
                   ("pulse-survey-" +:+ surveyId +:+ "-results.csv")
                   (title survey +:+ " - Export")
                   (":bar_chart: CSV export for *" +:+ title survey +:+ "* ("
                    +:+ ofNat (length responses) +:+ " responses)"));
      mret None
  | Some (UserIndex _) =>
      _ ← store (getResponses surveyId); run (Throw TypeError)
  end.

(** The body of [for (const action of payload.actions)]. *)
Definition handleAction (userId channelId triggerId : string) (action : Action.t)
  : Task (option Response) :=
  let surveyId := Action.value action in
  if String.eqb (Action.action_id action) "take_survey" then
    takeSurvey userId channelId triggerId surveyId
  else if String.eqb (Action.action_id action) "list_results" then listResults userId surveyId
  else if String.eqb (Action.action_id action) "list_close" then listClose userId surveyId
  else if String.eqb (Action.action_id action) "list_export" then listExport userId surveyId
  else mret None.

(** [handleBlockActions(slack, payload)] *)
Fixpoint handleBlockActions (userId channelId triggerId : string) (actions : list Action.t)
  : Task Response :=
  match actions with
  | [] => mret ok
  | action :: rest =>
      returned ← handleAction userId channelId triggerId action;
      match returned with
      | Some response => mret response
      | None => handleBlockActions userId channelId triggerId rest
      end
  end.

(** [handleCreateSurveySubmit(slack, payload)]; [uuid] and [now] are what
    [createSurvey] gets from [crypto.randomUUID()] and
    [new Date().toISOString()]. *)
Definition handleCreateSurveySubmit (uuid now : string) (userId channelId : string)
    (form : CreateForm.t) : Task Response :=
  let rawQuestions := CreateForm.rawQuestions form in
  let rawOptions :=
    match CreateForm.rawOptions form with
    | Some raw => if ToBoolean (VString raw) then raw else EmptyString
    | None => EmptyString
    end in
  let selectedSettings := default [] (CreateForm.selectedSettings form) in
  let parsed := Parser.parseQuestions rawQuestions rawOptions in
  survey ← store (Surveys.createSurvey uuid now
                    {| Draft.title := CreateForm.title form;
                       Draft.questions := parsed;
                       Draft.createdBy := userId;
                       Draft.settings :=
                         {| showResults := Array_includes selectedSettings "show_results";
                            shareFreetext :=
                              Array_includes selectedSettings "share_freetext" |} |});
  _ ← store (Surveys.addSurveyToUserIndex userId (id survey));
  _ ← slack (chat_postMessage userId None
               (":white_check_mark: *Survey created!*" +:+ LF +:+ LF
                +:+ "Title: *" +:+ title survey +:+ "*" +:+ LF
                +:+ "Questions: " +:+ ofNat (length (questions survey)) +:+ LF +:+ LF
                +:+ "Use `/pulse list` to view results, export data, or close your survey."));
  let targetChannel := if ToBoolean (VString channelId) then channelId else userId in
  _ ← slack (chat_postMessage targetChannel (Some (Forms.buildSurveyMessage survey))
               (title survey +:+ " - Take the survey!"));
  mret clear.

(** The answer that the callback of [survey.questions.forEach] stores for a
    question; [None] where it stores nothing. *)
Definition answerOf (q : Question) (blockValues : BlockState.t) : option value :=
  if String.eqb (type q) "scale" then
    Some (match BlockState.selected_option blockValues with
          | Some v => VString v
          | None => VUndefined
          end)
  else if String.eqb (type q) "multi-select" then
    Some (match BlockState.selected_options blockValues with
          | Some vs => VArray (map VString vs)
          | None => VUndefined
          end)
  else if String.eqb (type q) "free-text" then Some (BlockState.value blockValues)
  else None.

(** [values[`q_${i}`]?.[`answer_${i}`]] *)
Definition blockValuesAt (values : gmap string (gmap string BlockState.t)) (i : nat)
  : option BlockState.t :=
  match values !! questionKey i with
  | Some block => block !! answerKey i
  | None => None
  end.

Definition storeAnswer (values : gmap string (gmap string BlockState.t))
    (answers : gmap string value) (iq : nat * Question) : gmap string value :=
  match blockValuesAt values (fst iq) with
  | Some blockValues =>
      match answerOf (snd iq) blockValues with
      | Some v => <[questionKey (fst iq) := v]> answers
      | None => answers
      end
  | None => answers
  end.

(** The [answers] object after [survey.questions.forEach((q, i) => { ... })]. *)
Definition collectAnswers (questions : list Question)
    (values : gmap string (gmap string BlockState.t)) : gmap string value :=
  fold_left (storeAnswer values) (imap (fun i q => (i, q)) questions) ∅.

(** [survey.settings?.showResults] *)
Definition showsResults (survey : Survey) : bool :=
  match settings survey with
  | Some s => showResults s
  | None => false
  end.

Definition errors (field message : string) : Response :=
  ResponseAction "errors" (Some (field, message)).

(** [handleSurveyResponseSubmit(slack, payload)] *)
Definition handleSurveyResponseSubmit (userId surveyId : string)
    (values : gmap string (gmap string BlockState.t)) : Task Response :=
  survey ← store (getSurvey surveyId);
  match survey with
  | None => mret (errors "q_0" "Survey not found.")
  | Some e =>
      responded ← store (hasUserResponded surveyId userId);
      if (responded : bool) then mret (errors "q_0" "You've already submitted a response.")
      else
        match e with
        | UserIndex _ => run (Throw TypeError)
        | SurveyRecord survey =>
            let answers := collectAnswers (questions survey) values in
            responseCount ← store (addResponse surveyId answers);
            _ ← store (markUserResponded surveyId userId);
            _ ← (if showsResults survey then
                   allResponses ← store (getResponses surveyId);
                   blocks ← run (Blocks.buildResultsBlocks survey allResponses
                                   {| isAdmin := false; isShare := false |});
                   slack (chat_postMessage userId
                            (Some (map Plain
                                     (SectionBlock
                                        (":white_check_mark: *Thank you for responding!* Your response is anonymous."
                                         +:+ LF +:+ LF +:+ "Here are the current results ("
                                         +:+ ofNat responseCount +:+ " responses):")
                                      :: blocks)))
                            ("Thanks for responding to " +:+ title survey +:+ "!"))
                 else
                   slack (chat_postMessage userId None
                            (":white_check_mark: *Thank you!* Your anonymous response to *"
                             +:+ title survey +:+ "* has been recorded. (Response #"
                             +:+ ofNat responseCount +:+ ")")));
            mret clear
        end
  end.

(** The [try { ... } catch (err) { ... }] of [handler]. *)
Definition tryCatch (body : Task Response) : Task Response := fun s =>
  match body s with
  | Failed _ s' =>
      Fulfilled (errors "survey_title" "Something went wrong. Please try again.") s'
  | r => r
  end.

(** The [switch (payload.type)] of [handler], with [handleViewSubmission]. *)
Definition dispatch (uuid now : string) (payload : Payload) : Task Response :=
  match payload with
  | block_actions userId channelId triggerId actions =>
      handleBlockActions userId channelId triggerId actions
  | create_survey_submit userId channelId form =>
      handleCreateSurveySubmit uuid now userId channelId form
  | survey_response_submit userId surveyId values =>
      handleSurveyResponseSubmit userId surveyId values
  | unhandled => mret ok
  end.

(** [handler(req)].  [signingSecret] is the variable [SLACK_SIGNING_SECRET]
    of the environment, [clock] is [Date.now()], [headers] and [rawBody] are
    those of the request, and [payload] is what
    [JSON.parse(params.get("payload"))] gives. *)
Definition handler (signingSecret : option string) (clock : Z) (uuid now : string)
    (headers : gmap string string) (rawBody : string) (payload : Payload)
  : Task Response :=
  valid ← run (Verify.verifySlackRequest signingSecret clock headers rawBody);
  if negb valid then mret (Body "Invalid signature" 401)
  else tryCatch (dispatch uuid now payload).

End Interactions.

(** ** A creator's surveys, newest first  (lib/store.js) *)

(** [new Date(s)] for the strings that [toISOString] writes. *)
Module Dates.
Import JsString.

Fixpoint allDigits (s : string) : bool :=
  match s with
  | String c r => isDigit c && allDigits r
  | EmptyString => true
  end.

(** The number written on the [len] characters from position [from]. *)
Definition field (from len : nat) (s : string) : option Z :=
  let d := String.substring from len s in
  if (String.length d =? len)%nat && allDigits d then Some (digitsValue 0 d) else None.

Definition isLeapYear (y : Z) : bool :=
  (y mod 4 =? 0) && (negb (y mod 100 =? 0) || (y mod 400 =? 0)).

Definition daysInMonth (y m : Z) : Z :=
  if m =? 2 then (if isLeapYear y then 29 else 28)
  else if (m =? 4) || (m =? 6) || (m =? 9) || (m =? 11) then 30
  else 31.

(** The day number of the first day of year [y], counted from 1970. *)
Definition dayFromYear (y : Z) : Z :=
  365 * (y - 1970) + (y - 1969) / 4 - (y - 1901) / 100 + (y - 1601) / 400.

(** The days of year [y] before its month [m]. *)
Definition daysBeforeMonth (y m : Z) : Z :=
  fold_left Z.add (map (daysInMonth y) (map Z.of_nat (seq 1 (Z.to_nat m - 1)))) 0.

(** The time value, in milliseconds since the epoch. *)
Definition timeValue (y m d h mi sec ms : Z) : Z :=
  ((((dayFromYear y + daysBeforeMonth y m + (d - 1)) * 24 + h) * 60 + mi) * 60 + sec) * 1000
  + ms.

Definition separators (s : string) : bool :=
  forallb (fun '(i, c) => match String.get i s with
                          | Some a => Ascii.eqb a c
                          | None => false
                          end)
    [(4, "-"); (7, "-"); (10, "T"); (13, ":"); (16, ":"); (19, "."); (23, "Z")]%nat%char.

(** The time value of a date written as [YYYY-MM-DDTHH:mm:ss.sssZ], every
    field within its bounds, the day within its month; [None] for any other
    string: the other forms that the language reads, and what an
    implementation makes of the rest, are not followed here. *)
Definition parse (s : string) : option Z :=
  if (String.length s =? 24)%nat && separators s then
    match field 0 4 s, field 5 2 s, field 8 2 s, field 11 2 s, field 14 2 s,
          field 17 2 s, field 20 3 s with
    | Some y, Some m, Some d, Some h, Some mi, Some sec, Some ms =>
        if (1 <=? m) && (m <=? 12) && (1 <=? d) && (d <=? daysInMonth y m)
           && (h <=? 23) && (mi <=? 59) && (sec <=? 59)
        then Some (timeValue y m d h mi sec ms)
        else None
    | _, _, _, _, _, _, _ => None
    end
  else None.

End Dates.

Module Listing.
Import Store Surveys.

(** [new Date(a.createdAt)] on what the store returned: the time value, [NaN]
    for an index array, which has no [createdAt], or a date that is not
    followed here. *)
Inductive date := Time (t : Z) | InvalidDate | Unspecified.

Definition dateOf (e : entry) : date :=
  match e with
  | SurveyRecord survey =>
      match Dates.parse (createdAt survey) with
      | Some t => Time t
      | None => Unspecified
      end
  | UserIndex _ => InvalidDate
  end.

(** [new Date(b.createdAt) - new Date(a.createdAt)] is negative: [a] must
    come before [b]. *)
Definition newer (a b : entry) : bool :=
  match dateOf a, dateOf b with
  | Time ta, Time tb => tb <? ta
  | _, _ => false
  end.

(** [a] is not older than [b]. *)
Definition notOlder (a b : entry) : Prop :=
  match dateOf a, dateOf b with
  | Time ta, Time tb => tb <= ta
  | _, _ => True
  end.

(** [e] was created at the time [t]. *)
Definition createdAtTime (t : Z) (e : entry) : bool :=
  match dateOf e with
  | Time te => te =? t
  | _ => false
  end.

Definition isTime (e : entry) : bool :=
  match dateOf e with Time _ => true | _ => false end.

Definition isUnspecified (e : entry) : bool :=
  match dateOf e with Unspecified => true | _ => false end.

(** [surveys.sort((a, b) => new Date(b.createdAt) - new Date(a.createdAt))].
    At most one element is left as it is.  The comparison is consistent when
    every date is a time value, and when no two elements compare different,
    an invalid date comparing equal to everything; the sort is then stable.
    In the other cases the order is left open. *)
Definition sortNewestFirst (surveys : list entry) : completion (list entry) :=
  match surveys with
  | [] | [_] => Normal surveys
  | _ =>
      if existsb isUnspecified surveys then ImplementationDefined
      else if forallb isTime surveys then Normal (Js.Array_sort newer surveys)
      else if forallb (fun a => forallb (fun b => negb (newer a b)) surveys) surveys
      then Normal surveys
      else ImplementationDefined
  end.

(** [Promise.all(ids.map((id) => store.get(id, { type: "json" })))]: every
    request is made, one after the other; with one failure the promise
    rejects with its error, with several it rejects with the error of the
    failure that comes back first. *)
Definition getAll (ids : list string) : Async (list (option entry)) := fun w =>
  let after := Nat.iter (length ids) consumeFault w in
  match omap (fun fault => fault) (take (length ids) (faults w)) with
  | [] => Resolved (map (fun key => surveyStore w !! key) ids) after
  | [reason] => Rejected (StorageError reason) after
  | _ => Undetermined after
  end.

(** [getUserSurveys(userId)] *)
Definition getUserSurveys (userId : string) : Async (list entry) :=
  stored ← getSurveyJSON (indexKey userId);
  match stored with
  | Some (SurveyRecord _) => await (Throw TypeError)
  | Some (UserIndex ids) =>
      surveys ← getAll ids; await (sortNewestFirst (omap (fun found => found) surveys))
  | None =>
      surveys ← getAll []; await (sortNewestFirst (omap (fun found => found) surveys))
  end.

End Listing.

(** ** Worlds after a step, and more sample data *)

Module Runs.
Import Store.

(** The world after a write to the survey store that the backend answers. *)
Definition afterSurveyWrite (key : string) (e : entry) (w : World) : World :=
  {| surveyStore := <[key := e]> (surveyStore w); responseStore := responseStore w;
     trackingStore := trackingStore w; writes := writes w ++ [(SURVEYS_STORE, key)];
     posted := posted w; faults := tail (faults w) |}.

(** The session after a read that the backend answers. *)
Definition afterRead (s : Session) : Session :=
  {| world := consumeFault (world s); calls := calls s |}.

(** Nothing was written and Slack was not called between two sessions. *)
Definition untouched (s s' : Session) : Prop :=
  surveyStore (world s') = surveyStore (world s)
  /\ responseStore (world s') = responseStore (world s)
  /\ trackingStore (world s') = trackingStore (world s)
  /\ writes (world s') = writes (world s)
  /\ posted (world s') = posted (world s)
  /\ calls s' = calls s.

(** A survey record with the status closed. *)
Definition closedRecord (survey : Survey) : Survey :=
  {| id := id survey; title := title survey; questions := questions survey;
     createdBy := createdBy survey; settings := settings survey; status := "closed";
     responseCount := responseCount survey; createdAt := createdAt survey |}.

(** The action id of an element. *)
Definition actionOf (element : Element) : string :=
  match element with
  | StaticSelect action_id _ _ | MultiStaticSelect action_id _ _
  | PlainTextInput action_id _ _ => action_id
  end.

(** The block id and the action id of every input of a view, in order. *)
Definition inputKeys (view : View) : list (string * string) :=
  match view with
  | Modal _ _ _ _ _ blocks =>
      omap (fun b => match b with
                     | Input block_id _ element _ => Some (block_id, actionOf element)
                     | ModalContent _ => None
                     end) blocks
  | CreateSurveyModal _ => []
  end.

(** A question of one of the three types. *)
Definition known (q : Question) : bool :=
  String.eqb (type q) "scale" || String.eqb (type q) "multi-select"
  || String.eqb (type q) "free-text".

End Runs.

Module Cases.
Import JsString Js.

(** What the creation form of user U1 gives for the sample survey. *)
Definition draft : Draft.t :=
  {| Draft.title := "Team pulse";
     Draft.questions := questions Sample.survey;
     Draft.createdBy := "U1";
     Draft.settings := {| showResults := false; shareFreetext := true |} |}.

(** The sample survey just created, and Slack not yet called. *)
Definition opened : Session := {| world := Sample.created; calls := [] |}.

(** Empty stores, and Slack not yet called. *)
Definition blank : Session := {| world := Sample.fresh; calls := [] |}.

(** The sample survey with free text kept from the other respondents. *)
Definition discreet : Survey :=
  {| id := "a1b2c3d4";
     title := "Team pulse";
     questions := questions Sample.survey;
     createdBy := "U1";
     settings := Some {| showResults := true; shareFreetext := false |};
     status := "open";
     responseCount := 2;
     createdAt := "2024-05-01T10:00:00.000Z" |}.

(** That survey with responses on record. *)
Definition heard (responses : list (gmap string value)) : Session :=
  {| world :=
       {| surveyStore := {[ "a1b2c3d4" := SurveyRecord discreet ]};
          responseStore := {[ "a1b2c3d4" := responses ]};
          trackingStore := ∅; writes := []; posted := []; faults := [] |};
     calls := [] |}.

(** A creation form: the sample questions, results shown to respondents. *)
Definition form : CreateForm.t :=
  {| CreateForm.title := "Team pulse";
     CreateForm.rawQuestions := Sample.rawQuestions;
     CreateForm.rawOptions := Some Sample.rawOptions;
     CreateForm.selectedSettings := Some ["show_results"] |}.

(** A response form of the sample survey, filled in: four stars, the option
    A, a remark. *)
Definition filled (remark : string) : gmap string (gmap string BlockState.t) :=
  {[ "q_0" := {[ "answer_0" := {| BlockState.selected_option := Some "4";
                                  BlockState.selected_options := None;
                                  BlockState.value := VUndefined |} ]};
     "q_1" := {[ "answer_1" := {| BlockState.selected_option := None;
                                  BlockState.selected_options := Some ["A"];
                                  BlockState.value := VUndefined |} ]};
     "q_2" := {[ "answer_2" := {| BlockState.selected_option := None;
                                  BlockState.selected_options := None;
                                  BlockState.value := VString remark |} ]} ]}.

(** A survey of user U1 created a month after the sample survey. *)
Definition later (id : string) : Survey :=
  {| id := id;
     title := "Offsite";
     questions := [Sample.question "Where to?" "free-text"];
     createdBy := "U1";
     settings := None;
     status := "open";
     responseCount := 0;
     createdAt := "2024-06-01T09:30:00.000Z" |}.

(** The index of user U1: an id under which nothing is stored, the sample
    survey, and two surveys created later, in the same millisecond. *)
Definition listed : World :=
  {| surveyStore :=
       {[ "user_U1" := UserIndex ["0badc0de"; "a1b2c3d4"; "c0ffee00"; "deadbeef"];
          "a1b2c3d4" := SurveyRecord Sample.survey;
          "c0ffee00" := SurveyRecord (later "c0ffee00");
          "deadbeef" := SurveyRecord (later "deadbeef") ]};
     responseStore := ∅; trackingStore := ∅;
     writes := []; posted := []; faults := [] |}.

(** The fields of a command typed by user U2 in channel C1. *)
Definition typed (text : string) : Params.t :=
  {| Params.text := Some text; Params.trigger_id := "T1";
     Params.user_id := "U2"; Params.channel_id := "C1" |}.

(** Three questions, one of each type. *)
Definition asked : list Question :=
  [ {| label := "How supported do you feel?"; type := "scale"; options := None |};
    {| label := "Which events?"; type := "multi-select"; options := None |};
    {| label := "Anything else?"; type := "free-text"; options := None |} ].

End Cases.

Section Completions.

Lemma forEach_ext {A B} (f g : A -> completion B) (l : list A) :
  (forall a, a ∈ l -> f a = g a) -> forEach f l = forEach g l.
Proof.
  induction l as [|a l IH]; intros H; simpl; [done|].
  rewrite (H a) by left. rewrite IH; [done|]. intros; apply H; by right.
Qed.

End Completions.

Section Visibility.
Import JsString Js Blocks Spec.



Lemma scaleValues_answersAt rs key :
  scaleValues rs key = List.filter (fun x => ToBoolean (VNumber x)) (map parseFloat (answersAt key rs)).
Proof. unfold scaleValues, answersAt. by rewrite map_map. Qed.

Lemma allSelections_answersAt rs key :
  allSelections rs key =
    flat_map (fun v => match or v (VArray []) with
                       | VArray items => items
                       | v' => [v']
                       end) (answersAt key rs).
Proof.
  unfold allSelections, answersAt. induction rs as [|r rs IH]; simpl; [done|].
  by rewrite IH.
Qed.

Lemma freeTextBlock_share survey q rs key :
  freeTextBlock survey q rs publicShare key = countOnly q (length (freeTexts rs key)).
Proof. reflexivity. Qed.

Lemma questionBlocks_share survey rs1 rs2 i q :
  sameUpToFreeText survey rs1 rs2 ->
  questions survey !! i = Some q ->
  questionBlocks survey rs1 publicShare (i, q) = questionBlocks survey rs2 publicShare (i, q).
Proof.
  intros [Hlen Hq] Hi. specialize (Hq i q Hi). unfold questionBlocks.
  destruct (String.eqb (type q) "scale") eqn:E1.
  { apply String.eqb_eq in E1. rewrite E1 in Hq. simpl in Hq.
    unfold scaleBlock. by rewrite !scaleValues_answersAt, Hq. }
  destruct (String.eqb (type q) "multi-select") eqn:E2.
  { apply String.eqb_eq in E2. rewrite E2 in Hq. simpl in Hq.
    unfold multiSelectBlock. by rewrite !allSelections_answersAt, Hq, Hlen. }
  destruct (String.eqb (type q) "free-text") eqn:E3; [|done].
  apply String.eqb_eq in E3. rewrite E3 in Hq. simpl in Hq.
  by rewrite !freeTextBlock_share, Hq.
Qed.

End Visibility.

(** C1: rendered for a viewer who is not the admin, in a public share, the
    results of a survey do not depend on what the free-text answers say: two
    response lists that differ only there give the same blocks, and the blocks
    that a free-text question pushes are its label with the number of
    non-empty answers, whatever [shareFreetext] is. *)
Theorem share_hides_free_text (survey : Survey) (rs1 rs2 : list (gmap string value)) :
  Spec.sameUpToFreeText survey rs1 rs2 ->
  Blocks.buildResultsBlocks survey rs1 {| isAdmin := false; isShare := true |}
  = Blocks.buildResultsBlocks survey rs2 {| isAdmin := false; isShare := true |}
  /\ forall i q, questions survey !! i = Some q -> type q = "free-text" ->
       Blocks.questionBlocks survey rs1 {| isAdmin := false; isShare := true |} (i, q)
       = Normal [Spec.countOnly q (length (Blocks.freeTexts rs1 (questionKey i))); DividerBlock].
Proof.
  intros H. split.
  - unfold Blocks.buildResultsBlocks, Blocks.headerBlock. destruct H as [Hlen Hq].
    rewrite Hlen. destruct (length rs2 =? 0)%nat; [done|].
    rewrite (forEach_ext (Blocks.questionBlocks survey rs1 _)
               (Blocks.questionBlocks survey rs2 {| isAdmin := false; isShare := true |})); [done|].
    intros [i q] Hin. apply list_elem_of_lookup in Hin as [j Hj].
    rewrite list_lookup_imap in Hj.
    destruct (questions survey !! j) as [q'|] eqn:Ej; simplify_eq/=.
    by apply questionBlocks_share.
  - intros i q Hi Ht. unfold Blocks.questionBlocks. rewrite Ht. reflexivity.
Qed.

(** C1 at the sample survey: two response lists that differ in the text of
    one free-text answer. *)
Lemma share_hides_free_text_witness :
  Spec.sameUpToFreeText Sample.survey Sample.told Sample.toldOtherwise
  /\ (Blocks.buildResultsBlocks Sample.survey Sample.told {| isAdmin := false; isShare := true |}
      = Blocks.buildResultsBlocks Sample.survey Sample.toldOtherwise
          {| isAdmin := false; isShare := true |}
      /\ forall i q, questions Sample.survey !! i = Some q -> type q = "free-text" ->
           Blocks.questionBlocks Sample.survey Sample.told
             {| isAdmin := false; isShare := true |} (i, q)
           = Normal [Spec.countOnly q (length (Blocks.freeTexts Sample.told (questionKey i)));
                     DividerBlock]).
Proof.
  assert (H : Spec.sameUpToFreeText Sample.survey Sample.told Sample.toldOtherwise).
  { split; [reflexivity|].
    intros [|[|[|i]]] q Hq; simpl in Hq; simplify_eq; vm_compute; reflexivity. }
  exact (conj H (share_hides_free_text _ _ _ H)).
Defined.

Section Strings.
Import JsString.

Lemma split_nonempty c s : split c s ≠ [].
Proof. destruct s as [|a s]; simpl; [done|]. destruct (Ascii.eqb a c), (split c s); done. Qed.



End Strings.

Section Csv.
Import JsString Js Blocks Spec.
Local Arguments String.append !_ _ / : simpl nomatch.




End Csv.


Section Scale.
Import JsString JsNumber Js Blocks Spec.

Lemma filter_map_comm {A B} (f : A -> B) (p : B -> bool) (l : list A) :
  List.filter p (map f l) = map f (List.filter (fun a => p (f a)) l).
Proof.
  induction l as [|a l IH]; simpl; [done|]. destruct (p (f a)); simpl; by rewrite IH.
Qed.

Lemma scaleValues_numericAnswers responses key :
  scaleValues responses key = numericAnswers key responses.
Proof.
  rewrite scaleValues_answersAt. unfold numericAnswers. by rewrite filter_map_comm.
Qed.

Lemma fold_left_sumFrom values : forall acc,
  fold_left PrimFloat.add values acc = sumFrom acc values.
Proof. induction values as [|v rest IH]; intros acc; simpl; [done|]. apply IH. Qed.

Lemma filter_length_bucket n values :
  length (List.filter (fun v => PrimFloat.eqb v (JsNumber.ofZ n)) values) = bucket n values.
Proof.
  induction values as [|v rest IH]; simpl; [done|].
  destruct (PrimFloat.eqb v (JsNumber.ofZ n)); simpl; by rewrite IH.
Qed.

Lemma String_repeat_finite s x n :
  ToIntegerOrInfinity x = Finite (Z.of_nat n) -> String_repeat s x = Normal (copies n s).
Proof.
  unfold String_repeat. intros ->.
  destruct (Z.of_nat n <? 0) eqn:E; [apply Z.ltb_lt in E; lia|]. by rewrite Nat2Z.id.
Qed.

End Scale.

(** C6: for a scale question the values aggregated are the numeric answers,
    those that are missing, not numeric or zero being dropped; the figure
    shown is their arithmetic mean rounded to one decimal; the distribution
    has five buckets, the numbers of values that are exactly 1, 2, 3, 4 and 5;
    the block shows these whenever the bar can be drawn.  For the answers
    5, 5, 4, 3, 0 the zero is dropped, the mean of the other four is 4.25,
    shown as 4.3, and the distribution is 0, 0, 1, 1, 2. *)
Theorem scale_statistics (q : Question) (responses : list (gmap string value))
    (key : string) :
  let values := Blocks.scaleValues responses key in
  values = Spec.numericAnswers key responses
  /\ Blocks.roundedAverage values = Spec.roundToOneDecimal (Spec.mean values)
  /\ Blocks.distribution values
     = [Spec.bucket 1 values; Spec.bucket 2 values; Spec.bucket 3 values;
        Spec.bucket 4 values; Spec.bucket 5 values]
  /\ (forall filled empty : nat,
        JsNumber.ToIntegerOrInfinity (JsNumber.Math_round (Blocks.average values))
          = JsNumber.Finite (Z.of_nat filled) ->
        JsNumber.ToIntegerOrInfinity
          (JsNumber.ofZ 5 - JsNumber.Math_round (Blocks.average values))%float
          = JsNumber.Finite (Z.of_nat empty) ->
        Blocks.scaleBlock q responses key
        = Normal (SectionBlock
                    (Blocks.scaleText q values
                       (JsString.copies filled "█" +:+ JsString.copies empty "░"))))
  /\ Spec.unanswered VUndefined = true
  /\ Spec.unanswered (VString "n/a") = true
  /\ Spec.unanswered (Sample.number 0) = true
  /\ Blocks.scaleValues Sample.ratings "q_0" = [5; 5; 4; 3]%float
  /\ Spec.mean [5; 5; 4; 3]%float = 4.25%float
  /\ JsNumber.Number_toString (Blocks.roundedAverage [5; 5; 4; 3]%float) = "4.3"
  /\ Blocks.distribution [5; 5; 4; 3]%float = [0; 0; 1; 1; 2]%nat
  /\ Blocks.scaleBlock (Sample.question "Mood" "scale") Sample.ratings "q_0"
     = Normal (SectionBlock
                 ("*Mood*" +:+ JsString.LF +:+ "████░ *4.3/5* (4 responses)" +:+ JsString.LF
                  +:+ "1★: 0 · 2★: 0 · 3★: 1 · 4★: 1 · 5★: 2")).
Proof.
  intros values.
  split; [apply scaleValues_numericAnswers|].
  split; [unfold Blocks.roundedAverage, Blocks.average, Spec.roundToOneDecimal, Spec.mean;
          by rewrite fold_left_sumFrom|].
  split; [unfold Blocks.distribution; simpl; by rewrite !filter_length_bucket|].
  split.
  { intros filled empty Hf He. unfold Blocks.scaleBlock. fold values.
    rewrite (String_repeat_finite _ _ _ Hf). simpl.
    rewrite (String_repeat_finite _ _ _ He). reflexivity. }
  repeat split; vm_compute; reflexivity.
Qed.

Section StableSort.
Import Js.
Context {A : Type} (mustPrecede : A -> A -> bool).

Lemma insertSorted_Permutation e l : insertSorted mustPrecede e l ≡ₚ e :: l.
Proof.
  induction l as [|x l IH]; simpl; [done|].
  destruct (mustPrecede x e); [|done]. rewrite IH. apply Permutation_swap.
Qed.

Lemma Array_sort_Permutation l : Array_sort mustPrecede l ≡ₚ l.
Proof.
  induction l as [|x l IH]; simpl; [done|].
  rewrite insertSorted_Permutation. by rewrite IH.
Qed.

(** The order [R] that the sort establishes between neighbours. *)
Context (R : A -> A -> Prop).
Hypothesis precede_R : forall x e, mustPrecede x e = true -> R x e.
Hypothesis stay_R : forall x e, mustPrecede x e = false -> R e x.

Lemma insertSorted_HdRel a e l :
  R a e -> HdRel R a l -> HdRel R a (insertSorted mustPrecede e l).
Proof.
  intros Hae Hal. destruct l as [|x l]; simpl; [by constructor|].
  destruct (mustPrecede x e); constructor; [by inversion Hal | done].
Qed.

Lemma insertSorted_Sorted e l : Sorted R l -> Sorted R (insertSorted mustPrecede e l).
Proof using precede_R stay_R.
  induction l as [|x l IH]; intros Hs; simpl; [by repeat constructor|].
  destruct (mustPrecede x e) eqn:E.
  - inversion Hs; subst. constructor; [by apply IH|].
    apply insertSorted_HdRel; auto.
  - constructor; [done|]. constructor. by apply stay_R.
Qed.

Lemma Array_sort_Sorted l : Sorted R (Array_sort mustPrecede l).
Proof using precede_R stay_R.
  induction l as [|x l IH]; simpl; [constructor|]. by apply insertSorted_Sorted.
Qed.

(** Stability: within a class [P] of elements none of which must precede
    another, the order of the input is kept. *)
Context (P : A -> bool).
Hypothesis class_tied : forall x e, P x = true -> P e = true -> mustPrecede x e = false.

Lemma insertSorted_filter e l :
  List.filter P (insertSorted mustPrecede e l) = List.filter P (e :: l).
Proof using class_tied.
  induction l as [|x l IH]; simpl; [done|].
  destruct (mustPrecede x e) eqn:E; [|done].
  simpl in *. rewrite IH.
  destruct (P x) eqn:Px, (P e) eqn:Pe; try done.
  by rewrite (class_tied x e Px Pe) in E.
Qed.

Lemma Array_sort_stable l : List.filter P (Array_sort mustPrecede l) = List.filter P l.
Proof using class_tied.
  induction l as [|x l IH]; simpl; [done|].
  rewrite insertSorted_filter. simpl. by rewrite IH.
Qed.

End StableSort.

Section Tally.
Import Js Blocks Spec.

Lemma frequency_snoc k keys x :
  frequency k (keys ++ [x]) = (frequency k keys + if String.eqb x k then 1 else 0)%nat.
Proof. induction keys as [|y keys IH]; simpl; [lia|]. rewrite IH. lia. Qed.

Lemma frequency_not_elem_of k keys : k ∉ keys -> frequency k keys = 0%nat.
Proof.
  induction keys as [|y keys IH]; simpl; [done|]. intros Hn.
  apply not_elem_of_cons in Hn as [Hne Hn].
  destruct (String.eqb_spec y k); [congruence|]. by rewrite IH.
Qed.

Lemma elem_of_filter_neq (k x : string) (l : list string) :
  x ∈ List.filter (fun y => negb (String.eqb y k)) l <-> x ≠ k /\ x ∈ l.
Proof.
  rewrite !list_elem_of_In, filter_In.
  destruct (String.eqb_spec x k); simpl; intuition congruence.
Qed.

Lemma elem_of_firstSeen k keys : k ∈ firstSeen keys <-> k ∈ keys.
Proof.
  induction keys as [|y keys IH]; simpl; [done|].
  rewrite !elem_of_cons, elem_of_filter_neq, IH.
  destruct (decide (k = y)); intuition.
Qed.

Lemma NoDup_filter_bool {A} (p : A -> bool) (l : list A) : NoDup l -> NoDup (List.filter p l).
Proof.
  induction 1 as [|x l Hx Hl IH]; simpl; [constructor|].
  destruct (p x); [|done]. constructor; [|done].
  rewrite list_elem_of_In, filter_In, <- list_elem_of_In. by intros [? _].
Qed.

Lemma NoDup_firstSeen keys : NoDup (firstSeen keys).
Proof.
  induction keys as [|y keys IH]; simpl; constructor.
  - rewrite elem_of_filter_neq. by intros [? _].
  - by apply NoDup_filter_bool.
Qed.

(** A key seen once more: it is new at the end, or it was there. *)
Lemma firstSeen_snoc keys x :
  firstSeen (keys ++ [x]) = if decide (x ∈ keys) then firstSeen keys else firstSeen keys ++ [x].
Proof.
  induction keys as [|y keys IH]; simpl; [done|].
  rewrite IH. destruct (decide (x = y)) as [->|Hne].
  - rewrite (decide_True _ _ (list_elem_of_here y keys)). case_decide; [done|].
    rewrite List.filter_app. simpl. rewrite String.eqb_refl. simpl.
    by rewrite app_nil_r.
  - case_decide as Hin.
    + by rewrite decide_True by by right.
    + rewrite decide_False by (rewrite elem_of_cons; intros [?|?]; done).
      rewrite List.filter_app. simpl.
      destruct (String.eqb_spec x y); [congruence|]. done.
Qed.

Lemma increment_map (f : string -> nat) k ks :
  NoDup ks ->
  increment k (map (fun x => (x, f x)) ks)
  = if decide (k ∈ ks)
    then Some (map (fun x => (x, (f x + if String.eqb x k then 1 else 0)%nat)) ks)
    else None.
Proof.
  induction 1 as [|y ks Hy Hks IH]; simpl; [done|].
  destruct (String.eqb_spec y k) as [->|Hne].
  - rewrite (decide_True _ _ (list_elem_of_here k ks)). do 2 f_equal; [f_equal; lia|].
    apply map_ext_in. intros x Hx. apply list_elem_of_In in Hx.
    destruct (String.eqb_spec x k); [congruence|]. f_equal; lia.
  - rewrite IH. case_decide as Hin.
    + rewrite decide_True by by right. do 3 f_equal. lia.
    + by rewrite decide_False by (rewrite elem_of_cons; intros [?|?]; done).
Qed.

Lemma existsb_eqb_elem_of (k : string) (l : list string) :
  existsb (String.eqb k) l = bool_decide (k ∈ l).
Proof.
  induction l as [|y l IH]; simpl; [done|].
  destruct (String.eqb_spec k y) as [->|Hne]; simpl.
  - by rewrite bool_decide_eq_true_2 by left.
  - rewrite IH. apply bool_decide_ext. rewrite elem_of_cons. intuition.
Qed.

Lemma count_tally seen opt :
  ToString opt ∉ inherited ->
  count (tally seen) opt = Normal (tally (seen ++ [ToString opt])).
Proof.
  intros Hplain. unfold count, tally.
  rewrite increment_map by apply NoDup_firstSeen.
  rewrite firstSeen_snoc.
  unfold inherited in Hplain. apply not_elem_of_cons in Hplain as [Hproto Hnative].
  destruct (decide (ToString opt ∈ firstSeen seen)) as [Hin|Hout].
  - rewrite decide_True by by apply elem_of_firstSeen. f_equal.
    apply map_ext. intros x. by rewrite frequency_snoc, String.eqb_sym.
  - rewrite elem_of_firstSeen in Hout. rewrite decide_False by done.
    destruct (String.eqb_spec (ToString opt) "__proto__"); [done|].
    rewrite existsb_eqb_elem_of, bool_decide_eq_false_2 by done.
    rewrite map_app. simpl. f_equal. f_equal.
    + apply map_ext_in. intros x Hx. apply list_elem_of_In in Hx.
      rewrite elem_of_firstSeen in Hx.
      rewrite frequency_snoc. destruct (String.eqb_spec (ToString opt) x); [subst x; by destruct Hout|].
      f_equal; lia.
    + rewrite frequency_snoc, String.eqb_refl, frequency_not_elem_of by done. done.
Qed.

Lemma countAll_tally selections : forall seen,
  (forall k, k ∈ map ToString selections -> k ∉ inherited) ->
  countAll (tally seen) selections = Normal (tally (seen ++ map ToString selections)).
Proof.
  induction selections as [|opt rest IH]; intros seen Hplain; simpl.
  - by rewrite app_nil_r.
  - rewrite count_tally by (apply Hplain; left). simpl.
    rewrite IH by (intros; apply Hplain; by right).
    by rewrite <- app_assoc.
Qed.

End Tally.

Section Entries.
Import Js Blocks Spec.

Lemma filter_all_false {A} (p : A -> bool) (l : list A) :
  (forall x, x ∈ l -> p x = false) -> List.filter p l = [].
Proof.
  induction l as [|x l IH]; intros H; simpl; [done|].
  rewrite (H x) by left. apply IH. intros; apply H; by right.
Qed.

Lemma filter_all_true {A} (p : A -> bool) (l : list A) :
  (forall x, x ∈ l -> p x = true) -> List.filter p l = l.
Proof.
  induction l as [|x l IH]; intros H; simpl; [done|].
  rewrite (H x) by left. f_equal. apply IH. intros; apply H; by right.
Qed.

Lemma entries_without_index counts :
  (forall e, e ∈ counts -> isArrayIndex (fst e) = false) -> entries counts = counts.
Proof.
  intros H. unfold entries.
  rewrite filter_all_false by done. simpl.
  apply filter_all_true. intros e He. by rewrite H.
Qed.

Lemma entries_Permutation counts : entries counts ≡ₚ counts.
Proof.
  unfold entries. rewrite Array_sort_Permutation.
  induction counts as [|e counts IH]; simpl; [done|].
  destruct (isArrayIndex (fst e)); simpl.
  - by rewrite IH.
  - rewrite <- Permutation_middle. by rewrite IH.
Qed.

End Entries.

(** C7 (as the code has it): for a multi-select question whose selected
    options are not names that an object inherits, the selections of all
    responses are flattened and each distinct option is counted; the options
    are listed by descending count, ties staying in the order in which
    [Object.entries] gives them: options that are array indices ("1", "10")
    first, by ascending number, then the other options as first seen, so that
    the first-seen option wins whenever no option is an array index; each line
    shows the count over the number of responses as a whole percentage, and
    the block of the question is its label followed by these lines, in this
    order.  With two responses selecting A and B and one selecting A, A has
    count 3 (100%), B has count 2 (67%) and A comes before B.  With one
    response selecting A, one selecting B and C and one selecting C, C, seen
    last, comes first with count 2 (67%), then A and B, each with count 1
    (33%), as first seen. *)
Theorem option_counts (responses : list (gmap string value)) (key : string) :
  let keys := Spec.optionKeys key responses in
  (forall k, k ∈ keys -> k ∉ Spec.inherited) ->
  let shown := Blocks.sortByCount (Blocks.entries (Spec.tally keys)) in
  Blocks.countAll [] (Blocks.allSelections responses key) = Normal (Spec.tally keys)
  /\ shown ≡ₚ Spec.tally keys
  /\ Sorted (fun a b => snd b <= snd a)%nat shown
  /\ (forall n, List.filter (fun e => snd e =? n)%nat shown
                = List.filter (fun e => snd e =? n)%nat (Blocks.entries (Spec.tally keys)))
  /\ (exists indexed,
        Blocks.entries (Spec.tally keys)
        = indexed ++ List.filter (fun e => negb (Blocks.isArrayIndex (fst e))) (Spec.tally keys)
        /\ indexed ≡ₚ List.filter (fun e => Blocks.isArrayIndex (fst e)) (Spec.tally keys)
        /\ Sorted (fun a b => Blocks.indexOf (fst a) <= Blocks.indexOf (fst b)) indexed)
  /\ ((forall k, k ∈ keys -> Blocks.isArrayIndex k = false) ->
      Blocks.entries (Spec.tally keys) = Spec.tally keys)
  /\ (forall (e : string * nat) (filled empty : nat),
        let pct := JsNumber.Math_round
                     (JsNumber.ofNat (snd e) / JsNumber.ofNat (length responses)
                      * JsNumber.ofZ 100)%float in
        let barLen := JsNumber.Math_round (pct / JsNumber.ofZ 10)%float in
        JsNumber.ToIntegerOrInfinity barLen = JsNumber.Finite (Z.of_nat filled) ->
        JsNumber.ToIntegerOrInfinity (JsNumber.ofZ 10 - barLen)%float
          = JsNumber.Finite (Z.of_nat empty) ->
        Blocks.optionLine (length responses) e
        = Normal (fst e +:+ ": " +:+ JsString.copies filled "█" +:+ JsString.copies empty "░"
                  +:+ " " +:+ JsNumber.Number_toString pct
                  +:+ "% (" +:+ JsString.ofNat (snd e) +:+ ")"))
  /\ (forall q : Question,
        Blocks.multiSelectBlock q responses key
        = (lines ← forEach (Blocks.optionLine (length responses)) shown;
           Normal (SectionBlock
                     ("*" +:+ label q +:+ "*" +:+ JsString.LF
                      +:+ JsString.join JsString.LF lines))))
  /\ Blocks.multiSelectBlock (Sample.question "Which?" "multi-select") Sample.selections "q_0"
     = Normal (SectionBlock
                 ("*Which?*" +:+ JsString.LF +:+ "A: ██████████ 100% (3)"
                  +:+ JsString.LF +:+ "B: ███████░░░ 67% (2)"))
  /\ Blocks.multiSelectBlock (Sample.question "Which?" "multi-select") Sample.ranked "q_0"
     = Normal (SectionBlock
                 ("*Which?*" +:+ JsString.LF +:+ "C: ███████░░░ 67% (2)"
                  +:+ JsString.LF +:+ "A: ███░░░░░░░ 33% (1)"
                  +:+ JsString.LF +:+ "B: ███░░░░░░░ 33% (1)")).
Proof.
  intros keys Hplain shown.
  split.
  { change [] with (Spec.tally []). by rewrite countAll_tally. }
  split.
  { unfold shown, Blocks.sortByCount. by rewrite Array_sort_Permutation, entries_Permutation. }
  split.
  { apply Array_sort_Sorted.
    - intros x e H. apply Nat.ltb_lt in H. lia.
    - intros x e H. apply Nat.ltb_ge in H. lia. }
  split.
  { intros n. apply Array_sort_stable. intros x e Hx He.
    apply Nat.eqb_eq in Hx, He. apply Nat.ltb_ge. lia. }
  split.
  { eexists. split; [reflexivity|]. split; [apply Array_sort_Permutation|].
    apply Array_sort_Sorted.
    - intros x e H. apply Z.ltb_lt in H. lia.
    - intros x e H. apply Z.ltb_ge in H. lia. }
  split.
  { intros Hno. apply entries_without_index. intros e He.
    unfold Spec.tally in He. apply list_elem_of_fmap in He as (k & -> & Hk).
    simpl. apply Hno. by apply elem_of_firstSeen. }
  split.
  { intros e filled empty pct barLen Hf He. unfold Blocks.optionLine.
    fold pct. fold barLen. cbv zeta.
    rewrite (String_repeat_finite _ _ _ Hf). simpl.
    rewrite (String_repeat_finite _ _ _ He). reflexivity. }
  split.
  { intros q. unfold Blocks.multiSelectBlock.
    change [] with (Spec.tally []) at 1. by rewrite countAll_tally. }
  split; vm_compute; reflexivity.
Qed.

(** C7, the claim as written fails twice.  With two responses selecting A and
    B and one selecting A, the code counts A three times (100%) and B twice
    (67%), not 2 (67%) and 1 (33%).  And one response selecting the options
    2 and 1, in this order, is shown with 1 before 2: on a tie the option
    first seen does not win when the options are array indices. *)
Lemma option_counts_counterexample :
  Blocks.multiSelectBlock (Sample.question "Which?" "multi-select") Sample.selections "q_0"
  = Normal (SectionBlock
              ("*Which?*" +:+ JsString.LF +:+ "A: ██████████ 100% (3)"
               +:+ JsString.LF +:+ "B: ███████░░░ 67% (2)"))
  /\ Spec.firstSeen (Spec.optionKeys "q_0" Sample.numbered) = ["2"; "1"]
  /\ Blocks.multiSelectBlock (Sample.question "Which?" "multi-select") Sample.numbered "q_0"
     = Normal (SectionBlock
                 ("*Which?*" +:+ JsString.LF +:+ "1: ██████████ 100% (1)"
                  +:+ JsString.LF +:+ "2: ██████████ 100% (1)")).
Proof. repeat split; vm_compute; reflexivity. Qed.

(** C7 at three responses: one selecting A, one selecting B and C, one
    selecting C. *)
Lemma option_counts_witness :
  (forall k, k ∈ Spec.optionKeys "q_0" Sample.ranked -> k ∉ Spec.inherited)
  /\ (let shown := Blocks.sortByCount (Blocks.entries (Spec.tally (Spec.optionKeys "q_0" Sample.ranked))) in
  Blocks.countAll [] (Blocks.allSelections Sample.ranked "q_0") = Normal (Spec.tally (Spec.optionKeys "q_0" Sample.ranked))
  /\ shown ≡ₚ Spec.tally (Spec.optionKeys "q_0" Sample.ranked)
  /\ Sorted (fun a b => snd b <= snd a)%nat shown
  /\ (forall n, List.filter (fun e => snd e =? n)%nat shown
                = List.filter (fun e => snd e =? n)%nat (Blocks.entries (Spec.tally (Spec.optionKeys "q_0" Sample.ranked))))
  /\ (exists indexed,
        Blocks.entries (Spec.tally (Spec.optionKeys "q_0" Sample.ranked))
        = indexed ++ List.filter (fun e => negb (Blocks.isArrayIndex (fst e))) (Spec.tally (Spec.optionKeys "q_0" Sample.ranked))
        /\ indexed ≡ₚ List.filter (fun e => Blocks.isArrayIndex (fst e)) (Spec.tally (Spec.optionKeys "q_0" Sample.ranked))
        /\ Sorted (fun a b => Blocks.indexOf (fst a) <= Blocks.indexOf (fst b)) indexed)
  /\ ((forall k, k ∈ Spec.optionKeys "q_0" Sample.ranked -> Blocks.isArrayIndex k = false) ->
      Blocks.entries (Spec.tally (Spec.optionKeys "q_0" Sample.ranked)) = Spec.tally (Spec.optionKeys "q_0" Sample.ranked))
  /\ (forall (e : string * nat) (filled empty : nat),
        let pct := JsNumber.Math_round
                     (JsNumber.ofNat (snd e) / JsNumber.ofNat (length Sample.ranked)
                      * JsNumber.ofZ 100)%float in
        let barLen := JsNumber.Math_round (pct / JsNumber.ofZ 10)%float in
        JsNumber.ToIntegerOrInfinity barLen = JsNumber.Finite (Z.of_nat filled) ->
        JsNumber.ToIntegerOrInfinity (JsNumber.ofZ 10 - barLen)%float
          = JsNumber.Finite (Z.of_nat empty) ->
        Blocks.optionLine (length Sample.ranked) e
        = Normal (fst e +:+ ": " +:+ JsString.copies filled "█" +:+ JsString.copies empty "░"
                  +:+ " " +:+ JsNumber.Number_toString pct
                  +:+ "% (" +:+ JsString.ofNat (snd e) +:+ ")"))
  /\ (forall q : Question,
        Blocks.multiSelectBlock q Sample.ranked "q_0"
        = (lines ← forEach (Blocks.optionLine (length Sample.ranked)) shown;
           Normal (SectionBlock
                     ("*" +:+ label q +:+ "*" +:+ JsString.LF
                      +:+ JsString.join JsString.LF lines))))
  /\ Blocks.multiSelectBlock (Sample.question "Which?" "multi-select") Sample.selections "q_0"
     = Normal (SectionBlock
                 ("*Which?*" +:+ JsString.LF +:+ "A: ██████████ 100% (3)"
                  +:+ JsString.LF +:+ "B: ███████░░░ 67% (2)"))
  /\ Blocks.multiSelectBlock (Sample.question "Which?" "multi-select") Sample.ranked "q_0"
     = Normal (SectionBlock
                 ("*Which?*" +:+ JsString.LF +:+ "C: ███████░░░ 67% (2)"
                  +:+ JsString.LF +:+ "A: ███░░░░░░░ 33% (1)"
                  +:+ JsString.LF +:+ "B: ███░░░░░░░ 33% (1)"))).
Proof.
  assert (H : forall k, k ∈ Spec.optionKeys "q_0" Sample.ranked -> k ∉ Spec.inherited).
  { apply Forall_forall. apply (bool_decide_unpack _). vm_compute. exact I. }
  exact (conj H (option_counts Sample.ranked "q_0" H)).
Defined.

Section OptionsMap.
Import JsString Js Parser Spec.

Lemma addOptionLine_lookup optionsMap line n :
  addOptionLine optionsMap line !! n
  = match lineOptions n line with
    | Some opts => Some opts
    | None => optionsMap !! n
    end.
Proof.
  unfold addOptionLine, lineOptions.
  destruct (matchOptionLine line) as [[digits rest]|]; [|done].
  case_decide as E.
  - rewrite <- E. apply lookup_insert_eq.
  - by apply lookup_insert_ne.
Qed.

(** Later lines for the same number overwrite earlier ones. *)
Lemma fold_addOptionLine_lookup lines : forall optionsMap n,
  fold_left addOptionLine lines optionsMap !! n
  = match optionsFor n lines with
    | Some opts => Some opts
    | None => optionsMap !! n
    end.
Proof.
  unfold optionsFor.
  induction lines as [|line lines IH]; intros optionsMap n; simpl; [done|].
  rewrite IH, addOptionLine_lookup.
  destruct (lineOptions n line) as [opts|]; [|done].
  rewrite last_cons. unfold omap.
  by destruct (last (list_omap _ _ (lineOptions n) lines)).
Qed.

Lemma parseOptions_lookup rawOptions n :
  parseOptions rawOptions !! n = optionsFor n (nonBlankLines rawOptions).
Proof.
  unfold parseOptions. destruct rawOptions as [|c raw]; [done|].
  change (ToBoolean (VString (String c raw))) with true. cbv iota.
  rewrite fold_addOptionLine_lookup, lookup_empty.
  by destruct (optionsFor n _).
Qed.

End OptionsMap.


Section OptionLines.
Import JsString Js Parser Spec.
Local Arguments String.append !_ _ / : simpl nomatch.
Local Arguments Ascii.eqb : simpl never.


Lemma stripPrefix_length p s r :
  stripPrefix p s = Some r -> String.length s = (String.length p + String.length r)%nat.
Proof.
  revert s. induction p as [|a p IH]; intros s; simpl.
  - by intros [= ->].
  - destruct s as [|b s]; [done|]. destruct (Ascii.eqb a b); [|done].
    intros H. simpl. by rewrite (IH _ H).
Qed.

Lemma stripAny_shorter ps s r :
  Forall (fun p => p ≠ EmptyString) ps ->
  stripAny ps s = Some r -> (String.length r < String.length s)%nat.
Proof.
  induction 1 as [|p ps Hp _ IH]; simpl; [done|].
  destruct (stripPrefix p s) as [r'|] eqn:E; [|done].
  intros [= ->]. apply stripPrefix_length in E. destruct p; [done|]. simpl in E. lia.
Qed.

Lemma stripWhile_length ps fuel s :
  (String.length (stripWhile ps fuel s) <= String.length s)%nat.
Proof.
  revert s. induction fuel as [|fuel IH]; intros s; simpl; [done|].
  destruct (stripAny ps s) as [r|] eqn:E; [|done].
  etrans; [apply IH|].
  clear IH. revert E. induction ps as [|p ps IHp]; simpl; [done|].
  destruct (stripPrefix p s) as [r'|] eqn:E'; [|done].
  intros [= ->]. apply stripPrefix_length in E'. lia.
Qed.

Lemma whiteSpace_nonempty : Forall (fun p => p ≠ EmptyString) whiteSpace.
Proof. repeat constructor; discriminate. Qed.

(** A string without leading white space starts with no white-space
    character. *)
Lemma trimStart_fixed s :
  s ≠ EmptyString -> trimStart s = s -> stripAny whiteSpace s = None.
Proof.
  intros Hs H. destruct s as [|c s]; [done|]. unfold trimStart in H.
  simpl String.length in H. cbn [stripWhile] in H.
  destruct (stripAny whiteSpace (String c s)) as [r|] eqn:E; [|done].
  pose proof (stripAny_shorter _ _ _ whiteSpace_nonempty E) as Hlt.
  pose proof (stripWhile_length whiteSpace (String.length s) r) as Hle.
  rewrite H in Hle. lia.
Qed.




Lemma trimStart_None s : stripAny whiteSpace s = None -> trimStart s = s.
Proof.
  intros H. unfold trimStart. destruct (String.length s); cbn [stripWhile]; [done|].
  by rewrite H.
Qed.

Lemma trimStart_space s : trimStart (String " " s) = trimStart s.
Proof. reflexivity. Qed.













End OptionLines.



(** * The stores *)

Section StoreFacts.
Import Store Scenario.

Lemma noFault_consume w : noFault w -> noFault (consumeFault w).
Proof.
  unfold noFault, consumeFault; simpl.
  destruct (faults w); simpl; [done|]. by inversion 1.
Qed.

Lemma request_noFault w : noFault w -> request w = Resolved () (consumeFault w).
Proof.
  unfold noFault, request. destruct (faults w) as [|[reason|] rest]; try done.
  inversion 1; simplify_eq.
Qed.

Lemma request_fault w reason rest :
  faults w = Some reason :: rest ->
  request w = Rejected (StorageError reason) (consumeFault w).
Proof. unfold request. by intros ->. Qed.

End StoreFacts.

Section StoreRuns.
Import Store Scenario.

Lemma Forall_tail {A} (P : A -> Prop) (l : list A) : Forall P l -> Forall P (tail l).
Proof. destruct 1; simpl; auto. Qed.

(* [noFault] of a world built from another one by store steps *)
Ltac fault_free :=
  unfold noFault in *; simpl;
  repeat apply Forall_tail; assumption.

Lemma getResponseJSON_noFault key w :
  noFault w ->
  getResponseJSON key w = Resolved (responseStore w !! key) (consumeFault w).
Proof.
  intros H. unfold getResponseJSON, mbind, Async_bind. by rewrite request_noFault.
Qed.

Lemma getSurveyJSON_noFault key w :
  noFault w ->
  getSurveyJSON key w = Resolved (surveyStore w !! key) (consumeFault w).
Proof.
  intros H. unfold getSurveyJSON, mbind, Async_bind. by rewrite request_noFault.
Qed.

Lemma getTrackingJSON_noFault key w :
  noFault w ->
  getTrackingJSON key w = Resolved (trackingStore w !! key) (consumeFault w).
Proof.
  intros H. unfold getTrackingJSON, mbind, Async_bind. by rewrite request_noFault.
Qed.

Lemma setResponseJSON_noFault key l w :
  noFault w ->
  exists w', setResponseJSON key l w = Resolved () w'
    /\ responseStore w' = <[key := map jsonObject l]> (responseStore w)
    /\ surveyStore w' = surveyStore w /\ trackingStore w' = trackingStore w
    /\ writes w' = writes w ++ [(RESPONSES_STORE, key)]
    /\ posted w' = posted w /\ noFault w'.
Proof.
  intros H. unfold setResponseJSON, mbind, Async_bind. rewrite request_noFault by done.
  eexists; split; [reflexivity|]. repeat split. fault_free.
Qed.

Lemma setSurveyJSON_noFault key e w :
  noFault w ->
  exists w', setSurveyJSON key e w = Resolved () w'
    /\ surveyStore w' = <[key := e]> (surveyStore w)
    /\ responseStore w' = responseStore w /\ trackingStore w' = trackingStore w
    /\ writes w' = writes w ++ [(SURVEYS_STORE, key)]
    /\ posted w' = posted w /\ noFault w'.
Proof.
  intros H. unfold setSurveyJSON, mbind, Async_bind. rewrite request_noFault by done.
  eexists; split; [reflexivity|]. repeat split. fault_free.
Qed.

Lemma setTrackingJSON_noFault key l w :
  noFault w ->
  exists w', setTrackingJSON key l w = Resolved () w'
    /\ trackingStore w' = <[key := l]> (trackingStore w)
    /\ surveyStore w' = surveyStore w /\ responseStore w' = responseStore w
    /\ writes w' = writes w ++ [(TRACKING_STORE, key)]
    /\ posted w' = posted w /\ noFault w'.
Proof.
  intros H. unfold setTrackingJSON, mbind, Async_bind. rewrite request_noFault by done.
  eexists; split; [reflexivity|]. repeat split. fault_free.
Qed.

(** What one [addResponse] does when the backend answers. *)
Lemma addResponse_noFault surveyId answers w :
  noFault w ->
  let existing := recorded w surveyId ++ [answers] in
  exists w', addResponse surveyId answers w = Resolved (length existing) w'
    /\ responseStore w' = <[surveyId := map jsonObject existing]> (responseStore w)
    /\ surveyStore w' =
         match surveyStore w !! surveyId with
         | Some (SurveyRecord s) =>
             <[surveyId := SurveyRecord (withResponseCount (length existing) s)]> (surveyStore w)
         | _ => surveyStore w
         end
    /\ trackingStore w' = trackingStore w
    /\ writes w' = writes w ++ (RESPONSES_STORE, surveyId) ::
         match surveyStore w !! surveyId with
         | Some _ => [(SURVEYS_STORE, surveyId)]
         | None => []
         end
    /\ posted w' = posted w /\ noFault w'.
Proof.
  intros H existing. unfold addResponse.
  unfold mbind at 1, Async_bind at 1. rewrite getResponseJSON_noFault by done.
  fold (recorded w surveyId). fold existing.
  assert (Hc : noFault (consumeFault w)) by by apply noFault_consume.
  destruct (setResponseJSON_noFault surveyId existing _ Hc)
    as (w1 & E1 & R1 & S1 & T1 & W1 & P1 & F1).
  unfold mbind at 1, Async_bind at 1. change (responseStore (consumeFault w)) with (responseStore w).
  cbv zeta. fold (recorded w surveyId). fold existing. rewrite E1.
  unfold mbind at 1, Async_bind at 1. rewrite getSurveyJSON_noFault by done.
  assert (Hc1 : noFault (consumeFault w1)) by by apply noFault_consume.
  change (surveyStore (consumeFault w1)) with (surveyStore w1). rewrite S1.
  change (surveyStore (consumeFault w)) with (surveyStore w).
  destruct (surveyStore w !! surveyId) as [[s|ids]|] eqn:Es.
  - destruct (setSurveyJSON_noFault surveyId
                (SurveyRecord (withResponseCount (length existing) s)) _ Hc1)
      as (w2 & E2 & S2 & R2 & T2 & W2 & P2 & F2).
    unfold mbind, Async_bind. rewrite E2. eexists; split; [reflexivity|].
    rewrite S2, R2, T2, W2, P2. simpl. rewrite S1, R1, T1, W1, P1. simpl.
    rewrite <- app_assoc. repeat split; done.
  - destruct (setSurveyJSON_noFault surveyId (UserIndex ids) _ Hc1)
      as (w2 & E2 & S2 & R2 & T2 & W2 & P2 & F2).
    unfold mbind, Async_bind. rewrite E2. eexists; split; [reflexivity|].
    rewrite S2, R2, T2, W2, P2. simpl. rewrite S1, R1, T1, W1, P1. simpl.
    rewrite <- app_assoc. repeat split; try done.
    apply insert_id. done.
  - unfold mbind, Async_bind, mret, Async_ret. eexists; split; [reflexivity|].
    simpl. rewrite S1, R1, T1, W1, P1. repeat split; done.
Qed.

End StoreRuns.

Section Ledger.
Import Store Scenario.

Lemma recorded_insert w w' surveyId l :
  responseStore w' = <[surveyId := l]> (responseStore w) ->
  recorded w' surveyId = l.
Proof. unfold recorded. intros ->. by rewrite lookup_insert_eq. Qed.

Lemma getResponses_noFault surveyId w :
  noFault w ->
  getResponses surveyId w = Resolved (recorded w surveyId) (consumeFault w).
Proof.
  intros H. unfold getResponses, mbind, Async_bind.
  by rewrite getResponseJSON_noFault.
Qed.

(** [k] submissions on top of [n] recorded responses. *)
Lemma addResponses_from surveyId answers : forall w s,
  noFault w ->
  surveyStore w !! surveyId = Some (SurveyRecord s) ->
  exists w' s',
    addResponses surveyId answers w
      = Resolved (seq (S (length (recorded w surveyId))) (length answers)) w'
    /\ length (recorded w' surveyId) = (length (recorded w surveyId) + length answers)%nat
    /\ surveyStore w' !! surveyId = Some (SurveyRecord s')
    /\ responseCount s' =
         match answers with
         | [] => responseCount s
         | _ => (length (recorded w surveyId) + length answers)%nat
         end
    /\ noFault w'.
Proof.
  induction answers as [|a rest IH]; intros w s Hf Hs.
  - exists w, s. simpl. repeat split; auto with lia.
  - destruct (addResponse_noFault surveyId a w Hf)
      as (w1 & E1 & R1 & S1 & _ & _ & _ & F1).
    rewrite Hs in S1.
    assert (L1 : length (recorded w1 surveyId) = S (length (recorded w surveyId))).
    { rewrite (recorded_insert _ _ _ _ R1), length_map, length_app. simpl. lia. }
    assert (Hs1 : surveyStore w1 !! surveyId
                  = Some (SurveyRecord
                            (withResponseCount (length (recorded w surveyId ++ [a])) s))).
    { rewrite S1. apply lookup_insert_eq. }
    destruct (IH w1 _ F1 Hs1) as (w2 & s2 & E2 & L2 & S2 & C2 & F2).
    exists w2, s2. simpl. unfold mbind at 1, Async_bind at 1. rewrite E1.
    unfold mbind at 1, Async_bind at 1. rewrite E2. unfold mret, Async_ret.
    rewrite length_app, L1. simpl.
    replace (length (recorded w surveyId) + 1)%nat with (S (length (recorded w surveyId))) by lia.
    repeat split; auto; try lia.
    rewrite C2. destruct rest; simpl in *.
    + rewrite length_app. simpl. lia.
    + lia.
Qed.

End Ledger.

(** C3: after [k] successful submissions in a row to a survey that exists and
    has no response yet (its [responseCount] is the 0 that [createSurvey]
    wrote), the calls have returned 1, 2, ..., [k], [getResponses] resolves to a
    sequence of length [k], and the stored survey has [responseCount] [k]. *)
Theorem addResponse_counts (surveyId : string) (s : Survey)
    (answers : list (gmap string value)) (w : World) :
  Scenario.noFault w ->
  surveyStore w !! surveyId = Some (SurveyRecord s) ->
  responseCount s = 0%nat ->
  Scenario.recorded w surveyId = [] ->
  exists w' w'' rs s',
    Scenario.addResponses surveyId answers w = Resolved (seq 1 (length answers)) w'
    /\ Store.getResponses surveyId w' = Resolved rs w''
    /\ length rs = length answers
    /\ surveyStore w' !! surveyId = Some (SurveyRecord s')
    /\ responseCount s' = length answers.
Proof.
  intros Hf Hs Hc Hr.
  destruct (addResponses_from surveyId answers w s Hf Hs) as (w' & s' & E & L & S' & C & F).
  rewrite Hr in *. simpl in *.
  exists w', (Store.consumeFault w'), (Scenario.recorded w' surveyId), s'.
  repeat split; auto.
  - by apply getResponses_noFault.
  - rewrite C. destruct answers; simpl; auto.
Qed.

Section Json.
Import Store Spec.

Lemma jsonElement_scalar v : jsonScalar v = true -> jsonElement v = v.
Proof.
  destruct v as [| |b|x|s|items|]; simpl; try done.
  destruct (Prim2SF x) as [negative| | |] eqn:E; try done.
  destruct negative; [done|]. intros _. f_equal. symmetry.
  apply Prim2SF_inj. by rewrite E.
Qed.

Lemma jsonElement_value v : jsonValue v = true -> jsonElement v = v.
Proof.
  destruct v as [| |b|x|s|items|]; try apply jsonElement_scalar.
  simpl. intros H. f_equal. induction items as [|i items IH]; [done|].
  simpl in H. apply andb_true_iff in H as [Hi H].
  simpl. by rewrite jsonElement_scalar, IH.
Qed.

Lemma jsonObject_lookup r k :
  jsonObject r !! k
  = match r !! k with
    | Some VUndefined | None => None
    | Some v => Some (jsonElement v)
    end.
Proof. unfold jsonObject. rewrite lookup_omap. by destruct (r !! k) as [[]|]. Qed.

Lemma jsonObject_record r : jsonRecord r -> jsonObject r = r.
Proof.
  intros H. apply map_eq. intros k. rewrite jsonObject_lookup.
  destruct (r !! k) as [v|] eqn:E; [|done].
  specialize (H k v E). simpl in H. rewrite jsonElement_value by done.
  by destruct v.
Qed.

End Json.

(** C10: under a survey id for which the survey store holds nothing,
    [addResponse] still resolves: the answers are appended to the responses
    recorded under that id, the new length is returned, the survey store is
    left as it was, and the only write goes to the response store.  The
    answers are on record as JSON keeps them: an answer that is [undefined]
    is left out and no other is, and an answer that is [null], a boolean, a
    string, a finite number other than [-0], or an array of such values is
    kept as it is; so when the responses already on record and the answers
    are made of such values, the responses on record are the former ones
    followed by the answers.  Under the id 0badc0de, which names no survey
    and has one response on record, a second response is recorded after the
    first and the call returns 2. *)
Theorem addResponse_without_survey (surveyId : string) (answers : gmap string value)
    (w : World) :
  Scenario.noFault w ->
  surveyStore w !! surveyId = None ->
  (exists w',
     Store.addResponse surveyId answers w
       = Resolved (S (length (Scenario.recorded w surveyId))) w'
     /\ Scenario.recorded w' surveyId
        = map Store.jsonObject (Scenario.recorded w surveyId) ++ [Store.jsonObject answers]
     /\ (forall k, Store.jsonObject answers !! k = None
                   <-> answers !! k = None \/ answers !! k = Some VUndefined)
     /\ (forall k v, answers !! k = Some v -> Spec.jsonValue v = true ->
                     Store.jsonObject answers !! k = Some v)
     /\ (Forall Spec.jsonRecord (Scenario.recorded w surveyId ++ [answers]) ->
         Scenario.recorded w' surveyId = Scenario.recorded w surveyId ++ [answers])
     /\ length (Scenario.recorded w' surveyId) = S (length (Scenario.recorded w surveyId))
     /\ surveyStore w' = surveyStore w
     /\ writes w' = writes w ++ [(Store.RESPONSES_STORE, surveyId)])
  /\ exists w',
       Store.addResponse "0badc0de" (Sample.answers 3 [] "orphan") Sample.orphaned
       = Resolved 2%nat w'
       /\ Scenario.recorded w' "0badc0de"
          = [ {[ "q_0" := VString "4"; "q_1" := VArray [VString "A"];
                 "q_2" := VString "first" ]};
              {[ "q_0" := VString "3"; "q_1" := VArray []; "q_2" := VString "orphan" ]} ].
Proof.
  intros Hf Hs. split.
  - destruct (addResponse_noFault surveyId answers w Hf) as (w' & E & R & S' & _ & W & _ & _).
    rewrite Hs in S', W. exists w'.
    rewrite (recorded_insert _ _ _ _ R), length_app, Nat.add_1_r in *.
    rewrite map_app, length_app, length_map. simpl. rewrite Nat.add_1_r.
    split; [done|]. split; [done|]. split; [|split; [|split]].
    + intros k. rewrite jsonObject_lookup.
      destruct (answers !! k) as [v|]; [|by split; [left|]].
      destruct v; (split; [done | intros [?|?]; congruence]) || by split; [right|].
    + intros k v Hk Hv. rewrite jsonObject_lookup, Hk.
      rewrite jsonElement_value by done. by destruct v.
    + intros Hj. apply Forall_app in Hj as [Hr Ha].
      apply Forall_inv in Ha. rewrite (jsonObject_record answers Ha).
      f_equal. clear -Hr. induction Hr as [|r rs Hr _ IH]; [done|].
      simpl. by rewrite jsonObject_record, IH.
    + repeat split; auto.
  - eexists. split; vm_compute; reflexivity.
Qed.

Section Dedup.
Import Store Scenario.

Lemma Array_includes_elem_of set hash : Array_includes set hash = true <-> hash ∈ set.
Proof.
  unfold Array_includes. rewrite existsb_exists. split.
  - intros (x & Hin & Heq). apply String.eqb_eq in Heq. subst.
    by apply list_elem_of_In.
  - intros Hin. exists hash. split; [by apply list_elem_of_In | apply String.eqb_refl].
Qed.

Lemma Array_includes_not_elem_of set hash : Array_includes set hash = false <-> hash ∉ set.
Proof.
  rewrite <- Array_includes_elem_of. destruct (Array_includes set hash); naive_solver.
Qed.

Lemma hasUserResponded_noFault surveyId userId w :
  noFault w ->
  hasUserResponded surveyId userId w
    = Resolved (Array_includes (tracked w surveyId) (digest surveyId userId))
        (consumeFault w).
Proof.
  intros H. unfold hasUserResponded, mbind, Async_bind.
  by rewrite getTrackingJSON_noFault.
Qed.

(** What one [markUserResponded] does when the backend answers. *)
Lemma markUserResponded_noFault surveyId userId w :
  noFault w ->
  exists w', markUserResponded surveyId userId w = Resolved () w'
    /\ trackingStore w' =
         (if Array_includes (tracked w surveyId) (digest surveyId userId)
          then trackingStore w
          else <[surveyId := tracked w surveyId ++ [digest surveyId userId]]> (trackingStore w))
    /\ writes w' =
         (if Array_includes (tracked w surveyId) (digest surveyId userId)
          then writes w
          else writes w ++ [(TRACKING_STORE, surveyId)])
    /\ surveyStore w' = surveyStore w /\ responseStore w' = responseStore w
    /\ posted w' = posted w /\ noFault w'.
Proof.
  intros H. unfold markUserResponded.
  unfold mbind at 1, Async_bind at 1. rewrite getTrackingJSON_noFault by done.
  change (trackingStore (consumeFault w)) with (trackingStore w).
  fold (tracked w surveyId).
  destruct (Array_includes (tracked w surveyId) (digest surveyId userId)) eqn:E.
  - eexists; split; [reflexivity|]. repeat split. by apply noFault_consume.
  - destruct (setTrackingJSON_noFault surveyId
                (tracked w surveyId ++ [digest surveyId userId]) _ (noFault_consume _ H))
      as (w1 & E1 & T1 & S1 & R1 & W1 & P1 & F1).
    exists w1. repeat split; auto.
Qed.

Lemma tracked_after_mark surveyId userId w w' :
  trackingStore w' =
    (if Array_includes (tracked w surveyId) (digest surveyId userId)
     then trackingStore w
     else <[surveyId := tracked w surveyId ++ [digest surveyId userId]]> (trackingStore w)) ->
  forall other,
    tracked w' other =
      if decide (other = surveyId)
      then (if Array_includes (tracked w surveyId) (digest surveyId userId)
            then tracked w surveyId
            else tracked w surveyId ++ [digest surveyId userId])
      else tracked w other.
Proof.
  intros E other. unfold tracked at 1. rewrite E.
  destruct (Array_includes _ _); case_decide; subst; try done.
  - by rewrite lookup_insert_eq.
  - by rewrite lookup_insert_ne.
Qed.

(** Marks leave on record only digests that were there or that they wrote. *)
Lemma markAll_noFault pairs : forall w,
  noFault w ->
  exists w', markAll pairs w = Resolved () w' /\ noFault w'
    /\ forall surveyId h, h ∈ tracked w' surveyId ->
         h ∈ tracked w surveyId
         \/ exists u, (surveyId, u) ∈ pairs /\ h = digest surveyId u.
Proof.
  induction pairs as [|[sid uid] rest IH]; intros w Hf.
  - exists w. repeat split; auto.
  - destruct (markUserResponded_noFault sid uid w Hf) as (w1 & E1 & T1 & _ & _ & _ & _ & F1).
    destruct (IH w1 F1) as (w2 & E2 & F2 & I2).
    exists w2. simpl. unfold mbind, Async_bind. rewrite E1, E2. repeat split; auto.
    intros surveyId h Hh. destruct (I2 _ _ Hh) as [Hin | (u & Hu & ->)].
    + rewrite (tracked_after_mark _ _ _ _ T1) in Hin.
      case_decide; subst; [|by left].
      destruct (Array_includes _ _); [by left|].
      apply elem_of_app in Hin as [?|Hin]; [by left|].
      apply list_elem_of_singleton in Hin. subst.
      right. exists uid. split; [left|done].
    + right. exists u. split; [by right|done].
Qed.

End Dedup.

(** C2: take a survey and a user whose digest is not on record (as in a fresh
    tracking store), and let other users be marked, none of them colliding
    with this user under SHA-256.  Then [hasUserResponded] resolves to [false];
    after [markUserResponded] it resolves to [true] and the record has grown
    by one digest; a second [markUserResponded] writes nothing and leaves the
    record as it is. *)
Theorem dedup_mark_once (surveyId userId : string) (others : list (string * string))
    (w : World) :
  Scenario.noFault w ->
  Store.digest surveyId userId ∉ Scenario.tracked w surveyId ->
  (surveyId, userId) ∉ others ->
  (forall u, (surveyId, u) ∈ others -> u ≠ userId ->
             Store.digest surveyId u ≠ Store.digest surveyId userId) ->
  exists w1 w1' w2 w2' w3,
    Scenario.markAll others w = Resolved () w1
    /\ Store.hasUserResponded surveyId userId w1 = Resolved false w1'
    /\ Store.markUserResponded surveyId userId w1' = Resolved () w2
    /\ Store.hasUserResponded surveyId userId w2 = Resolved true w2'
    /\ Store.markUserResponded surveyId userId w2' = Resolved () w3
    /\ length (Scenario.tracked w2 surveyId) = S (length (Scenario.tracked w1 surveyId))
    /\ trackingStore w3 = trackingStore w2
    /\ writes w3 = writes w2.
Proof.
  intros Hf Hfresh Hnot Hcoll.
  destruct (markAll_noFault others w Hf) as (w1 & E1 & F1 & I1).
  assert (Hout : Store.digest surveyId userId ∉ Scenario.tracked w1 surveyId).
  { intros Hin. destruct (I1 _ _ Hin) as [?|(u & Hu & Hd)]; [done|].
    destruct (decide (u = userId)) as [->|Hne]; [done|].
    by apply (Hcoll u Hu Hne). }
  apply Array_includes_not_elem_of in Hout.
  pose proof (hasUserResponded_noFault surveyId userId w1 F1) as H1.
  rewrite Hout in H1.
  pose proof (noFault_consume _ F1) as F1'.
  destruct (markUserResponded_noFault surveyId userId _ F1')
    as (w2 & E2 & T2 & W2 & _ & _ & _ & F2).
  change (Scenario.tracked (Store.consumeFault w1) surveyId)
    with (Scenario.tracked w1 surveyId) in T2, W2.
  rewrite Hout in T2, W2.
  assert (Htr : Scenario.tracked w2 surveyId
                = Scenario.tracked w1 surveyId ++ [Store.digest surveyId userId]).
  { unfold Scenario.tracked at 1. rewrite T2. by rewrite lookup_insert_eq. }
  assert (Hin : Store.Array_includes (Scenario.tracked w2 surveyId)
                  (Store.digest surveyId userId) = true).
  { apply Array_includes_elem_of. rewrite Htr. apply elem_of_app. right. left. }
  pose proof (hasUserResponded_noFault surveyId userId w2 F2) as H2.
  rewrite Hin in H2.
  destruct (markUserResponded_noFault surveyId userId _ (noFault_consume _ F2))
    as (w3 & E3 & T3 & W3 & _ & _ & _ & F3).
  change (Scenario.tracked (Store.consumeFault w2) surveyId)
    with (Scenario.tracked w2 surveyId) in T3, W3.
  rewrite Hin in T3, W3.
  exists w1, (Store.consumeFault w1), w2, (Store.consumeFault w2), w3.
  repeat split; auto.
  rewrite Htr, length_app. simpl. lia.
Qed.

(** C3 at the sample survey, just created: two submissions. *)
Lemma addResponse_counts_witness :
  Scenario.noFault Sample.created
  /\ surveyStore Sample.created !! "a1b2c3d4" = Some (SurveyRecord Sample.survey)
  /\ responseCount Sample.survey = 0%nat
  /\ Scenario.recorded Sample.created "a1b2c3d4" = []
  /\ exists w' w'' rs s',
       Scenario.addResponses "a1b2c3d4" Sample.told Sample.created
       = Resolved (seq 1 (length Sample.told)) w'
       /\ Store.getResponses "a1b2c3d4" w' = Resolved rs w''
       /\ length rs = length Sample.told
       /\ surveyStore w' !! "a1b2c3d4" = Some (SurveyRecord s')
       /\ responseCount s' = length Sample.told.
Proof.
  assert (H1 : Scenario.noFault Sample.created) by constructor.
  assert (H2 : surveyStore Sample.created !! "a1b2c3d4" = Some (SurveyRecord Sample.survey))
    by (vm_compute; reflexivity).
  assert (H4 : Scenario.recorded Sample.created "a1b2c3d4" = []) by (vm_compute; reflexivity).
  exact (conj H1 (conj H2 (conj eq_refl (conj H4
           (addResponse_counts "a1b2c3d4" Sample.survey Sample.told Sample.created
              H1 H2 eq_refl H4))))).
Defined.

(** C10 at a response on record under an id that names no survey. *)
Lemma addResponse_without_survey_witness :
  Scenario.noFault Sample.orphaned
  /\ surveyStore Sample.orphaned !! "0badc0de" = None
  /\ (exists w',
        Store.addResponse "0badc0de" (Sample.answers 3 [] "orphan") Sample.orphaned
          = Resolved (S (length (Scenario.recorded Sample.orphaned "0badc0de"))) w'
        /\ Scenario.recorded w' "0badc0de"
           = map Store.jsonObject (Scenario.recorded Sample.orphaned "0badc0de")
             ++ [Store.jsonObject (Sample.answers 3 [] "orphan")]
        /\ (forall k, Store.jsonObject (Sample.answers 3 [] "orphan") !! k = None
                      <-> Sample.answers 3 [] "orphan" !! k = None
                          \/ Sample.answers 3 [] "orphan" !! k = Some VUndefined)
        /\ (forall k v, Sample.answers 3 [] "orphan" !! k = Some v ->
                        Spec.jsonValue v = true ->
                        Store.jsonObject (Sample.answers 3 [] "orphan") !! k = Some v)
        /\ (Forall Spec.jsonRecord
              (Scenario.recorded Sample.orphaned "0badc0de"
               ++ [Sample.answers 3 [] "orphan"]) ->
            Scenario.recorded w' "0badc0de"
            = Scenario.recorded Sample.orphaned "0badc0de"
              ++ [Sample.answers 3 [] "orphan"])
        /\ length (Scenario.recorded w' "0badc0de")
           = S (length (Scenario.recorded Sample.orphaned "0badc0de"))
        /\ surveyStore w' = surveyStore Sample.orphaned
        /\ writes w' = writes Sample.orphaned ++ [(Store.RESPONSES_STORE, "0badc0de")])
     /\ exists w',
          Store.addResponse "0badc0de" (Sample.answers 3 [] "orphan") Sample.orphaned
          = Resolved 2%nat w'
          /\ Scenario.recorded w' "0badc0de"
             = [ {[ "q_0" := VString "4"; "q_1" := VArray [VString "A"];
                    "q_2" := VString "first" ]};
                 {[ "q_0" := VString "3"; "q_1" := VArray [];
                    "q_2" := VString "orphan" ]} ].
Proof.
  assert (H1 : Scenario.noFault Sample.orphaned) by constructor.
  assert (H2 : surveyStore Sample.orphaned !! "0badc0de" = None) by (vm_compute; reflexivity).
  exact (conj H1 (conj H2
           (addResponse_without_survey "0badc0de" (Sample.answers 3 [] "orphan")
              Sample.orphaned H1 H2))).
Defined.

(** C2 at empty stores: user U1, after user U2 and after U1 on another
    survey. *)
Lemma dedup_mark_once_witness :
  Scenario.noFault Sample.fresh
  /\ (Store.digest "a1b2c3d4" "U1" ∉ Scenario.tracked Sample.fresh "a1b2c3d4")
  /\ (("a1b2c3d4", "U1") ∉ [("a1b2c3d4", "U2"); ("0badc0de", "U1")])
  /\ (forall u, ("a1b2c3d4", u) ∈ [("a1b2c3d4", "U2"); ("0badc0de", "U1")] -> u ≠ "U1" ->
        Store.digest "a1b2c3d4" u ≠ Store.digest "a1b2c3d4" "U1")
  /\ exists w1 w1' w2 w2' w3,
       Scenario.markAll [("a1b2c3d4", "U2"); ("0badc0de", "U1")] Sample.fresh = Resolved () w1
       /\ Store.hasUserResponded "a1b2c3d4" "U1" w1 = Resolved false w1'
       /\ Store.markUserResponded "a1b2c3d4" "U1" w1' = Resolved () w2
       /\ Store.hasUserResponded "a1b2c3d4" "U1" w2 = Resolved true w2'
       /\ Store.markUserResponded "a1b2c3d4" "U1" w2' = Resolved () w3
       /\ length (Scenario.tracked w2 "a1b2c3d4") = S (length (Scenario.tracked w1 "a1b2c3d4"))
       /\ trackingStore w3 = trackingStore w2
       /\ writes w3 = writes w2.
Proof.
  assert (H1 : Scenario.noFault Sample.fresh) by constructor.
  assert (H2 : Store.digest "a1b2c3d4" "U1" ∉ Scenario.tracked Sample.fresh "a1b2c3d4")
    by apply not_elem_of_nil.
  assert (H3 : ("a1b2c3d4", "U1") ∉ [("a1b2c3d4", "U2"); ("0badc0de", "U1")]).
  { apply (bool_decide_unpack _). vm_compute. exact I. }
  assert (H4 : forall u, ("a1b2c3d4", u) ∈ [("a1b2c3d4", "U2"); ("0badc0de", "U1")] ->
                 u ≠ "U1" -> Store.digest "a1b2c3d4" u ≠ Store.digest "a1b2c3d4" "U1").
  { intros u Hu _.
    apply elem_of_cons in Hu as [Hu|Hu];
      [|apply list_elem_of_singleton in Hu; discriminate Hu].
    injection Hu as ->. vm_compute. discriminate. }
  exact (conj H1 (conj H2 (conj H3 (conj H4
           (dedup_mark_once "a1b2c3d4" "U1" _ Sample.fresh H1 H2 H3 H4))))).
Defined.

Section Tracking.
Import Store.

Lemma markUserResponded_digest surveyId userId other w :
  digest surveyId userId = digest surveyId other ->
  markUserResponded surveyId userId w = markUserResponded surveyId other w.
Proof. unfold markUserResponded. by intros ->. Qed.

Lemma hasUserResponded_digest surveyId userId other w :
  digest surveyId userId = digest surveyId other ->
  hasUserResponded surveyId userId w = hasUserResponded surveyId other w.
Proof. unfold hasUserResponded. by intros ->. Qed.

End Tracking.

(** C4 (as the code has it): the dedup digest of a survey id and a user id is
    the plain SHA-256 of the survey id, a colon and the user id, in
    hexadecimal; no key and no salt enters it.  The user id is not stored:
    what [markUserResponded] and [hasUserResponded] do depends on the user
    only through this digest, and a mark adds the digest to the record of
    the survey and touches no other store. *)
Theorem digest_is_plain_sha256 (surveyId userId other : string) (w : World) :
  Store.digest surveyId userId = Sha256.digestHex (surveyId +:+ ":" +:+ userId)
  /\ (Store.digest surveyId userId = Store.digest surveyId other ->
      Store.markUserResponded surveyId userId w = Store.markUserResponded surveyId other w
      /\ Store.hasUserResponded surveyId userId w = Store.hasUserResponded surveyId other w)
  /\ (Scenario.noFault w ->
      exists w', Store.markUserResponded surveyId userId w = Resolved () w'
        /\ (Scenario.tracked w' surveyId = Scenario.tracked w surveyId
            \/ Scenario.tracked w' surveyId
               = Scenario.tracked w surveyId ++ [Store.digest surveyId userId])
        /\ surveyStore w' = surveyStore w
        /\ responseStore w' = responseStore w).
Proof.
  split; [reflexivity|]. split.
  - intros E. split; [by apply markUserResponded_digest | by apply hasUserResponded_digest].
  - intros Hf.
    destruct (markUserResponded_noFault surveyId userId w Hf)
      as (w' & E & T & _ & S' & R & _ & _).
    exists w'. repeat split; auto.
    rewrite (tracked_after_mark _ _ _ _ T surveyId), decide_True by done.
    destruct (Store.Array_includes _ _); auto.
Qed.

(** C4, the claim as written fails: no key is involved.  The digest of the
    survey a1b2c3d4 and the user U12345 is the SHA-256 of the public text
    a1b2c3d4:U12345, which anyone can compute. *)
Lemma digest_keyed_counterexample :
  Store.digest "a1b2c3d4" "U12345" = Sha256.digestHex "a1b2c3d4:U12345"
  /\ Sha256.digestHex "a1b2c3d4:U12345"
     = "f0a8fc465ff3a633732a4004e07e4d335c6289d79ef1c763382257094653cb3c".
Proof. split; vm_compute; reflexivity. Qed.

Section Faults.
Import Store.

Lemma getSurvey_fault key w reason rest :
  faults w = Some reason :: rest ->
  getSurvey key w = Rejected (StorageError reason) (consumeFault w).
Proof.
  intros H. unfold getSurvey, getSurveyJSON, mbind, Async_bind.
  by rewrite (request_fault _ _ _ H).
Qed.

Lemma getResponses_fault key w reason rest :
  faults w = Some reason :: rest ->
  getResponses key w = Rejected (StorageError reason) (consumeFault w).
Proof.
  intros H. unfold getResponses, getResponseJSON, mbind, Async_bind.
  by rewrite (request_fault _ _ _ H).
Qed.

Lemma hasUserResponded_fault surveyId userId w reason rest :
  faults w = Some reason :: rest ->
  hasUserResponded surveyId userId w = Rejected (StorageError reason) (consumeFault w).
Proof.
  intros H. unfold hasUserResponded, getTrackingJSON, mbind, Async_bind.
  by rewrite (request_fault _ _ _ H).
Qed.

End Faults.

(** C9 (as the code has it): when the backend fails a request, [getSurvey],
    [getResponses] and [hasUserResponded] do not resolve to an empty result:
    they reject with the error of the backend, unchanged.  The command
    handler answers a rejection, this one like any other, with one and the
    same message: the caller of [/pulse share] is told that something went
    wrong, not that the storage is unavailable. *)
Theorem storage_fault_rejects (surveyId userId channelId : string) (w : World)
    (reason : string) (rest : list (option string)) :
  faults w = Some reason :: rest ->
  Store.getSurvey surveyId w = Rejected (StorageError reason) (Store.consumeFault w)
  /\ Store.getResponses surveyId w = Rejected (StorageError reason) (Store.consumeFault w)
  /\ Store.hasUserResponded surveyId userId w
     = Rejected (StorageError reason) (Store.consumeFault w)
  /\ (forall (body : Async Reply) e w', body w = Rejected e w' ->
        Commands.tryCatch body w
        = Resolved
            (SlackResponse
               ":warning: Something went wrong. Please try again or contact your admin.") w')
  /\ (Js.ToBoolean (VString surveyId) = true ->
      Commands.shareCommand channelId (Some surveyId) w
      = Resolved
          (SlackResponse
             ":warning: Something went wrong. Please try again or contact your admin.")
          (Store.consumeFault w)).
Proof.
  intros H.
  split; [by eapply getSurvey_fault|].
  split; [by eapply getResponses_fault|].
  split; [by eapply hasUserResponded_fault|].
  split.
  - intros body e w' E. unfold Commands.tryCatch. by rewrite E.
  - intros Hs. unfold Commands.shareCommand, Commands.tryCatch, Commands.handleShare.
    rewrite Hs. unfold mbind at 1, Async_bind at 1.
    by rewrite (getSurvey_fault _ _ _ _ H).
Qed.

(** C9, the claim as written fails: a storage fault has no outcome of its
    own.  [/pulse share] answers the failure of the backend and a rating that
    cannot be drawn (a [RangeError] of the renderer) with the same words. *)
Lemma storage_fault_counterexample :
  (exists w, Store.getResponses "a1b2c3d4" (Store.consumeFault Sample.outage)
             = Rejected (StorageError "fetch failed") w)
  /\ (exists w, Commands.shareCommand "C1" (Some "a1b2c3d4") Sample.outage
                = Resolved
                    (SlackResponse
                       ":warning: Something went wrong. Please try again or contact your admin.")
                    w)
  /\ Blocks.buildResultsBlocks Sample.survey [Sample.answers 7 ["A"] "fine"] Spec.publicShare
     = Throw RangeError
  /\ (exists w, Commands.shareCommand "C1" (Some "a1b2c3d4") Sample.outOfRange
                = Resolved
                    (SlackResponse
                       ":warning: Something went wrong. Please try again or contact your admin.")
                    w).
Proof.
  split; [eexists; vm_compute; reflexivity|].
  split; [eexists; vm_compute; reflexivity|].
  split; [vm_compute; reflexivity|].
  eexists; vm_compute; reflexivity.
Qed.

(** C9 at a backend that fails the next request. *)
Lemma storage_fault_rejects_witness :
  faults (Store.consumeFault Sample.outage) = [Some "fetch failed"]
  /\ Store.getSurvey "a1b2c3d4" (Store.consumeFault Sample.outage)
     = Rejected (StorageError "fetch failed")
         (Store.consumeFault (Store.consumeFault Sample.outage))
  /\ Store.getResponses "a1b2c3d4" (Store.consumeFault Sample.outage)
     = Rejected (StorageError "fetch failed")
         (Store.consumeFault (Store.consumeFault Sample.outage))
  /\ Store.hasUserResponded "a1b2c3d4" "U1" (Store.consumeFault Sample.outage)
     = Rejected (StorageError "fetch failed")
         (Store.consumeFault (Store.consumeFault Sample.outage))
  /\ (forall (body : Async Reply) e w',
        body (Store.consumeFault Sample.outage) = Rejected e w' ->
        Commands.tryCatch body (Store.consumeFault Sample.outage)
        = Resolved
            (SlackResponse
               ":warning: Something went wrong. Please try again or contact your admin.") w')
  /\ (Js.ToBoolean (VString "a1b2c3d4") = true ->
      Commands.shareCommand "C1" (Some "a1b2c3d4") (Store.consumeFault Sample.outage)
      = Resolved
          (SlackResponse
             ":warning: Something went wrong. Please try again or contact your admin.")
          (Store.consumeFault (Store.consumeFault Sample.outage))).
Proof.
  assert (H : faults (Store.consumeFault Sample.outage) = [Some "fetch failed"])
    by reflexivity.
  exact (conj H (storage_fault_rejects "a1b2c3d4" "U1" "C1" _ _ _ H)).
Defined.

(** * Survey records and the per-user index *)

Section SurveyRecords.
Import Store Scenario Surveys Runs.

Lemma noFault_faults w w' : faults w' = faults w -> noFault w -> noFault w'.
Proof. unfold noFault. by intros ->. Qed.

Lemma setSurveyJSON_run key e w :
  noFault w -> setSurveyJSON key e w = Resolved () (afterSurveyWrite key e w).
Proof.
  intros H. unfold setSurveyJSON, mbind, Async_bind. by rewrite request_noFault.
Qed.

Lemma noFault_afterSurveyWrite key e w : noFault w -> noFault (afterSurveyWrite key e w).
Proof. unfold noFault. simpl. apply Forall_tail. Qed.

Lemma createSurvey_run uuid now draft w :
  noFault w ->
  let record :=
    {| id := shortId uuid; title := Draft.title draft; questions := Draft.questions draft;
       createdBy := Draft.createdBy draft; settings := Some (Draft.settings draft);
       status := "open"; responseCount := 0; createdAt := now |} in
  createSurvey uuid now draft w
  = Resolved record (afterSurveyWrite (shortId uuid) (SurveyRecord record) w).
Proof.
  intros H record. unfold createSurvey, mbind, Async_bind.
  by rewrite setSurveyJSON_run.
Qed.

Lemma updateSurvey_missing id updates w :
  noFault w -> surveyStore w !! id = None ->
  updateSurvey id updates w = Resolved None (consumeFault w).
Proof.
  intros H Hs. unfold updateSurvey, mbind, Async_bind.
  rewrite getSurveyJSON_noFault by done. by rewrite Hs.
Qed.

Lemma updateSurvey_run id updates s w :
  noFault w -> surveyStore w !! id = Some (SurveyRecord s) ->
  updateSurvey id updates w
  = Resolved (Some (spread s updates))
      (afterSurveyWrite id (SurveyRecord (spread s updates)) (consumeFault w)).
Proof.
  intros H Hs. unfold updateSurvey.
  unfold mbind at 1, Async_bind at 1. rewrite getSurveyJSON_noFault by done.
  rewrite Hs. unfold mbind, Async_bind.
  rewrite setSurveyJSON_run by by apply noFault_consume. done.
Qed.

Lemma addSurveyToUserIndex_run userId surveyId w :
  noFault w ->
  (forall s, surveyStore w !! indexKey userId ≠ Some (SurveyRecord s)) ->
  addSurveyToUserIndex userId surveyId w
  = Resolved ()
      (afterSurveyWrite (indexKey userId) (UserIndex (indexed w userId ++ [surveyId]))
         (consumeFault w)).
Proof.
  intros H Hs. unfold addSurveyToUserIndex, indexed.
  unfold mbind, Async_bind. rewrite getSurveyJSON_noFault by done.
  destruct (surveyStore w !! indexKey userId) as [[s|ids]|] eqn:E.
  - by destruct (Hs s).
  - by rewrite setSurveyJSON_run by by apply noFault_consume.
  - by rewrite setSurveyJSON_run by by apply noFault_consume.
Qed.

Lemma indexed_afterSurveyWrite userId ids w :
  indexed (afterSurveyWrite (indexKey userId) (UserIndex ids) w) userId = ids.
Proof. unfold indexed. simpl. by rewrite lookup_insert_eq. Qed.

Lemma stripPrefix_append p s : JsString.stripPrefix p (p +:+ s) = Some s.
Proof. induction p as [|a p IH]; simpl; [done|]. by rewrite Ascii.eqb_refl. Qed.

(** No survey id is the key of an index: the fifth character of such a key
    is [_], the first is [u], and neither is a hexadecimal digit. *)
Lemma shortId_not_indexKey uuid userId :
  allHex (shortId uuid) = true -> shortId uuid ≠ indexKey userId.
Proof.
  unfold shortId, indexKey. intros Hhex Heq. rewrite Heq in Hhex.
  simpl in Hhex. discriminate.
Qed.

End SurveyRecords.

(** X1: [createSurvey] stores what it returns: the record has the first eight
    characters of the UUID as its id, the fields of the draft, the status
    open, no response and the creation time; it is written under its id,
    replacing whatever was there, as the only write; [getSurvey] on the id
    then resolves to it, every other key of the survey store is as before,
    and neither the responses nor the tracking records are touched, those
    recorded under the same id included. *)
Theorem createSurvey_then_getSurvey (uuid now : string) (draft : Draft.t) (w : World) :
  Scenario.noFault w ->
  exists record w',
    Surveys.createSurvey uuid now draft w = Resolved record w'
    /\ id record = Surveys.shortId uuid
    /\ title record = Draft.title draft
    /\ questions record = Draft.questions draft
    /\ createdBy record = Draft.createdBy draft
    /\ settings record = Some (Draft.settings draft)
    /\ status record = "open"
    /\ responseCount record = 0%nat
    /\ createdAt record = now
    /\ Store.getSurvey (id record) w'
       = Resolved (Some (SurveyRecord record)) (Store.consumeFault w')
    /\ (forall key, key ≠ id record -> surveyStore w' !! key = surveyStore w !! key)
    /\ responseStore w' = responseStore w
    /\ trackingStore w' = trackingStore w
    /\ writes w' = writes w ++ [(Store.SURVEYS_STORE, id record)].
Proof.
  intros H. eexists _, _. split; [by apply createSurvey_run|].
  repeat split; try reflexivity.
  - unfold Store.getSurvey. rewrite getSurveyJSON_noFault
      by by apply noFault_afterSurveyWrite.
    simpl. by rewrite lookup_insert_eq.
  - intros key Hkey. simpl in *. by rewrite lookup_insert_ne.
Qed.

(** X1 at empty stores. *)
Lemma createSurvey_then_getSurvey_witness :
  Scenario.noFault Sample.fresh
  /\ exists record w',
       Surveys.createSurvey "a1b2c3d4-0000-4000-8000-000000000000"
         "2024-05-01T10:00:00.000Z" Cases.draft Sample.fresh
       = Resolved record w'
       /\ id record = Surveys.shortId "a1b2c3d4-0000-4000-8000-000000000000"
       /\ title record = Draft.title Cases.draft
       /\ questions record = Draft.questions Cases.draft
       /\ createdBy record = Draft.createdBy Cases.draft
       /\ settings record = Some (Draft.settings Cases.draft)
       /\ status record = "open"
       /\ responseCount record = 0%nat
       /\ createdAt record = "2024-05-01T10:00:00.000Z"
       /\ Store.getSurvey (id record) w'
          = Resolved (Some (SurveyRecord record)) (Store.consumeFault w')
       /\ (forall key, key ≠ id record ->
             surveyStore w' !! key = surveyStore Sample.fresh !! key)
       /\ responseStore w' = responseStore Sample.fresh
       /\ trackingStore w' = trackingStore Sample.fresh
       /\ writes w' = writes Sample.fresh ++ [(Store.SURVEYS_STORE, id record)].
Proof.
  assert (H : Scenario.noFault Sample.fresh) by constructor.
  exact (conj H (createSurvey_then_getSurvey "a1b2c3d4-0000-4000-8000-000000000000"
                   "2024-05-01T10:00:00.000Z" Cases.draft Sample.fresh H)).
Defined.

(** X2: [closeSurvey] on an id under which nothing is stored resolves to [null]
    after one read and writes nothing.  On a stored survey it resolves to
    the survey with the status closed and every other field as it was, the
    response count included, and stores that; closing once more stores the
    same record again. *)
Theorem closeSurvey_sets_status (surveyId : string) (w : World) :
  Scenario.noFault w ->
  (surveyStore w !! surveyId = None ->
   Surveys.closeSurvey surveyId w = Resolved None (Store.consumeFault w))
  /\ (forall s, surveyStore w !! surveyId = Some (SurveyRecord s) ->
      exists closed w' w'',
        Surveys.closeSurvey surveyId w = Resolved (Some closed) w'
        /\ status closed = "closed"
        /\ id closed = id s /\ title closed = title s /\ questions closed = questions s
        /\ createdBy closed = createdBy s /\ settings closed = settings s
        /\ responseCount closed = responseCount s /\ createdAt closed = createdAt s
        /\ surveyStore w' = <[surveyId := SurveyRecord closed]> (surveyStore w)
        /\ responseStore w' = responseStore w
        /\ trackingStore w' = trackingStore w
        /\ writes w' = writes w ++ [(Store.SURVEYS_STORE, surveyId)]
        /\ Surveys.closeSurvey surveyId w' = Resolved (Some closed) w''
        /\ surveyStore w'' = surveyStore w').
Proof.
  intros H. split.
  - intros Hs. by apply updateSurvey_missing.
  - intros s Hs. unfold Surveys.closeSurvey.
    set (u := {| Updates.id := None; Updates.title := None; Updates.questions := None;
                 Updates.createdBy := None; Updates.settings := None;
                 Updates.status := Some "closed";
                 Updates.responseCount := None; Updates.createdAt := None |}).
    set (w' := Runs.afterSurveyWrite surveyId (SurveyRecord (Surveys.spread s u))
                 (Store.consumeFault w)).
    exists (Surveys.spread s u), w',
      (Runs.afterSurveyWrite surveyId (SurveyRecord (Surveys.spread s u)) (Store.consumeFault w')).
    split; [by apply updateSurvey_run|].
    do 12 (split; [reflexivity|]). split.
    + rewrite (updateSurvey_run surveyId u (Surveys.spread s u)); [done| |].
      * by apply noFault_afterSurveyWrite, noFault_consume.
      * simpl. by rewrite lookup_insert_eq.
    + simpl. by rewrite insert_insert_eq.
Qed.

(** X2 at the sample survey, just created. *)
Lemma closeSurvey_sets_status_witness :
  Scenario.noFault Sample.created
  /\ (surveyStore Sample.created !! "a1b2c3d4" = None ->
      Surveys.closeSurvey "a1b2c3d4" Sample.created
      = Resolved None (Store.consumeFault Sample.created))
  /\ (forall s, surveyStore Sample.created !! "a1b2c3d4" = Some (SurveyRecord s) ->
      exists closed w' w'',
        Surveys.closeSurvey "a1b2c3d4" Sample.created = Resolved (Some closed) w'
        /\ status closed = "closed"
        /\ id closed = id s /\ title closed = title s /\ questions closed = questions s
        /\ createdBy closed = createdBy s /\ settings closed = settings s
        /\ responseCount closed = responseCount s /\ createdAt closed = createdAt s
        /\ surveyStore w' = <[ "a1b2c3d4" := SurveyRecord closed]> (surveyStore Sample.created)
        /\ responseStore w' = responseStore Sample.created
        /\ trackingStore w' = trackingStore Sample.created
        /\ writes w' = writes Sample.created ++ [(Store.SURVEYS_STORE, "a1b2c3d4")]
        /\ Surveys.closeSurvey "a1b2c3d4" w' = Resolved (Some closed) w''
        /\ surveyStore w'' = surveyStore w').
Proof.
  assert (H : Scenario.noFault Sample.created) by constructor.
  exact (conj H (closeSurvey_sets_status "a1b2c3d4" Sample.created H)).
Defined.

(** X3: The store does not look at the status when it records a response: on a
    stored survey, [closeSurvey] followed by [addResponse] resolves like
    [addResponse] alone, and leaves the survey closed with the response
    counted; the two calls in the other order leave the same survey, the
    same responses and the same tracking records. *)
Theorem closeSurvey_addResponse_commute (surveyId : string) (s : Survey)
    (answers : gmap string value) (w : World) :
  Scenario.noFault w ->
  surveyStore w !! surveyId = Some (SurveyRecord s) ->
  exists closed n w1 w2 closed' w1' w2' final,
    Surveys.closeSurvey surveyId w = Resolved (Some closed) w1
    /\ Store.addResponse surveyId answers w1 = Resolved n w2
    /\ Store.addResponse surveyId answers w = Resolved n w1'
    /\ Surveys.closeSurvey surveyId w1' = Resolved (Some closed') w2'
    /\ n = S (length (Scenario.recorded w surveyId))
    /\ surveyStore w2 !! surveyId = Some (SurveyRecord final)
    /\ status final = "closed" /\ responseCount final = n
    /\ surveyStore w2' = surveyStore w2
    /\ responseStore w2' = responseStore w2
    /\ trackingStore w2' = trackingStore w2.
Proof.
  intros H Hs.
  pose proof (updateSurvey_run surveyId
    {| Updates.id := None; Updates.title := None; Updates.questions := None;
       Updates.createdBy := None; Updates.settings := None;
       Updates.status := Some "closed";
       Updates.responseCount := None; Updates.createdAt := None |} s w H Hs) as E1.
  set (u := {| Updates.id := None; Updates.title := None; Updates.questions := None;
       Updates.createdBy := None; Updates.settings := None;
       Updates.status := Some "closed";
       Updates.responseCount := None; Updates.createdAt := None |}) in *.
  set (w1 := Runs.afterSurveyWrite surveyId (SurveyRecord (Surveys.spread s u))
               (Store.consumeFault w)) in *.
  assert (F1 : Scenario.noFault w1)
    by by apply noFault_afterSurveyWrite, noFault_consume.
  destruct (addResponse_noFault surveyId answers w1 F1)
    as (w2 & E2 & R2 & S2 & T2 & _ & _ & F2).
  destruct (addResponse_noFault surveyId answers w H)
    as (w1' & E1' & R1' & S1' & T1' & _ & _ & F1').
  rewrite Hs in S1'.
  assert (Hs1 : surveyStore w1 !! surveyId = Some (SurveyRecord (Surveys.spread s u)))
    by (subst w1; simpl; by rewrite lookup_insert_eq).
  rewrite Hs1 in S2.
  assert (Hs1' : surveyStore w1' !! surveyId
                 = Some (SurveyRecord
                           (Store.withResponseCount
                              (length (Scenario.recorded w surveyId ++ [answers])) s)))
    by (rewrite S1'; by rewrite lookup_insert_eq).
  pose proof (updateSurvey_run surveyId u _ w1' F1' Hs1') as E2'.
  change (Scenario.recorded w1 surveyId) with (Scenario.recorded w surveyId) in *.
  eexists _, _, w1, w2, _, w1', _, _.
  split; [exact E1|]. split; [exact E2|]. split; [exact E1'|]. split; [exact E2'|].
  split; [rewrite length_app; simpl; lia|].
  split; [rewrite S2; by rewrite lookup_insert_eq|].
  split; [reflexivity|]. split; [reflexivity|].
  split; [|split].
  - simpl. rewrite S2, S1'. subst w1. simpl. by rewrite !insert_insert_eq.
  - simpl. rewrite R2, R1'. done.
  - simpl. rewrite T2, T1'. done.
Qed.

(** X3 at the sample survey, just created. *)
Lemma closeSurvey_addResponse_commute_witness :
  Scenario.noFault Sample.created
  /\ surveyStore Sample.created !! "a1b2c3d4" = Some (SurveyRecord Sample.survey)
  /\ exists closed n w1 w2 closed' w1' w2' final,
       Surveys.closeSurvey "a1b2c3d4" Sample.created = Resolved (Some closed) w1
       /\ Store.addResponse "a1b2c3d4" (Sample.answers 4 ["A"] "fine") w1 = Resolved n w2
       /\ Store.addResponse "a1b2c3d4" (Sample.answers 4 ["A"] "fine") Sample.created
          = Resolved n w1'
       /\ Surveys.closeSurvey "a1b2c3d4" w1' = Resolved (Some closed') w2'
       /\ n = S (length (Scenario.recorded Sample.created "a1b2c3d4"))
       /\ surveyStore w2 !! "a1b2c3d4" = Some (SurveyRecord final)
       /\ status final = "closed" /\ responseCount final = n
       /\ surveyStore w2' = surveyStore w2
       /\ responseStore w2' = responseStore w2
       /\ trackingStore w2' = trackingStore w2.
Proof.
  assert (H1 : Scenario.noFault Sample.created) by constructor.
  assert (H2 : surveyStore Sample.created !! "a1b2c3d4" = Some (SurveyRecord Sample.survey))
    by (vm_compute; reflexivity).
  exact (conj H1 (conj H2
           (closeSurvey_addResponse_commute "a1b2c3d4" Sample.survey
              (Sample.answers 4 ["A"] "fine") Sample.created H1 H2))).
Defined.

Section UserIndex.
Import Store Scenario Surveys Runs.

Lemma addAllToUserIndex_run userId ids : forall w,
  noFault w ->
  (forall s, surveyStore w !! indexKey userId ≠ Some (SurveyRecord s)) ->
  exists w', addAllToUserIndex userId ids w = Resolved () w'
    /\ noFault w'
    /\ indexed w' userId = indexed w userId ++ ids
    /\ (forall key, key ≠ indexKey userId -> surveyStore w' !! key = surveyStore w !! key)
    /\ responseStore w' = responseStore w
    /\ trackingStore w' = trackingStore w
    /\ length (writes w') = (length (writes w) + length ids)%nat.
Proof.
  induction ids as [|i rest IH]; intros w H Hs.
  - exists w. rewrite app_nil_r. simpl. repeat split; auto with lia.
  - set (w1 := afterSurveyWrite (indexKey userId) (UserIndex (indexed w userId ++ [i]))
                 (consumeFault w)).
    assert (F1 : noFault w1) by by apply noFault_afterSurveyWrite, noFault_consume.
    assert (Hs1 : forall s, surveyStore w1 !! indexKey userId ≠ Some (SurveyRecord s)).
    { intros s. subst w1. simpl. by rewrite lookup_insert_eq. }
    destruct (IH w1 F1 Hs1) as (w' & E & F & I & K & R & T & W).
    exists w'. simpl. unfold mbind, Async_bind.
    rewrite addSurveyToUserIndex_run by done. fold w1. rewrite E.
    split; [done|]. split; [done|].
    rewrite I, R, T, W. subst w1. rewrite indexed_afterSurveyWrite, <- app_assoc.
    simpl. rewrite length_app. simpl.
    repeat split; auto with lia.
    intros key Hkey. rewrite K by done. simpl. by rewrite lookup_insert_ne.
Qed.

End UserIndex.

(** X4: [addSurveyToUserIndex] appends: survey ids added to a creator's index, one
    call after the other, are listed after those that were there, in the
    order of the calls and as often as they were added; every call writes
    the index once, under a key of the survey store that only depends on the
    creator, and no other key and no other store changes.  When the key
    holds a survey record instead of an index, the call rejects with a
    [TypeError] after its read, and nothing is written. *)
Theorem addSurveyToUserIndex_appends (userId : string) (surveyIds : list string)
    (w : World) :
  Scenario.noFault w ->
  ((forall s, surveyStore w !! Surveys.indexKey userId ≠ Some (SurveyRecord s)) ->
   exists w',
     Surveys.addAllToUserIndex userId surveyIds w = Resolved () w'
     /\ Surveys.indexed w' userId = Surveys.indexed w userId ++ surveyIds
     /\ (forall key, key ≠ Surveys.indexKey userId ->
           surveyStore w' !! key = surveyStore w !! key)
     /\ responseStore w' = responseStore w
     /\ trackingStore w' = trackingStore w
     /\ length (writes w') = (length (writes w) + length surveyIds)%nat)
  /\ (forall s surveyId,
        surveyStore w !! Surveys.indexKey userId = Some (SurveyRecord s) ->
        Surveys.addSurveyToUserIndex userId surveyId w
        = Rejected TypeError (Store.consumeFault w)).
Proof.
  intros H. split.
  - intros Hs. destruct (addAllToUserIndex_run userId surveyIds w H Hs)
      as (w' & E & _ & I & K & R & T & W).
    exists w'. repeat split; auto.
  - intros s surveyId Hs. unfold Surveys.addSurveyToUserIndex, mbind, Async_bind.
    rewrite getSurveyJSON_noFault by done. by rewrite Hs.
Qed.

(** X4 at the sample survey, just created: two surveys added for user U1. *)
Lemma addSurveyToUserIndex_appends_witness :
  Scenario.noFault Sample.created
  /\ ((forall s, surveyStore Sample.created !! Surveys.indexKey "U1" ≠ Some (SurveyRecord s)) ->
      exists w',
        Surveys.addAllToUserIndex "U1" ["a1b2c3d4"; "0badc0de"] Sample.created
        = Resolved () w'
        /\ Surveys.indexed w' "U1"
           = Surveys.indexed Sample.created "U1" ++ ["a1b2c3d4"; "0badc0de"]
        /\ (forall key, key ≠ Surveys.indexKey "U1" ->
              surveyStore w' !! key = surveyStore Sample.created !! key)
        /\ responseStore w' = responseStore Sample.created
        /\ trackingStore w' = trackingStore Sample.created
        /\ length (writes w')
           = (length (writes Sample.created) + length ["a1b2c3d4"; "0badc0de"])%nat)
  /\ (forall s surveyId,
        surveyStore Sample.created !! Surveys.indexKey "U1" = Some (SurveyRecord s) ->
        Surveys.addSurveyToUserIndex "U1" surveyId Sample.created
        = Rejected TypeError (Store.consumeFault Sample.created)).
Proof.
  assert (H : Scenario.noFault Sample.created) by constructor.
  exact (conj H (addSurveyToUserIndex_appends "U1" ["a1b2c3d4"; "0badc0de"]
                   Sample.created H)).
Defined.

(** X5: A survey created and then added to its creator's index, as the creation
    form does it: when the id is made of hexadecimal digits, as the start of
    a UUID is, it is not the key of any index, so that the survey stays
    retrievable under its id, the id is the last entry of the index, and the
    indexes of the survey store are otherwise as they were. *)
Theorem createSurvey_then_index (uuid now : string) (draft : Draft.t) (w : World) :
  Scenario.noFault w ->
  Surveys.allHex (Surveys.shortId uuid) = true ->
  (forall s, surveyStore w !! Surveys.indexKey (Draft.createdBy draft)
             ≠ Some (SurveyRecord s)) ->
  exists record w1 w2,
    Surveys.createSurvey uuid now draft w = Resolved record w1
    /\ Surveys.addSurveyToUserIndex (Draft.createdBy draft) (id record) w1 = Resolved () w2
    /\ (forall userId, id record ≠ Surveys.indexKey userId)
    /\ surveyStore w2 !! id record = Some (SurveyRecord record)
    /\ Surveys.indexed w2 (Draft.createdBy draft)
       = Surveys.indexed w (Draft.createdBy draft) ++ [id record]
    /\ (forall userId, userId ≠ Draft.createdBy draft ->
          Surveys.indexed w2 userId = Surveys.indexed w userId).
Proof.
  intros H Hhex Hs.
  assert (Hne : forall userId, Surveys.shortId uuid ≠ Surveys.indexKey userId)
    by (intros; by apply shortId_not_indexKey).
  eexists _, _, _. split; [by apply createSurvey_run|].
  split.
  { apply addSurveyToUserIndex_run; [by apply noFault_afterSurveyWrite|].
    intros s. simpl. rewrite lookup_insert_ne by apply Hne. apply Hs. }
  split; [exact Hne|]. split; [|split].
  - simpl. rewrite lookup_insert_ne by (symmetry; apply Hne).
    by rewrite lookup_insert_eq.
  - rewrite indexed_afterSurveyWrite. f_equal. unfold Surveys.indexed. simpl.
    by rewrite lookup_insert_ne by apply Hne.
  - intros userId Hu. unfold Surveys.indexed. simpl.
    assert (Surveys.indexKey (Draft.createdBy draft) ≠ Surveys.indexKey userId).
    { unfold Surveys.indexKey. intros Heq. apply Hu.
      assert (Hinj : forall a b, "user_" +:+ a = "user_" +:+ b -> a = b)
        by (intros a b Hab; by inversion Hab).
      symmetry. by apply Hinj. }
    rewrite lookup_insert_ne by done. by rewrite lookup_insert_ne by apply Hne.
Qed.

(** X5 at empty stores. *)
Lemma createSurvey_then_index_witness :
  Scenario.noFault Sample.fresh
  /\ Surveys.allHex (Surveys.shortId "a1b2c3d4-0000-4000-8000-000000000000") = true
  /\ (forall s, surveyStore Sample.fresh !! Surveys.indexKey (Draft.createdBy Cases.draft)
                ≠ Some (SurveyRecord s))
  /\ exists record w1 w2,
       Surveys.createSurvey "a1b2c3d4-0000-4000-8000-000000000000"
         "2024-05-01T10:00:00.000Z" Cases.draft Sample.fresh = Resolved record w1
       /\ Surveys.addSurveyToUserIndex (Draft.createdBy Cases.draft) (id record) w1
          = Resolved () w2
       /\ (forall userId, id record ≠ Surveys.indexKey userId)
       /\ surveyStore w2 !! id record = Some (SurveyRecord record)
       /\ Surveys.indexed w2 (Draft.createdBy Cases.draft)
          = Surveys.indexed Sample.fresh (Draft.createdBy Cases.draft) ++ [id record]
       /\ (forall userId, userId ≠ Draft.createdBy Cases.draft ->
             Surveys.indexed w2 userId = Surveys.indexed Sample.fresh userId).
Proof.
  assert (H1 : Scenario.noFault Sample.fresh) by constructor.
  assert (H2 : Surveys.allHex (Surveys.shortId "a1b2c3d4-0000-4000-8000-000000000000") = true)
    by reflexivity.
  assert (H3 : forall s, surveyStore Sample.fresh !! Surveys.indexKey (Draft.createdBy Cases.draft)
                         ≠ Some (SurveyRecord s)) by (intros s; vm_compute; discriminate).
  exact (conj H1 (conj H2 (conj H3
           (createSurvey_then_index "a1b2c3d4-0000-4000-8000-000000000000"
              "2024-05-01T10:00:00.000Z" Cases.draft Sample.fresh H1 H2 H3)))).
Defined.

(** * A creator's surveys *)

Section Listings.
Import Store Scenario Surveys Listing.

Lemma iter_consumeFault n : forall w,
  noFault w ->
  let w' := Nat.iter n consumeFault w in
  noFault w' /\ surveyStore w' = surveyStore w /\ responseStore w' = responseStore w
  /\ trackingStore w' = trackingStore w /\ writes w' = writes w /\ posted w' = posted w.
Proof.
  induction n as [|n IH]; intros w H; simpl; [done|].
  destruct (IH w H) as (F & ? & ? & ? & ? & ?). split; [by apply noFault_consume|]. done.
Qed.

Lemma noFault_no_failure n w :
  noFault w -> omap (fun fault => fault) (take n (faults w)) = [].
Proof.
  unfold noFault. generalize (faults w). intros l. revert n.
  induction l as [|f l IH]; intros n H; destruct n; try done.
  inversion H; subst. simpl. by apply IH.
Qed.

Lemma omap_map_found {A B} (f : A -> option B) (l : list A) :
  omap (fun found => found) (map f l) = omap f l.
Proof.
  induction l as [|a l IH]; [done|]. cbn [map omap list_omap] in *. by rewrite IH.
Qed.

Lemma getAll_noFault ids w :
  noFault w ->
  getAll ids w
  = Resolved (map (fun key => surveyStore w !! key) ids)
      (Nat.iter (length ids) consumeFault w).
Proof. intros H. unfold getAll. by rewrite noFault_no_failure. Qed.

Lemma newer_notOlder x e : newer x e = true -> notOlder x e.
Proof.
  unfold newer, notOlder. destruct (dateOf x), (dateOf e); try done.
  intros H. apply Z.ltb_lt in H. lia.
Qed.

Lemma not_newer_notOlder x e : newer x e = false -> notOlder e x.
Proof.
  unfold newer, notOlder. destruct (dateOf x), (dateOf e); try done.
  intros H. apply Z.ltb_ge in H. lia.
Qed.

Lemma same_time_tied t x e :
  createdAtTime t x = true -> createdAtTime t e = true -> newer x e = false.
Proof.
  unfold createdAtTime, newer. destruct (dateOf x), (dateOf e); try done.
  intros H1 H2. apply Z.eqb_eq in H1, H2. subst. apply Z.ltb_irrefl.
Qed.

Lemma sortNewestFirst_times surveys :
  forallb isTime surveys = true ->
  sortNewestFirst surveys = Normal (Js.Array_sort newer surveys).
Proof.
  intros H. unfold sortNewestFirst.
  destruct surveys as [|a [|b rest]]; [done|done|].
  rewrite H.
  assert (Hu : existsb isUnspecified (a :: b :: rest) = false).
  { clear -H. induction (a :: b :: rest) as [|x l IH]; [done|].
    simpl in *. apply andb_true_iff in H as [Hx Hl]. rewrite IH by done.
    unfold isTime, isUnspecified in *. by destruct (dateOf x). }
  by rewrite Hu.
Qed.

End Listings.

(** X6: [getUserSurveys] lists a creator's surveys newest first.  When every
    survey found under an id of the creator's index has a creation time as
    [toISOString] writes it, the call resolves to the surveys found, those
    that are not found being dropped and a creator without an index having
    none; no survey comes before a newer one, surveys created in the same
    millisecond keep the order of the index, and nothing is written.  An
    index that lists an id under which nothing is stored, a survey of May
    and two surveys of one millisecond of June gives the two surveys of
    June, in the order of the index, and then the survey of May. *)
Theorem getUserSurveys_newest_first (userId : string) (w : World) :
  Scenario.noFault w ->
  (forall s, surveyStore w !! Surveys.indexKey userId ≠ Some (SurveyRecord s)) ->
  (forall key e, key ∈ Surveys.indexed w userId -> surveyStore w !! key = Some e ->
     Listing.isTime e = true) ->
  let found := omap (fun key => surveyStore w !! key) (Surveys.indexed w userId) in
  (exists surveys w',
     Listing.getUserSurveys userId w = Resolved surveys w'
     /\ surveys ≡ₚ found
     /\ Sorted Listing.notOlder surveys
     /\ (forall t, List.filter (Listing.createdAtTime t) surveys
                   = List.filter (Listing.createdAtTime t) found)
     /\ surveyStore w' = surveyStore w
     /\ responseStore w' = responseStore w
     /\ trackingStore w' = trackingStore w
     /\ writes w' = writes w)
  /\ exists w',
       Listing.getUserSurveys "U1" Cases.listed
       = Resolved [ SurveyRecord (Cases.later "c0ffee00");
                    SurveyRecord (Cases.later "deadbeef");
                    SurveyRecord Sample.survey ] w'.
Proof.
  intros H Hs Ht found. split; [|eexists; vm_compute; reflexivity].
  assert (Hrun : forall ids,
            ids = Surveys.indexed w userId ->
            (surveys ← Listing.getAll ids;
             await (Listing.sortNewestFirst (omap (fun found => found) surveys)))
              (Store.consumeFault w)
            = Resolved (Js.Array_sort Listing.newer found)
                (Nat.iter (length ids) Store.consumeFault (Store.consumeFault w))).
  { intros ids ->. unfold mbind, Async_bind.
    rewrite getAll_noFault by by apply noFault_consume.
    change (surveyStore (Store.consumeFault w)) with (surveyStore w).
    assert (Hf : omap (fun x => x) (map (fun key => surveyStore w !! key)
                                      (Surveys.indexed w userId)) = found).
    { apply omap_map_found. }
    rewrite Hf. rewrite sortNewestFirst_times; [done|].
    apply forallb_forall. intros e He. apply list_elem_of_In in He.
    subst found. apply list_elem_of_omap in He as (key & Hk & He). by eapply Ht. }
  assert (Hw : forall n,
            let w' := Nat.iter n Store.consumeFault (Store.consumeFault w) in
            surveyStore w' = surveyStore w /\ responseStore w' = responseStore w
            /\ trackingStore w' = trackingStore w /\ writes w' = writes w).
  { intros n. destruct (iter_consumeFault n (Store.consumeFault w)) as (_ & ? & ? & ? & ? & _);
      [by apply noFault_consume|]. done. }
  exists (Js.Array_sort Listing.newer found),
    (Nat.iter (length (Surveys.indexed w userId)) Store.consumeFault (Store.consumeFault w)).
  split.
  - unfold Listing.getUserSurveys. unfold mbind at 1, Async_bind at 1.
    rewrite getSurveyJSON_noFault by done.
    specialize (Hrun _ eq_refl). unfold Surveys.indexed in Hrun |- *.
    destruct (surveyStore w !! Surveys.indexKey userId) as [[s|ids]|] eqn:E.
    + by destruct (Hs s).
    + exact Hrun.
    + exact Hrun.
  - split; [apply Array_sort_Permutation|].
    split; [apply Array_sort_Sorted; [apply newer_notOlder | apply not_newer_notOlder]|].
    split; [intros t; apply Array_sort_stable; apply same_time_tied|].
    apply Hw.
Qed.

(** X6 at an index of four ids: one that names nothing, the sample survey, and two surveys created later, in the same millisecond. *)
Lemma getUserSurveys_newest_first_witness :
  (Scenario.noFault Cases.listed)
  /\ ((forall s, surveyStore Cases.listed !! Surveys.indexKey "U1" ≠ Some (SurveyRecord s)))
  /\ ((forall key e, key ∈ Surveys.indexed Cases.listed "U1" -> surveyStore Cases.listed !! key = Some e ->
       Listing.isTime e = true))
  /\ (let found := omap (fun key => surveyStore Cases.listed !! key) (Surveys.indexed Cases.listed "U1") in
    (exists surveys w',
       Listing.getUserSurveys "U1" Cases.listed = Resolved surveys w'
       /\ surveys ≡ₚ found
       /\ Sorted Listing.notOlder surveys
       /\ (forall t, List.filter (Listing.createdAtTime t) surveys
                     = List.filter (Listing.createdAtTime t) found)
       /\ surveyStore w' = surveyStore Cases.listed
       /\ responseStore w' = responseStore Cases.listed
       /\ trackingStore w' = trackingStore Cases.listed
       /\ writes w' = writes Cases.listed)
    /\ exists w',
         Listing.getUserSurveys "U1" Cases.listed
         = Resolved [ SurveyRecord (Cases.later "c0ffee00");
                      SurveyRecord (Cases.later "deadbeef");
                      SurveyRecord Sample.survey ] w').
Proof.
  assert (H1 : Scenario.noFault Cases.listed).
  { constructor. }
  assert (H2 : (forall s, surveyStore Cases.listed !! Surveys.indexKey "U1" ≠ Some (SurveyRecord s))).
  { intros sv; vm_compute; discriminate. }
  assert (H3 : (forall key e, key ∈ Surveys.indexed Cases.listed "U1" -> surveyStore Cases.listed !! key = Some e ->
         Listing.isTime e = true)).
  { intros key e Hk He; vm_compute in Hk; repeat (apply elem_of_cons in Hk as [->|Hk]); [..|by apply elem_of_nil in Hk]; vm_compute in He; simplify_eq; reflexivity. }
  exact (conj H1 (conj H2 (conj H3 (getUserSurveys_newest_first "U1" Cases.listed H1 H2 H3)))).
Defined.






(** * The question parser *)

Section Trimming.
Import JsString.
Local Arguments String.append !_ _ / : simpl nomatch.
Local Arguments Ascii.eqb : simpl never.

Lemma append_assoc (a b c : string) : (a +:+ b) +:+ c = a +:+ (b +:+ c).
Proof. induction a as [|x a IH]; simpl; [done|]. by rewrite IH. Qed.

Lemma append_empty_r (a : string) : a +:+ EmptyString = a.
Proof. induction a as [|x a IH]; simpl; [done|]. by rewrite IH. Qed.

Lemma length_append (a b : string) :
  String.length (a +:+ b) = (String.length a + String.length b)%nat.
Proof. induction a as [|x a IH]; simpl; [done|]. by rewrite IH. Qed.

Lemma list_of_append (a b : string) :
  String.list_ascii_of_string (a +:+ b)
  = String.list_ascii_of_string a ++ String.list_ascii_of_string b.
Proof. induction a as [|x a IH]; simpl; [done|]. by rewrite IH. Qed.

Lemma string_of_app (l k : list ascii) :
  String.string_of_list_ascii (l ++ k)
  = String.string_of_list_ascii l +:+ String.string_of_list_ascii k.
Proof. induction l as [|x l IH]; simpl; [done|]. by rewrite IH. Qed.

Lemma length_string_of (l : list ascii) :
  String.length (String.string_of_list_ascii l) = length l.
Proof. induction l as [|x l IH]; simpl; [done|]. by rewrite IH. Qed.

Lemma length_list_of (s : string) :
  length (String.list_ascii_of_string s) = String.length s.
Proof. induction s as [|x s IH]; simpl; [done|]. by rewrite IH. Qed.

Lemma reverse_append (a b : string) : reverse (a +:+ b) = reverse b +:+ reverse a.
Proof. unfold reverse. by rewrite list_of_append, rev_app_distr, string_of_app. Qed.

Lemma reverse_involutive (s : string) : reverse (reverse s) = s.
Proof.
  unfold reverse. rewrite String.list_ascii_of_string_of_list_ascii, rev_involutive.
  apply String.string_of_list_ascii_of_string.
Qed.

Lemma length_reverse (s : string) : String.length (reverse s) = String.length s.
Proof. unfold reverse. by rewrite length_string_of, length_rev, length_list_of. Qed.

Lemma stripPrefix_split p s r : stripPrefix p s = Some r -> s = p +:+ r.
Proof.
  revert s. induction p as [|a p IH]; intros s E; simpl in *.
  - by inversion E.
  - destruct s as [|b s]; [done|]. destruct (Ascii.eqb_spec a b); [|done].
    subst. f_equal. by apply IH.
Qed.

Lemma stripPrefix_more p s r x :
  stripPrefix p s = Some r -> stripPrefix p (s +:+ x) = Some (r +:+ x).
Proof.
  revert s. induction p as [|a p IH]; intros s E; simpl in *.
  - by inversion E.
  - destruct s as [|b s]; [done|]. simpl. destruct (Ascii.eqb a b); [|done]. by apply IH.
Qed.

Lemma stripAny_split ps s r : stripAny ps s = Some r -> exists p, s = p +:+ r.
Proof.
  induction ps as [|p ps IH]; simpl; [done|].
  destruct (stripPrefix p s) as [r'|] eqn:E; [|done].
  intros [= ->]. exists p. by apply stripPrefix_split.
Qed.

Lemma stripAny_more ps s r x : stripAny ps s = Some r -> is_Some (stripAny ps (s +:+ x)).
Proof.
  induction ps as [|p ps IH]; simpl; [done|].
  destruct (stripPrefix p s) as [r'|] eqn:E.
  - intros _. by rewrite (stripPrefix_more _ _ _ _ E).
  - intros H. destruct (stripPrefix p (s +:+ x)); [done|]. by apply IH.
Qed.

Lemma stripWhile_suffix ps fuel s : exists pre, s = pre +:+ stripWhile ps fuel s.
Proof.
  revert s. induction fuel as [|fuel IH]; intros s; simpl.
  - by exists EmptyString.
  - destruct (stripAny ps s) as [r|] eqn:E; [|by exists EmptyString].
    destruct (IH r) as [pre Hpre]. destruct (stripAny_split _ _ _ E) as [p ->].
    exists (p +:+ pre). rewrite Hpre at 1. by rewrite append_assoc.
Qed.

Lemma stripAny_empty ps :
  Forall (fun p => p ≠ EmptyString) ps -> stripAny ps EmptyString = None.
Proof.
  induction 1 as [|p ps Hp _ IH]; simpl; [done|]. by destruct p.
Qed.

Lemma stripWhile_done ps fuel s :
  Forall (fun p => p ≠ EmptyString) ps ->
  (String.length s <= fuel)%nat -> stripAny ps (stripWhile ps fuel s) = None.
Proof.
  intros Hps. revert s. induction fuel as [|fuel IH]; intros s Hlen; simpl.
  - destruct s; [|simpl in Hlen; lia]. by apply stripAny_empty.
  - destruct (stripAny ps s) as [r|] eqn:E; [|done].
    apply IH. pose proof (stripAny_shorter _ _ _ Hps E). lia.
Qed.

Lemma stripWhile_fixed ps fuel s : stripAny ps s = None -> stripWhile ps fuel s = s.
Proof. intros E. destruct fuel; simpl; [done|]. by rewrite E. Qed.

Lemma reversed_nonempty :
  Forall (fun p => p ≠ EmptyString) (map reverse whiteSpace).
Proof. vm_compute. repeat constructor; discriminate. Qed.

Lemma trimStart_done s : stripAny whiteSpace (trimStart s) = None.
Proof. apply stripWhile_done; [apply whiteSpace_nonempty | done]. Qed.

Lemma trimEnd_done s : stripAny (map reverse whiteSpace) (reverse (trimEnd s)) = None.
Proof.
  unfold trimEnd. rewrite reverse_involutive.
  apply stripWhile_done; [apply reversed_nonempty | by rewrite length_reverse].
Qed.

Lemma trimEnd_fixed s :
  stripAny (map reverse whiteSpace) (reverse s) = None -> trimEnd s = s.
Proof.
  intros E. unfold trimEnd. rewrite stripWhile_fixed by done. apply reverse_involutive.
Qed.

Lemma trimEnd_prefix s : exists x, s = trimEnd s +:+ x.
Proof.
  unfold trimEnd.
  destruct (stripWhile_suffix (map reverse whiteSpace) (String.length s) (reverse s))
    as [pre Hpre].
  exists (reverse pre). rewrite <- reverse_append, <- Hpre. by rewrite reverse_involutive.
Qed.

(** What [trim] returns has no white space at either end. *)
Lemma trim_trimmed s : trimStart (trim s) = trim s /\ trimEnd (trim s) = trim s.
Proof.
  unfold trim. split.
  - apply trimStart_None.
    destruct (stripAny whiteSpace (trimEnd (trimStart s))) as [r|] eqn:E; [|done].
    destruct (trimEnd_prefix (trimStart s)) as [x Hx].
    destruct (stripAny_more _ _ _ x E) as [r' Hr'].
    rewrite <- Hx, trimStart_done in Hr'. done.
  - apply trimEnd_fixed, trimEnd_done.
Qed.

Lemma trim_idempotent s : trim (trim s) = trim s.
Proof.
  destruct (trim_trimmed s) as [H1 H2]. unfold trim at 1. by rewrite H1, H2.
Qed.

End Trimming.

Section QuestionLines.
Import JsString Js Parser Spec Lines.
Local Arguments String.append !_ _ / : simpl nomatch.
Local Arguments Ascii.eqb : simpl never.

Lemma nonBlankLines_trimmed raw :
  Forall (fun l => l ≠ EmptyString /\ trim l = l) (nonBlankLines raw).
Proof.
  unfold nonBlankLines. apply Forall_forall. intros l Hl.
  apply list_elem_of_In, filter_In in Hl as [Hin Hb]. split.
  - intros ->. done.
  - apply in_map_iff in Hin as (l0 & <- & _). apply trim_idempotent.
Qed.

Lemma split_none c a : includes (String c EmptyString) a = false -> split c a = [a].
Proof.
  induction a as [|x a IH]; simpl; [done|].
  rewrite (Ascii.eqb_sym x c). destruct (Ascii.eqb c x); [done|].
  intros H. by rewrite IH.
Qed.

Lemma split_first c a b :
  includes (String c EmptyString) a = false ->
  split c (a +:+ String c b) = a :: split c b.
Proof.
  induction a as [|x a IH]; simpl.
  - intros _. by rewrite Ascii.eqb_refl.
  - rewrite (Ascii.eqb_sym x c). destruct (Ascii.eqb c x); [done|].
    intros H. by rewrite IH.
Qed.

Lemma split_join_lines c l ls :
  Forall (fun l => includes (String c EmptyString) l = false) (l :: ls) ->
  split c (join (String c EmptyString) (l :: ls)) = l :: ls.
Proof.
  revert l. induction ls as [|l' ls IH]; intros l H.
  - apply split_none. by inversion H.
  - inversion H as [|? ? Hl Hrest]; subst.
    change (join (String c EmptyString) (l :: l' :: ls))
      with (l +:+ String c (join (String c EmptyString) (l' :: ls))).
    rewrite split_first by done. f_equal. by apply IH.
Qed.

Lemma nonBlankLines_join ls :
  Forall plainLine ls -> nonBlankLines (join LF ls) = ls.
Proof.
  intros H. unfold nonBlankLines. destruct ls as [|l ls]; [done|].
  unfold LF. rewrite split_join_lines.
  2:{ eapply Forall_impl; [exact H|]. by intros x (_ & _ & _ & ?). }
  induction H as [|x xs (Hne & Hs & He & _) _ IH]; [done|].
  assert (Ht : trim x = x) by (unfold trim; by rewrite Hs, He).
  cbn [map List.filter]. rewrite Ht.
  destruct x as [|a x]; [done|].
  change (ToBoolean (VString (String a x))) with true. cbv iota. by rewrite IH.
Qed.


Lemma parseQuestion_kinds optionsMap i line :
  line ≠ EmptyString -> trim line = line ->
  (forall n opts, optionsMap !! n = Some opts -> opts ≠ []) ->
  let q := parseQuestion optionsMap i line in
  trimStart (label q) = label q /\ trimEnd (label q) = label q
  /\ ((type q = "scale" /\ options q = None /\ label q = line)
      \/ (type q = "multi-select" /\ exists opts, options q = Some opts /\ opts ≠ [])
      \/ (type q = "free-text" /\ options q = None)).
Proof.
  intros Hne Ht Hopts. unfold parseQuestion.
  destruct (test "(multi-select)" line); [|destruct (test "(free-text)" line)]; simpl.
  - split; [apply trim_trimmed|]. split; [apply trim_trimmed|]. right. left.
    split; [done|]. eexists; split; [done|].
    destruct (optionsMap !! _) as [opts|] eqn:E; simpl; [by eapply Hopts|done].
  - split; [apply trim_trimmed|]. split; [apply trim_trimmed|]. right. right. done.
  - split; [apply trim_trimmed|]. split; [apply trim_trimmed|]. left. done.
Qed.

Lemma parseOptions_nonempty rawOptions n opts :
  parseOptions rawOptions !! n = Some opts -> opts ≠ [].
Proof.
  rewrite parseOptions_lookup. unfold optionsFor. intros H.
  apply last_Some_elem_of in H. apply list_elem_of_omap in H as (line & _ & H).
  unfold lineOptions in H. destruct (matchOptionLine line) as [[digits rest]|]; [|done].
  case_decide; [|done]. inversion H; subst.
  pose proof (split_nonempty "," rest). by destruct (split "," rest).
Qed.

End QuestionLines.

Section Markers.
Import JsString Js Parser Spec Lines.
Local Arguments String.append !_ _ / : simpl nomatch.
Local Arguments Ascii.eqb : simpl never.

Lemma stripPrefix_before_space p a b r :
  a ≠ EmptyString ->
  p = " " \/ includes " " p = false ->
  stripPrefix p (a +:+ String " " b) = Some r -> is_Some (stripPrefix p a).
Proof.
  intros Ha [->|Hp].
  - destruct a as [|y a]; [done|]. simpl. destruct (Ascii.eqb " " y); [|done].
    intros _. by eexists.
  - clear Ha. revert a Hp. induction p as [|x p IH]; intros a Hp; simpl; [done|].
    destruct a as [|y a]; simpl.
    + destruct (Ascii.eqb x " ") eqn:E; [|done].
      apply Ascii.eqb_eq in E. subst. done.
    + destruct (Ascii.eqb x y); [|done]. apply IH.
      simpl in Hp. by destruct (Ascii.eqb " " x).
Qed.

Lemma whiteSpace_space : Forall (fun p => p = " " \/ includes " " p = false) whiteSpace.
Proof.
  apply Forall_forall. intros p Hp.
  assert (H : forallb (fun p => String.eqb p " " || negb (includes " " p)) whiteSpace = true)
    by (vm_compute; reflexivity).
  rewrite forallb_forall in H. specialize (H p (proj1 (list_elem_of_In _ _) Hp)).
  apply orb_true_iff in H as [H|H].
  - left. by apply String.eqb_eq.
  - right. by apply negb_true_iff.
Qed.

Lemma stripAny_append_space ps a b :
  Forall (fun p => p = " " \/ includes " " p = false) ps ->
  a ≠ EmptyString ->
  stripAny ps (a +:+ String " " b)
  = option_map (fun r => r +:+ String " " b) (stripAny ps a).
Proof.
  intros H Ha. induction H as [|p ps Hp _ IH]; simpl; [done|].
  destruct (stripPrefix p a) as [r|] eqn:E.
  - by rewrite (stripPrefix_more _ _ _ _ E).
  - destruct (stripPrefix p (a +:+ String " " b)) eqn:E'; [|done].
    apply stripPrefix_before_space in E'; [|done..]. rewrite E in E'. by destruct E'.
Qed.

Lemma stripWhile_append_space b : forall fuel fuel' a,
  (String.length a <= fuel)%nat ->
  (String.length (a +:+ String " " b) <= fuel')%nat ->
  stripWhile whiteSpace fuel a ≠ EmptyString ->
  stripWhile whiteSpace fuel' (a +:+ String " " b)
  = stripWhile whiteSpace fuel a +:+ String " " b.
Proof.
  induction fuel as [|fuel IH]; intros fuel' a Ha Hab Hne.
  - destruct a; [done|simpl in Ha; lia].
  - cbn [stripWhile] in *. destruct a as [|c a]; [by vm_compute in Hne|].
    destruct fuel' as [|fuel']; [simpl in Hab; lia|]. cbn [stripWhile].
    rewrite stripAny_append_space by (done || apply whiteSpace_space).
    destruct (stripAny whiteSpace (String c a)) as [r|] eqn:E; cbn [option_map]; [|done].
    pose proof (stripAny_shorter _ _ _ whiteSpace_nonempty E) as Hlt.
    apply IH; [lia| |done].
    rewrite length_append in *. simpl in *. lia.
Qed.

Lemma trimStart_append_space a b :
  trimStart a ≠ EmptyString ->
  trimStart (a +:+ String " " b) = trimStart a +:+ String " " b.
Proof. intros H. unfold trimStart. by apply stripWhile_append_space. Qed.

Lemma stripPrefixIgnoreCase_before_space m a b r :
  noSpace m = true ->
  stripPrefixIgnoreCase m (a +:+ String " " b) = Some r ->
  is_Some (stripPrefixIgnoreCase m a).
Proof.
  revert a. induction m as [|x m IH]; intros a Hm; simpl; [done|].
  unfold noSpace in Hm. simpl in Hm. apply andb_true_iff in Hm as [Hx Hm].
  destruct a as [|y a]; simpl.
  - change (foldCase " ") with " "%char. apply negb_true_iff in Hx. by rewrite Hx.
  - destruct (Ascii.eqb (foldCase x) (foldCase y)); [|done]. by apply IH.
Qed.

Lemma stripPrefixIgnoreCase_self m : stripPrefixIgnoreCase m m = Some EmptyString.
Proof. induction m as [|x m IH]; simpl; [done|]. by rewrite Ascii.eqb_refl. Qed.

Lemma test_suffix m pre s : test m s = true -> test m (pre +:+ s) = true.
Proof.
  intros H. induction pre as [|c pre IH]; simpl; [done|].
  by destruct (stripPrefixIgnoreCase m (String c (pre +:+ s))).
Qed.

Lemma test_here m s : is_Some (stripPrefixIgnoreCase m s) -> test m s = true.
Proof. intros [r H]. destruct s; simpl; by rewrite H. Qed.

Lemma test_tail m c r : test m (String c r) = false -> test m r = false.
Proof. simpl. by destruct (stripPrefixIgnoreCase m (String c r)). Qed.

Lemma test_append_space m l x :
  noSpace m = true -> test m l = false -> test m (String " " x) = false ->
  test m (l +:+ String " " x) = false.
Proof.
  intros Hm Hl Hx. induction l as [|c l IH]; [done|].
  change (String c l +:+ String " " x) with (String c (l +:+ String " " x)).
  cbn [test].
  destruct (stripPrefixIgnoreCase m (String c (l +:+ String " " x))) eqn:E.
  - apply (stripPrefixIgnoreCase_before_space m (String c l)) in E; [|done].
    apply test_here in E. congruence.
  - apply IH. by eapply test_tail.
Qed.

Lemma stripAny_elem ps s r : stripAny ps s = Some r -> exists p, p ∈ ps /\ s = p +:+ r.
Proof.
  induction ps as [|p ps IH]; simpl; [done|].
  destruct (stripPrefix p s) as [r'|] eqn:E.
  - intros [= ->]. exists p. split; [left|]. by apply stripPrefix_split.
  - intros H. destruct (IH H) as (p' & ? & ?). exists p'. split; [by right|done].
Qed.

Lemma stripAny_Some ps p s :
  p ∈ ps -> is_Some (stripPrefix p s) -> is_Some (stripAny ps s).
Proof.
  induction 1 as [p ps|p q ps _ IH]; simpl; intros H.
  - destruct H as [r ->]. done.
  - destruct (stripPrefix q s); [done|]. by apply IH.
Qed.

Lemma stripPrefix_here p s : stripPrefix p (p +:+ s) = Some s.
Proof. induction p as [|a p IH]; simpl; [done|]. by rewrite Ascii.eqb_refl. Qed.

Lemma stripWhile_blank fuel : forall s,
  stripWhile whiteSpace fuel s = EmptyString -> s ≠ EmptyString ->
  exists x p, p ∈ whiteSpace /\ s = x +:+ p.
Proof.
  induction fuel as [|fuel IH]; intros s H Hs; cbn [stripWhile] in H; [done|].
  destruct (stripAny whiteSpace s) as [r|] eqn:E; [|done].
  destruct (stripAny_elem _ _ _ E) as (p & Hp & ->).
  destruct r as [|c r].
  - exists EmptyString, p. split; [done|]. by rewrite append_empty_r.
  - destruct (IH _ H) as (x & p' & Hp' & Hr); [done|].
    exists (p +:+ x), p'. split; [done|]. by rewrite Hr, append_assoc.
Qed.

(** A string without white space at its end has no suffix made of white
    space alone. *)
Lemma no_blank_suffix l pre s :
  trimEnd l = l -> l = pre +:+ s -> s ≠ EmptyString -> trimStart s ≠ EmptyString.
Proof.
  intros He Hl Hs Hts. destruct (stripWhile_blank _ _ Hts Hs) as (x & p & Hp & ->).
  pose proof (trimEnd_done l) as Hd. rewrite He, Hl in Hd.
  rewrite <- append_assoc, reverse_append in Hd.
  assert (is_Some (stripAny (map reverse whiteSpace) (reverse p +:+ reverse (pre +:+ x)))) as [? H].
  { apply (stripAny_Some _ (reverse p)).
    - by apply list_elem_of_fmap_2.
    - rewrite stripPrefix_here. by eexists. }
  congruence.
Qed.

Lemma removeFirst_unfold m line :
  removeFirst m line
  = match stripPrefixIgnoreCase m (trimStart line) with
    | Some rest => rest
    | None => match line with
              | String c r => String c (removeFirst m r)
              | EmptyString => EmptyString
              end
    end.
Proof. by destruct line. Qed.

(** The marker written after a label and a space is the leftmost match,
    and removing it leaves the label. *)
Lemma removeFirst_append m : forall l,
  noSpace m = true -> stripAny whiteSpace m = None ->
  test m l = false -> trimEnd l = l ->
  removeFirst m (l +:+ String " " m) = l.
Proof.
  intros l Hm Hw Hl He.
  assert (Hsuf : forall pre s, l = pre +:+ s -> s ≠ EmptyString -> trimStart s ≠ EmptyString).
  { intros pre s. by apply no_blank_suffix. }
  clear He. induction l as [|c l IH].
  - rewrite removeFirst_unfold. change (EmptyString +:+ String " " m) with (String " " m).
    rewrite trimStart_space, trimStart_None by done.
    by rewrite stripPrefixIgnoreCase_self.
  - rewrite removeFirst_unfold.
    assert (Hne : trimStart (String c l) ≠ EmptyString) by (by apply (Hsuf EmptyString)).
    rewrite trimStart_append_space by done.
    destruct (stripPrefixIgnoreCase m (trimStart (String c l) +:+ String " " m)) eqn:E.
    + apply stripPrefixIgnoreCase_before_space in E; [|done]. apply test_here in E.
      destruct (stripWhile_suffix whiteSpace (String.length (String c l)) (String c l))
        as [pre Hpre].
      fold (trimStart (String c l)) in Hpre.
      apply (test_suffix m pre) in E. rewrite <- Hpre in E. congruence.
    + change (String c l +:+ String " " m) with (String c (l +:+ String " " m)).
      cbv iota. f_equal. apply IH.
      * by eapply test_tail.
      * intros pre s ->. by apply (Hsuf (String c pre)).
Qed.

Lemma includes_char_append c a b :
  includes (String c EmptyString) (a +:+ b)
  = includes (String c EmptyString) a || includes (String c EmptyString) b.
Proof.
  induction a as [|x a IH]; [done|].
  change (String x a +:+ b) with (String x (a +:+ b)).
  cbn [includes stripPrefix]. destruct (Ascii.eqb c x); [done|]. exact IH.
Qed.

(** A label followed by a marker is a line as the form asks for it. *)
Lemma plainLine_marker l m :
  plainLine l -> m = "(multi-select)" \/ m = "(free-text)" ->
  plainLine (l +:+ String " " m).
Proof.
  intros (Hne & Hs & He & Hlf) Hm. repeat split.
  - by destruct l.
  - apply trimStart_None.
    rewrite stripAny_append_space by (done || apply whiteSpace_space).
    by rewrite (trimStart_fixed l).
  - apply trimEnd_fixed.
    change (String " " m) with (" " +:+ m). rewrite <- append_assoc, reverse_append.
    destruct Hm as [-> | ->]; reflexivity.
  - unfold LF in *. rewrite includes_char_append, Hlf.
    by destruct Hm as [-> | ->].
Qed.

Lemma parseQuestion_written optionsMap i q :
  plainLabel (label q) -> type q ∈ ["scale"; "multi-select"; "free-text"] ->
  parseQuestion optionsMap i (written q)
  = {| label := label q; type := type q;
       options := if String.eqb (type q) "multi-select"
                  then Some (default defaultOptions (optionsMap !! Z.of_nat (i + 1)))
                  else None |}.
Proof.
  intros ((Hne & Hs & He & Hlf) & Hm & Hf) Ht.
  assert (Htrim : trim (label q) = label q) by (unfold trim; by rewrite Hs, He).
  unfold parseQuestion, written, marker.
  apply elem_of_cons in Ht as [-> | Ht]; [|apply elem_of_cons in Ht as [-> | Ht]].
  - cbn [String.eqb Ascii.eqb Bool.eqb]. cbv iota. rewrite append_empty_r, Hm, Hf.
    by rewrite Htrim.
  - change (String.eqb "multi-select" "multi-select") with true. cbv iota.
    rewrite (test_suffix "(multi-select)" (label q) " (multi-select)") by reflexivity.
    rewrite removeFirst_append by done. by rewrite Htrim.
  - apply list_elem_of_singleton in Ht as ->.
    change (String.eqb "free-text" "multi-select") with false.
    change (String.eqb "free-text" "free-text") with true. cbv iota.
    rewrite (test_append_space "(multi-select)") by done.
    rewrite (test_suffix "(free-text)" (label q) " (free-text)") by reflexivity.
    rewrite removeFirst_append by done. by rewrite Htrim.
Qed.

Lemma plainLine_written q :
  plainLabel (label q) -> type q ∈ ["scale"; "multi-select"; "free-text"] ->
  plainLine (written q).
Proof.
  intros (Hp & _) Ht. unfold written, marker.
  apply elem_of_cons in Ht as [-> | Ht]; [|apply elem_of_cons in Ht as [-> | Ht]].
  - change (String.eqb "scale" "multi-select") with false.
    change (String.eqb "scale" "free-text") with false. cbv iota.
    by rewrite append_empty_r.
  - apply plainLine_marker; [done|by left].
  - apply list_elem_of_singleton in Ht as ->. apply plainLine_marker; [done|by right].
Qed.
End Markers.


(** X7: [parseQuestions] gives one question for each line that is not blank, in
    the order of the lines.  Every question is of one of the three types;
    its label has no white space at either end; a scale question has a
    label that is not empty and no options, a free-text question has no
    options, and a multi-select question has a list of at least one
    option. *)
Theorem parseQuestions_well_formed (rawQuestions rawOptions : string) :
  let qs := Parser.parseQuestions rawQuestions rawOptions in
  length qs
  = length (List.filter (fun l => negb (String.eqb (JsString.trim l) EmptyString))
              (JsString.split "010" rawQuestions))
  /\ Forall (fun q =>
       JsString.trimStart (label q) = label q
       /\ JsString.trimEnd (label q) = label q
       /\ ((type q = "scale" /\ options q = None /\ label q ≠ EmptyString)
           \/ (type q = "multi-select" /\ exists opts, options q = Some opts /\ opts ≠ [])
           \/ (type q = "free-text" /\ options q = None))) qs.
Proof.
  intros qs. subst qs. unfold Parser.parseQuestions. split.
  - rewrite length_imap. unfold Parser.nonBlankLines.
    induction (JsString.split "010" rawQuestions) as [|l ls IH]; [done|].
    cbn [map List.filter].
    change (Js.ToBoolean (VString (JsString.trim l)))
      with (negb (String.eqb (JsString.trim l) EmptyString)).
    destruct (negb (String.eqb (JsString.trim l) EmptyString)); cbn [length]; by rewrite IH.
  - apply Forall_forall. intros q Hq.
    apply elem_of_lookup_imap in Hq as (i & line & -> & Hline).
    pose proof (nonBlankLines_trimmed rawQuestions) as Ht.
    rewrite Forall_forall in Ht. destruct (Ht line) as [Hne Htrim].
    { by eapply list_elem_of_lookup_2. }
    destruct (parseQuestion_kinds (Parser.parseOptions rawOptions) i line Hne Htrim)
      as (H1 & H2 & H3).
    { intros n opts. apply parseOptions_nonempty. }
    split; [done|]. split; [done|].
    destruct H3 as [(? & ? & Hl)|[?|?]]; [left|right; by left|right; by right].
    repeat split; try done. by rewrite Hl.
Qed.

(** X8: Questions written in the syntax of the form come back as they are: when
    every label is a plain line that reads as neither marker and every type
    is one of the three, the lines [label], [label (multi-select)] and
    [label (free-text)], one per question, parse to the questions with
    these labels and types, in this order; a multi-select question gets the
    options that the options field gives for its number, or else the three
    default options, and no other question gets options. *)
Theorem parseQuestions_written (questions : list Question) (rawOptions : string) :
  Forall (fun q => Lines.plainLabel (label q)
                   /\ type q ∈ ["scale"; "multi-select"; "free-text"]) questions ->
  Parser.parseQuestions (JsString.join JsString.LF (map Lines.written questions)) rawOptions
  = imap (fun i q =>
            {| label := label q; type := type q;
               options := if String.eqb (type q) "multi-select"
                          then Some (default Parser.defaultOptions
                                       (Parser.parseOptions rawOptions !! Z.of_nat (i + 1)))
                          else None |}) questions.
Proof.
  intros H. unfold Parser.parseQuestions. rewrite nonBlankLines_join.
  2:{ apply Forall_map. eapply Forall_impl; [exact H|]. intros q [? ?].
      by apply plainLine_written. }
  rewrite imap_fmap. apply imap_ext. intros i q Hq. simpl.
  rewrite Forall_forall in H. destruct (H q) as [Hl Ht].
  { by eapply list_elem_of_lookup_2. }
  by apply parseQuestion_written.
Qed.

(** X8 at three questions, one of each type. *)
Lemma parseQuestions_written_witness :
  Forall (fun q => Lines.plainLabel (label q)
                   /\ type q ∈ ["scale"; "multi-select"; "free-text"]) Cases.asked
  /\ Parser.parseQuestions (JsString.join JsString.LF (map Lines.written Cases.asked))
       "Q2: Tea, Talks"
     = imap (fun i q =>
               {| label := label q; type := type q;
                  options := if String.eqb (type q) "multi-select"
                             then Some (default Parser.defaultOptions
                                          (Parser.parseOptions "Q2: Tea, Talks"
                                             !! Z.of_nat (i + 1)))
                             else None |}) Cases.asked.
Proof.
  assert (H : Forall (fun q => Lines.plainLabel (label q)
                               /\ type q ∈ ["scale"; "multi-select"; "free-text"])
                Cases.asked).
  { repeat (constructor || split); try discriminate; vm_compute; reflexivity. }
  exact (conj H (parseQuestions_written _ "Q2: Tea, Talks" H)).
Defined.

(** * Request signatures *)

Section Signatures.
Import Sha256 Hmac Verify.

Lemma step_length st kw : length st = 8%nat -> length (step st kw) = 8%nat.
Proof.
  intros H. do 9 (destruct st as [|? st]; try discriminate). reflexivity.
Qed.

Lemma fold_step_length l : forall st,
  length st = 8%nat -> length (fold_left step l st) = 8%nat.
Proof.
  induction l as [|kw l IH]; intros st H; simpl; [done|]. by apply IH, step_length.
Qed.

Lemma compress_length h block : length h = 8%nat -> length (compress h block) = 8%nat.
Proof.
  intros H. unfold compress. rewrite length_map, length_combine, fold_step_length by done.
  rewrite H. done.
Qed.

Lemma fold_compress_length blocks : forall h,
  length h = 8%nat -> length (fold_left compress blocks h) = 8%nat.
Proof.
  induction blocks as [|b blocks IH]; intros h H; simpl; [done|].
  by apply IH, compress_length.
Qed.

Lemma sha256_length msg : length (sha256 msg) = 32%nat.
Proof.
  unfold sha256.
  pose proof (fold_compress_length
    (blocksOf (length (wordsOf (length (pad msg)) (pad msg)))
       (wordsOf (length (pad msg)) (pad msg))) H0 eq_refl) as H.
  cbv zeta.
  destruct (fold_left compress _ H0) as [|a l]; [done|].
  do 8 (destruct l as [|? l]; try discriminate). reflexivity.
Qed.

Lemma hex_length bs : String.length (hex bs) = (2 * length bs)%nat.
Proof.
  unfold hex. rewrite length_string_of.
  induction bs as [|b bs IH]; simpl; [done|]. rewrite IH. lia.
Qed.

(** The signature that the function computes is 67 bytes long. *)
Lemma digestHex_length key msg : String.length (Hmac.digestHex key msg) = 64%nat.
Proof. unfold Hmac.digestHex, hmac. by rewrite hex_length, sha256_length. Qed.

End Signatures.

Section Requests.
Import JsString Sha256 Hmac Verify.

Lemma timingSafeEqual_true a b : timingSafeEqual a b = Normal true <-> a = b.
Proof.
  unfold timingSafeEqual. split.
  - destruct (String.length a =? String.length b)%nat; [|done].
    intros [= H]. by apply String.eqb_eq.
  - intros ->. by rewrite Nat.eqb_refl, String.eqb_refl.
Qed.

Lemma timingSafeEqual_throws a b e :
  timingSafeEqual a b = Throw e <-> e = RangeError /\ String.length a ≠ String.length b.
Proof.
  unfold timingSafeEqual.
  destruct (String.length a =? String.length b)%nat eqn:E.
  - apply Nat.eqb_eq in E. split; [done|]. by intros [_ ?].
  - apply Nat.eqb_neq in E. split; [by intros [= <-]|]. by intros [-> _].
Qed.

End Requests.

(** X9: [verifySlackRequest] returns [true] exactly when the signing secret is
    set, the timestamp header is there and not empty, the timestamp does not
    read as a number of seconds more than five minutes before now (one that
    does not read as a number at all, or lies in the future, passes), and
    the signature header is, byte for byte, [v0=] followed by the HMAC-SHA-256
    under the signing secret of [v0:], the timestamp, a colon and the body,
    in hexadecimal. *)
Theorem verifySlackRequest_accepts (signingSecret : option string) (now : Z)
    (headers : gmap string string) (body : string) :
  Verify.verifySlackRequest signingSecret now headers body = Normal true
  <-> exists timestamp secret,
        headers !! "x-slack-request-timestamp" = Some timestamp
        /\ signingSecret = Some secret
        /\ timestamp ≠ EmptyString /\ secret ≠ EmptyString
        /\ (forall t, Verify.parseInt timestamp = Some t -> now / 1000 - 300 <= t)
        /\ headers !! "x-slack-signature"
           = Some ("v0=" +:+ Hmac.digestHex secret ("v0:" +:+ timestamp +:+ ":" +:+ body)).
Proof.
  unfold Verify.verifySlackRequest. split.
  - destruct (headers !! "x-slack-request-timestamp") as [ts|]; [|done].
    destruct (headers !! "x-slack-signature") as [sig|]; [|done].
    destruct signingSecret as [secret|]; [|done].
    destruct (String.eqb_spec ts EmptyString) as [|Hts]; [done|].
    destruct (String.eqb_spec sig EmptyString) as [|Hsig]; [done|].
    destruct (String.eqb_spec secret EmptyString) as [|Hsec]; [done|].
    cbn [orb]. cbv zeta.
    destruct (Verify.parseInt ts) as [t|] eqn:Et.
    + destruct (t <? now / 1000 - 300) eqn:El; [done|]. apply Z.ltb_ge in El.
      intros H. apply timingSafeEqual_true in H. exists ts, secret.
      repeat split; try done; [intros t' Ht'; congruence | by subst].
    + intros H. apply timingSafeEqual_true in H. exists ts, secret.
      repeat split; try done; [intros t' Ht'; congruence | by subst].
  - intros (ts & secret & -> & -> & Hts & Hsec & Hfresh & ->).
    destruct (String.eqb_spec ts EmptyString) as [|_]; [done|].
    destruct (String.eqb_spec secret EmptyString) as [|_]; [done|].
    cbn [orb]. cbv zeta. rewrite orb_false_r.
    change (String.eqb ("v0=" +:+ Hmac.digestHex secret ("v0:" +:+ ts +:+ ":" +:+ body)) "")
      with false. cbv iota.
    destruct (Verify.parseInt ts) as [t|] eqn:Et.
    + specialize (Hfresh t eq_refl). apply Z.ltb_ge in Hfresh. rewrite Hfresh.
      by apply timingSafeEqual_true.
    + by apply timingSafeEqual_true.
Qed.

(** X10: [verifySlackRequest] does not return [false] on every request that it
    does not accept: it throws, and only a [RangeError], exactly when the
    secret and both headers are there and not empty, the timestamp is not
    older than five minutes, and the signature header is not 67 bytes long,
    the length of every signature that the function computes. *)
Theorem verifySlackRequest_throws (signingSecret : option string) (now : Z)
    (headers : gmap string string) (body : string) (e : exn) :
  Verify.verifySlackRequest signingSecret now headers body = Throw e
  <-> e = RangeError
      /\ exists timestamp slackSignature secret,
           headers !! "x-slack-request-timestamp" = Some timestamp
           /\ headers !! "x-slack-signature" = Some slackSignature
           /\ signingSecret = Some secret
           /\ timestamp ≠ EmptyString /\ slackSignature ≠ EmptyString
           /\ secret ≠ EmptyString
           /\ (forall t, Verify.parseInt timestamp = Some t -> now / 1000 - 300 <= t)
           /\ String.length slackSignature ≠ 67%nat.
Proof.
  unfold Verify.verifySlackRequest. split.
  - destruct (headers !! "x-slack-request-timestamp") as [ts|]; [|done].
    destruct (headers !! "x-slack-signature") as [sig|]; [|done].
    destruct signingSecret as [secret|]; [|done].
    destruct (String.eqb_spec ts EmptyString) as [|Hts]; [done|].
    destruct (String.eqb_spec sig EmptyString) as [|Hsig]; [done|].
    destruct (String.eqb_spec secret EmptyString) as [|Hsec]; [done|].
    cbn [orb]. cbv zeta.
    assert (Hlen : String.length
                     ("v0=" +:+ Hmac.digestHex secret ("v0:" +:+ ts +:+ ":" +:+ body))
                   = 67%nat)
      by (rewrite length_append, digestHex_length; reflexivity).
    destruct (Verify.parseInt ts) as [t|] eqn:Et.
    + destruct (t <? now / 1000 - 300) eqn:El; [done|]. apply Z.ltb_ge in El.
      intros H. apply timingSafeEqual_throws in H as [-> H]. split; [done|].
      exists ts, sig, secret. rewrite Hlen in H.
      repeat split; try done; try congruence.
    + intros H. apply timingSafeEqual_throws in H as [-> H]. split; [done|].
      exists ts, sig, secret. rewrite Hlen in H.
      repeat split; try done; try congruence.
  - intros (-> & ts & sig & secret & -> & -> & -> & Hts & Hsig & Hsec & Hfresh & Hlen).
    destruct (String.eqb_spec ts EmptyString) as [|_]; [done|].
    destruct (String.eqb_spec sig EmptyString) as [|_]; [done|].
    destruct (String.eqb_spec secret EmptyString) as [|_]; [done|].
    cbn [orb]. cbv zeta.
    assert (Hthrow : Verify.timingSafeEqual
                       ("v0=" +:+ Hmac.digestHex secret ("v0:" +:+ ts +:+ ":" +:+ body)) sig
                     = Throw RangeError).
    { apply timingSafeEqual_throws. split; [done|].
      rewrite length_append, digestHex_length. simpl. congruence. }
    destruct (Verify.parseInt ts) as [t|] eqn:Et; [|done].
    specialize (Hfresh t eq_refl). apply Z.ltb_ge in Hfresh. by rewrite Hfresh.
Qed.

(** * Results *)

Section Unanswered.
Import JsString JsNumber Js Blocks Spec.

Lemma scaleValues_unanswered responses key :
  Forall (fun r => unanswered (prop r key) = true) responses ->
  scaleValues responses key = [].
Proof.
  unfold scaleValues. induction 1 as [|r rs Hr _ IH]; [done|].
  cbn [map List.filter]. rewrite IH.
  unfold unanswered in Hr. unfold ToBoolean. by rewrite Hr.
Qed.

Lemma allSelections_unanswered responses key :
  Forall (fun r => ToBoolean (prop r key) = false) responses ->
  allSelections responses key = [].
Proof.
  unfold allSelections. induction 1 as [|r rs Hr _ IH]; [done|].
  cbn [flat_map]. rewrite IH. unfold or. by rewrite Hr.
Qed.

End Unanswered.


(** X11: A question that no response answers.  When no response has a number
    other than zero for a scale question, the mean is 0/0: the block shows no
    bar, the figure [NaN/5], zero responses and five empty buckets.  When no
    response has a selection for a multi-select question, the block is the
    label followed by an empty list. *)
Theorem blocks_without_answers (q : Question) (responses : list (gmap string value))
    (key : string) :
  (Forall (fun r => Spec.unanswered (prop r key) = true) responses ->
   Blocks.scaleBlock q responses key
   = Normal (SectionBlock
               ("*" +:+ label q +:+ "*" +:+ JsString.LF +:+ " *NaN/5* (0 responses)"
                +:+ JsString.LF +:+ "1★: 0 · 2★: 0 · 3★: 0 · 4★: 0 · 5★: 0")))
  /\ (Forall (fun r => Js.ToBoolean (prop r key) = false) responses ->
      Blocks.multiSelectBlock q responses key
      = Normal (SectionBlock ("*" +:+ label q +:+ "*" +:+ JsString.LF))).
Proof.
  split; intros H.
  - unfold Blocks.scaleBlock. rewrite (scaleValues_unanswered _ _ H). reflexivity.
  - unfold Blocks.multiSelectBlock. rewrite (allSelections_unanswered _ _ H). reflexivity.
Qed.

Section Shape.
Import JsString JsNumber Js Blocks Spec Runs.

Lemma questionBlocks_shape survey responses ctx i q bs :
  questionBlocks survey responses ctx (i, q) = Normal bs ->
  if known q then exists text, bs = [SectionBlock text; DividerBlock]
  else bs = [DividerBlock].
Proof.
  unfold questionBlocks, known.
  destruct (String.eqb (type q) "scale").
  { simpl. destruct (scaleBlock q responses (questionKey i)) as [b|e|] eqn:E; try done.
    intros [= <-]. unfold scaleBlock in E.
    destruct (String_repeat "█" _); try done. simpl in E.
    destruct (String_repeat "░" _); try done. simpl in E. inversion E. by eexists. }
  destruct (String.eqb (type q) "multi-select").
  { simpl. destruct (multiSelectBlock q responses (questionKey i)) as [b|e|] eqn:E; try done.
    intros [= <-]. unfold multiSelectBlock in E.
    destruct (countAll _ _); try done. simpl in E.
    destruct (forEach _ _); try done. simpl in E. inversion E. by eexists. }
  destruct (String.eqb (type q) "free-text").
  { simpl. intros [= <-]. unfold freeTextBlock.
    destruct (_ && _); [by eexists|]. destruct (isShare ctx); by eexists. }
  simpl. by intros [= <-].
Qed.

Lemma forEach_Forall2 {A B} (f : A -> completion B) (P : A -> B -> Prop) l : forall bs,
  (forall a b, a ∈ l -> f a = Normal b -> P a b) ->
  forEach f l = Normal bs -> Forall2 P l bs.
Proof.
  induction l as [|a l IH]; intros bs HP; simpl.
  - intros [= <-]. constructor.
  - destruct (f a) as [b|e|] eqn:E; try done. simpl.
    destruct (forEach f l) as [bs'|e|] eqn:E'; try done. simpl.
    intros [= <-]. constructor.
    + apply HP; [left|done].
    + apply IH; [|done]. intros a' b' Hin. apply HP. by right.
Qed.

End Shape.

(** X12: The blocks of a result.  Without responses they are the header, a
    divider and the notice that there are none, whatever the questions and
    the viewer, and nothing is thrown.  With responses, whenever the blocks
    can be built they are the header, a divider, and for every question in
    order one section followed by a divider when the question is of one of
    the three types, and a divider alone otherwise. *)
Theorem buildResultsBlocks_shape (survey : Survey) (ctx : ViewerContext) :
  Blocks.buildResultsBlocks survey [] ctx
  = Normal [Blocks.headerBlock survey []; DividerBlock; SectionBlock "_No responses yet._"]
  /\ forall responses blocks,
       responses ≠ [] ->
       Blocks.buildResultsBlocks survey responses ctx = Normal blocks ->
       exists pushed,
         blocks = Blocks.headerBlock survey responses :: DividerBlock :: concat pushed
         /\ Forall2 (fun q bs =>
                       if Runs.known q then exists text, bs = [SectionBlock text; DividerBlock]
                       else bs = [DividerBlock])
              (questions survey) pushed.
Proof.
  split; [reflexivity|]. intros responses blocks Hne.
  unfold Blocks.buildResultsBlocks.
  destruct responses as [|r rs]; [done|]. cbn [length Nat.eqb].
  destruct (forEach _ _) as [pushed|e|] eqn:E; try done. simpl.
  intros [= <-]. exists pushed. split; [done|].
  apply (forEach_Forall2 _ (fun iq bs =>
           if Runs.known (snd iq) then exists text, bs = [SectionBlock text; DividerBlock]
           else bs = [DividerBlock])) in E.
  - clear -E. revert pushed E.
    generalize (questions survey). intros qs.
    change (imap (fun i q => (i, q)) qs) with (imap (fun i q => ((0 + i)%nat, q)) qs).
    generalize 0%nat.
    induction qs as [|q qs IH]; intros k pushed E.
    + inversion E. constructor.
    + rewrite imap_cons in E. inversion E as [|? ? ? ? Hq Hrest]; subst. constructor.
      * exact Hq.
      * apply (IH (S k)). erewrite imap_ext; [exact Hrest|].
        intros; simpl; f_equal; lia.
  - intros [i q] bs _ Hq. by apply questionBlocks_shape in Hq.
Qed.

(** * The response form *)

From Stdlib Require DecimalNat DecimalFacts.

Section Keys.
Import JsString Js Runs Forms Interactions.

Lemma ofNat_inj n m : ofNat n = ofNat m -> n = m.
Proof.
  unfold ofNat. intros H. apply DecimalNat.Unsigned.to_uint_inj.
  assert (Hn : forall k, Nat.to_uint k ≠ Decimal.Nil).
  { intros k Hk. apply (DecimalFacts.unorm_nonnil (Nat.to_uint k)).
    by rewrite <- DecimalNat.Unsigned.to_of, DecimalNat.Unsigned.of_to. }
  pose proof (NilZero.usu _ (Hn n)) as H1. pose proof (NilZero.usu _ (Hn m)) as H2.
  rewrite H in H1. rewrite H1 in H2. by inversion H2.
Qed.

Lemma questionKey_inj i j : questionKey i = questionKey j -> i = j.
Proof. unfold questionKey. intros H. apply ofNat_inj. by inversion H. Qed.

Lemma known_answerOf q b : is_Some (answerOf q b) <-> known q = true.
Proof.
  unfold answerOf, known.
  destruct (String.eqb (type q) "scale"), (String.eqb (type q) "multi-select"),
    (String.eqb (type q) "free-text"); simpl; split; try done; intros [? [=]].
Qed.

Lemma questionInput_keys i q :
  omap (fun b => match b with
                 | Input block_id _ element _ => Some (block_id, actionOf element)
                 | ModalContent _ => None
                 end) (questionInput i q)
  = if known q then [(questionKey i, answerKey i)] else [].
Proof.
  unfold questionInput, known.
  destruct (String.eqb (type q) "scale"), (String.eqb (type q) "multi-select"),
    (String.eqb (type q) "free-text"); reflexivity.
Qed.

Lemma omap_concat_imap {A B C} (f : B -> option C) (g : nat -> A -> list B) (l : list A) :
  omap f (concat (imap g l)) = concat (imap (fun i a => omap f (g i a)) l).
Proof.
  revert g. induction l as [|a l IH]; intros g; [done|].
  rewrite !imap_cons. simpl. rewrite omap_app. f_equal. apply IH.
Qed.

(** The answers collected from position [k] on. *)
Lemma fold_storeAnswer values qs : forall k answers i,
  fold_left (storeAnswer values) (imap (fun j q => (k + j, q)%nat) qs) answers
    !! questionKey i
  = match (if decide (k <= i)%nat then qs !! (i - k)%nat else None) with
    | Some q =>
        match blockValuesAt values i with
        | Some b => match answerOf q b with
                    | Some v => Some v
                    | None => answers !! questionKey i
                    end
        | None => answers !! questionKey i
        end
    | None => answers !! questionKey i
    end.
Proof.
  induction qs as [|q qs IH]; intros k answers i.
  - simpl. case_decide; by rewrite ?lookup_nil.
  - rewrite imap_cons. simpl.
    rewrite (imap_ext _ (fun j q => (S k + j, q)%nat)) by (intros; simpl; f_equal; lia).
    rewrite IH. unfold storeAnswer. cbn [fst snd]. rewrite Nat.add_0_r.
    destruct (decide (S k <= i)%nat) as [Hle|Hle].
    + rewrite decide_True by lia.
      replace (i - k)%nat with (S (i - S k)) by lia. cbn [lookup list_lookup].
      assert (Hne : questionKey k ≠ questionKey i)
        by (intros Heq; apply questionKey_inj in Heq; lia).
      assert (Hsame : forall a : gmap string value,
                match blockValuesAt values k with
                | Some bv => match answerOf q bv with
                             | Some v => <[questionKey k := v]> a
                             | None => a
                             end
                | None => a
                end !! questionKey i = a !! questionKey i).
      { intros a. destruct (blockValuesAt values k) as [bv|]; [|done].
        destruct (answerOf q bv); [|done]. by rewrite lookup_insert_ne. }
      destruct (qs !! (i - S k)%nat) as [q'|]; [|apply Hsame].
      destruct (blockValuesAt values i) as [b|]; [|apply Hsame].
      destruct (answerOf q' b); [done|apply Hsame].
    + destruct (decide (k <= i)%nat) as [Hki|Hki].
      * assert (i = k) as -> by lia. rewrite Nat.sub_diag. cbn [lookup list_lookup].
        destruct (blockValuesAt values k) as [bv|]; [|done].
        destruct (answerOf q bv); [|done]. by rewrite lookup_insert_eq.
      * assert (Hne : questionKey k ≠ questionKey i)
          by (intros Heq; apply questionKey_inj in Heq; lia).
        destruct (blockValuesAt values k) as [bv|]; [|done].
        destruct (answerOf q bv); [|done]. by rewrite lookup_insert_ne.
Qed.

End Keys.

Section Keys2.
Import JsString Js Runs Forms Interactions.

Lemma fold_storeAnswer_other values qs : forall k answers key,
  (forall j, (j < length qs)%nat -> key ≠ questionKey (k + j)) ->
  fold_left (storeAnswer values) (imap (fun j q => (k + j, q)%nat) qs) answers !! key
  = answers !! key.
Proof.
  induction qs as [|q qs IH]; intros k answers key Hkey; [done|].
  rewrite imap_cons. simpl.
  rewrite (imap_ext _ (fun j q => (S k + j, q)%nat)) by (intros; simpl; f_equal; lia).
  rewrite IH.
  - unfold storeAnswer. cbn [fst snd]. rewrite Nat.add_0_r.
    destruct (blockValuesAt values k) as [bv|]; [|done].
    destruct (answerOf q bv); [|done].
    rewrite lookup_insert_ne; [done|].
    specialize (Hkey 0%nat). rewrite Nat.add_0_r in Hkey. intros Heq. apply Hkey; [simpl; lia|done].
  - intros j Hj. replace (S k + j)%nat with (k + S j)%nat by lia. apply Hkey. simpl. lia.
Qed.

End Keys2.

(** X13: The response form and the submission agree on their keys.  The form is
    the modal with the callback [survey_response_submit] and the id of the
    survey as its [private_metadata]; its inputs are, in order, one for each
    question of one of the three types, the input of question [i] having the
    block id [q_i] and the action id [answer_i].  The answers collected from
    a submission hold, under [q_i], what the state of the form has for
    question [i] under these two ids, read according to the type of the
    question, and they hold nothing under any other key. *)
Theorem response_form_keys (survey : Survey)
    (values : gmap string (gmap string BlockState.t)) :
  (exists blocks,
     Forms.buildResponseModal survey
     = Modal "survey_response_submit" (id survey) "Pulse Survey" "Submit" "Cancel" blocks)
  /\ Runs.inputKeys (Forms.buildResponseModal survey)
     = omap (fun iq : nat * Question =>
               if Runs.known (snd iq) then Some (questionKey (fst iq), answerKey (fst iq))
               else None)
         (imap (fun i q => (i, q)) (questions survey))
  /\ (forall i,
        Interactions.collectAnswers (questions survey) values !! questionKey i
        = match questions survey !! i, Interactions.blockValuesAt values i with
          | Some q, Some blockValues => Interactions.answerOf q blockValues
          | _, _ => None
          end)
  /\ (forall key,
        (forall i, (i < length (questions survey))%nat -> key ≠ questionKey i) ->
        Interactions.collectAnswers (questions survey) values !! key = None).
Proof.
  split; [by eexists|]. split; [|split].
  - unfold Forms.buildResponseModal, Runs.inputKeys.
    rewrite omap_app. cbn [omap list_omap app]. 
    rewrite omap_concat_imap.
    induction (questions survey) as [|q qs IH] using rev_ind; [done|].
    rewrite !imap_app, concat_app, omap_app, IH. f_equal.
    simpl. rewrite questionInput_keys, app_nil_r. by destruct (Runs.known q).
  - intros i. unfold Interactions.collectAnswers.
    pose proof (fold_storeAnswer values (questions survey) 0 ∅ i) as H.
    rewrite (imap_ext _ (fun i q => (i, q))) in H by done.
    rewrite H. rewrite decide_True by lia. rewrite Nat.sub_0_r, lookup_empty.
    destruct (questions survey !! i) as [q|]; [|done].
    destruct (Interactions.blockValuesAt values i) as [b|]; [|done].
    by destruct (Interactions.answerOf q b).
  - intros key Hkey. unfold Interactions.collectAnswers.
    pose proof (fold_storeAnswer_other values (questions survey) 0 ∅ key) as H.
    rewrite (imap_ext _ (fun i q => (i, q))) in H by done.
    rewrite H; [apply lookup_empty|]. intros j Hj. by apply Hkey.
Qed.

(** * The handlers *)

Section Tasks.
Import Store Scenario.

Lemma bind_Fulfilled {A B} (m : Task A) (k : A -> Task B) s a s' :
  m s = Fulfilled a s' -> (m ≫= k) s = k a s'.
Proof. unfold mbind, Task_bind. by intros ->. Qed.

Lemma bind_Failed {A B} (m : Task A) (k : A -> Task B) s e s' :
  m s = Failed e s' -> (m ≫= k) s = Failed e s'.
Proof. unfold mbind, Task_bind. by intros ->. Qed.

Lemma store_Resolved {A} (m : Async A) s a w :
  m (world s) = Resolved a w -> store m s = Fulfilled a {| world := w; calls := calls s |}.
Proof. unfold store. by intros ->. Qed.

Lemma store_getSurvey id s :
  noFault (world s) ->
  store (getSurvey id) s
  = Fulfilled (surveyStore (world s) !! id)
      {| world := consumeFault (world s); calls := calls s |}.
Proof. intros H. apply store_Resolved. by apply getSurveyJSON_noFault. Qed.

Lemma store_getResponses id s :
  noFault (world s) ->
  store (getResponses id) s
  = Fulfilled (recorded (world s) id)
      {| world := consumeFault (world s); calls := calls s |}.
Proof. intros H. apply store_Resolved. by apply getResponses_noFault. Qed.

Lemma store_hasUserResponded id user s :
  noFault (world s) ->
  store (hasUserResponded id user) s
  = Fulfilled (Array_includes (tracked (world s) id) (digest id user))
      {| world := consumeFault (world s); calls := calls s |}.
Proof. intros H. apply store_Resolved. by apply hasUserResponded_noFault. Qed.

End Tasks.

(** X14: Neither handler reads or writes a store or calls Slack for a request
    that [verifySlackRequest] does not accept: the session is left as it
    was.  When the verification returns [false] the answer is the body
    [Invalid signature] with the status 401; when it throws, the handler
    rejects with what was thrown, the verification standing outside its
    [try]. *)
Theorem handlers_need_signature (signingSecret docsUrl : option string) (clock : Z)
    (uuid now : string) (headers : gmap string string) (rawBody : string)
    (params : Params.t) (payload : Payload) (s : Session) :
  Verify.verifySlackRequest signingSecret clock headers rawBody ≠ Normal true ->
  sessionOf (Pulse.handler signingSecret docsUrl clock headers rawBody params s) = s
  /\ sessionOf (Interactions.handler signingSecret clock uuid now headers rawBody payload s) = s
  /\ (Verify.verifySlackRequest signingSecret clock headers rawBody = Normal false ->
      Pulse.handler signingSecret docsUrl clock headers rawBody params s
      = Fulfilled (Body "Invalid signature" 401) s
      /\ Interactions.handler signingSecret clock uuid now headers rawBody payload s
         = Fulfilled (Body "Invalid signature" 401) s)
  /\ (forall e, Verify.verifySlackRequest signingSecret clock headers rawBody = Throw e ->
      Pulse.handler signingSecret docsUrl clock headers rawBody params s = Failed e s
      /\ Interactions.handler signingSecret clock uuid now headers rawBody payload s
         = Failed e s).
Proof.
  intros H. unfold Pulse.handler, Interactions.handler, mbind, Task_bind, run.
  destruct (Verify.verifySlackRequest signingSecret clock headers rawBody)
    as [[|]|e|] eqn:E; [done|..]; repeat split; try done; congruence.
Qed.

(** X14 at a request that carries a timestamp and no signature. *)
Lemma handlers_need_signature_witness :
  (Verify.verifySlackRequest (Some "8f742231b10e8888abcd99yyyzzz85a5") 1531420618000 ({[ "x-slack-request-timestamp" := "1531420618" ]}) "text=close+a1b2c3d4" ≠ Normal true)
  /\ (sessionOf (Pulse.handler (Some "8f742231b10e8888abcd99yyyzzz85a5") None 1531420618000 ({[ "x-slack-request-timestamp" := "1531420618" ]}) "text=close+a1b2c3d4" (Cases.typed "close a1b2c3d4") Cases.opened) = Cases.opened
    /\ sessionOf (Interactions.handler (Some "8f742231b10e8888abcd99yyyzzz85a5") 1531420618000 "a1b2c3d4-0000-4000-8000-000000000000" "2024-05-01T10:00:00.000Z" ({[ "x-slack-request-timestamp" := "1531420618" ]}) "text=close+a1b2c3d4" unhandled Cases.opened) = Cases.opened
    /\ (Verify.verifySlackRequest (Some "8f742231b10e8888abcd99yyyzzz85a5") 1531420618000 ({[ "x-slack-request-timestamp" := "1531420618" ]}) "text=close+a1b2c3d4" = Normal false ->
        Pulse.handler (Some "8f742231b10e8888abcd99yyyzzz85a5") None 1531420618000 ({[ "x-slack-request-timestamp" := "1531420618" ]}) "text=close+a1b2c3d4" (Cases.typed "close a1b2c3d4") Cases.opened
        = Fulfilled (Body "Invalid signature" 401) Cases.opened
        /\ Interactions.handler (Some "8f742231b10e8888abcd99yyyzzz85a5") 1531420618000 "a1b2c3d4-0000-4000-8000-000000000000" "2024-05-01T10:00:00.000Z" ({[ "x-slack-request-timestamp" := "1531420618" ]}) "text=close+a1b2c3d4" unhandled Cases.opened
           = Fulfilled (Body "Invalid signature" 401) Cases.opened)
    /\ (forall e, Verify.verifySlackRequest (Some "8f742231b10e8888abcd99yyyzzz85a5") 1531420618000 ({[ "x-slack-request-timestamp" := "1531420618" ]}) "text=close+a1b2c3d4" = Throw e ->
        Pulse.handler (Some "8f742231b10e8888abcd99yyyzzz85a5") None 1531420618000 ({[ "x-slack-request-timestamp" := "1531420618" ]}) "text=close+a1b2c3d4" (Cases.typed "close a1b2c3d4") Cases.opened = Failed e Cases.opened
        /\ Interactions.handler (Some "8f742231b10e8888abcd99yyyzzz85a5") 1531420618000 "a1b2c3d4-0000-4000-8000-000000000000" "2024-05-01T10:00:00.000Z" ({[ "x-slack-request-timestamp" := "1531420618" ]}) "text=close+a1b2c3d4" unhandled Cases.opened
           = Failed e Cases.opened)).
Proof.
  assert (H1 : Verify.verifySlackRequest (Some "8f742231b10e8888abcd99yyyzzz85a5") 1531420618000 ({[ "x-slack-request-timestamp" := "1531420618" ]}) "text=close+a1b2c3d4" ≠ Normal true).
  { vm_compute; discriminate. }
  exact (conj H1 (handlers_need_signature (Some "8f742231b10e8888abcd99yyyzzz85a5") None 1531420618000 "a1b2c3d4-0000-4000-8000-000000000000" "2024-05-01T10:00:00.000Z" ({[ "x-slack-request-timestamp" := "1531420618" ]}) "text=close+a1b2c3d4" (Cases.typed "close a1b2c3d4") unhandled Cases.opened H1)).
Defined.







Section Authorisation.
Import Store Scenario Runs.

Lemma untouched_afterRead s : untouched s (afterRead s).
Proof. by repeat split. Qed.

Lemma noFault_afterRead s : noFault (world s) -> noFault (world (afterRead s)).
Proof. apply noFault_consume. Qed.

Lemma given_Some surveyId :
  surveyId ≠ EmptyString -> Pulse.given (Some surveyId) = Some surveyId.
Proof. intros H. unfold Pulse.given. by destruct surveyId. Qed.

Lemma store_closeSurvey id survey s :
  noFault (world s) ->
  surveyStore (world s) !! id = Some (SurveyRecord survey) ->
  store (Surveys.closeSurvey id) s
  = Fulfilled (Some (closedRecord survey))
      {| world := afterSurveyWrite id (SurveyRecord (closedRecord survey))
                    (consumeFault (world s));
         calls := calls s |}.
Proof.
  intros H Hs. apply store_Resolved. unfold Surveys.closeSurvey.
  by rewrite (updateSurvey_run _ _ survey).
Qed.

End Authorisation.

(** X15: [/pulse close] on a stored survey.  A user other than the creator is
    told that only the creator can close it, and nothing is written and
    Slack is not called.  The creator of a survey that is closed already is
    told so, and again nothing happens.  The creator of a survey that is not
    closed gets the empty answer: the stored record then has the status
    closed and is otherwise as it was, the responses and the tracking records
    are untouched, and one message with the title, the response count and the
    id is posted to the channel of the command. *)
Theorem handleClose_creator_only (channelId userId surveyId : string) (survey : Survey)
    (s : Session) :
  Scenario.noFault (world s) ->
  surveyId ≠ EmptyString ->
  surveyStore (world s) !! surveyId = Some (SurveyRecord survey) ->
  (userId ≠ createdBy survey ->
   exists s',
     Pulse.handleClose channelId userId (Some surveyId) s
     = Fulfilled (Ephemeral None ":lock: Only the survey creator can close a survey.") s'
     /\ Runs.untouched s s')
  /\ (userId = createdBy survey -> status survey = "closed" ->
      exists s',
        Pulse.handleClose channelId userId (Some surveyId) s
        = Fulfilled
            (Ephemeral None
               (":information_source: Survey `" +:+ surveyId +:+ "` is already closed.")) s'
        /\ Runs.untouched s s')
  /\ (userId = createdBy survey -> status survey ≠ "closed" ->
      exists s',
        Pulse.handleClose channelId userId (Some surveyId) s
        = Fulfilled (Body EmptyString 200) s'
        /\ surveyStore (world s')
           = <[surveyId := SurveyRecord (Runs.closedRecord survey)]> (surveyStore (world s))
        /\ responseStore (world s') = responseStore (world s)
        /\ trackingStore (world s') = trackingStore (world s)
        /\ calls s'
           = calls s
             ++ [chat_postMessage channelId None
                   (":checkered_flag: *" +:+ title survey +:+ "* is now closed. "
                    +:+ JsString.ofNat (responseCount survey)
                    +:+ " total responses. Use `/pulse results " +:+ surveyId
                    +:+ "` to view results.")]).
Proof.
  intros H Hid Hs. unfold Pulse.handleClose. rewrite given_Some by done.
  rewrite (bind_Fulfilled _ _ _ _ _ (store_getSurvey surveyId s H)), Hs.
  split; [|split].
  - intros Hu. apply String.eqb_neq in Hu. rewrite Hu. simpl.
    eexists; split; [reflexivity|]. apply untouched_afterRead.
  - intros -> Hc. rewrite String.eqb_refl, Hc. simpl.
    eexists; split; [reflexivity|]. apply untouched_afterRead.
  - intros -> Hc. apply String.eqb_neq in Hc. rewrite String.eqb_refl, Hc. simpl.
    erewrite bind_Fulfilled.
    2:{ apply store_closeSurvey; [by apply noFault_consume | exact Hs]. }
    eexists; split; [reflexivity|]. done.
Qed.

(** X15 at the sample survey, just created, and user U2, who did not create it. *)
Lemma handleClose_creator_only_witness :
  (Scenario.noFault (world Cases.opened))
  /\ ("a1b2c3d4" ≠ EmptyString)
  /\ (surveyStore (world Cases.opened) !! "a1b2c3d4" = Some (SurveyRecord Sample.survey))
  /\ (("U2" ≠ createdBy Sample.survey ->
     exists s',
       Pulse.handleClose "C1" "U2" (Some "a1b2c3d4") Cases.opened
       = Fulfilled (Ephemeral None ":lock: Only the survey creator can close a survey.") s'
       /\ Runs.untouched Cases.opened s')
    /\ ("U2" = createdBy Sample.survey -> status Sample.survey = "closed" ->
        exists s',
          Pulse.handleClose "C1" "U2" (Some "a1b2c3d4") Cases.opened
          = Fulfilled
              (Ephemeral None
                 (":information_source: Survey `" +:+ "a1b2c3d4" +:+ "` is already closed.")) s'
          /\ Runs.untouched Cases.opened s')
    /\ ("U2" = createdBy Sample.survey -> status Sample.survey ≠ "closed" ->
        exists s',
          Pulse.handleClose "C1" "U2" (Some "a1b2c3d4") Cases.opened
          = Fulfilled (Body EmptyString 200) s'
          /\ surveyStore (world s')
             = <["a1b2c3d4" := SurveyRecord (Runs.closedRecord Sample.survey)]> (surveyStore (world Cases.opened))
          /\ responseStore (world s') = responseStore (world Cases.opened)
          /\ trackingStore (world s') = trackingStore (world Cases.opened)
          /\ calls s'
             = calls Cases.opened
               ++ [chat_postMessage "C1" None
                     (":checkered_flag: *" +:+ title Sample.survey +:+ "* is now closed. "
                      +:+ JsString.ofNat (responseCount Sample.survey)
                      +:+ " total responses. Use `/pulse results " +:+ "a1b2c3d4"
                      +:+ "` to view results.")])).
Proof.
  assert (H1 : Scenario.noFault (world Cases.opened)).
  { constructor. }
  assert (H2 : "a1b2c3d4" ≠ EmptyString).
  { discriminate. }
  assert (H3 : surveyStore (world Cases.opened) !! "a1b2c3d4" = Some (SurveyRecord Sample.survey)).
  { vm_compute; reflexivity. }
  exact (conj H1 (conj H2 (conj H3 (handleClose_creator_only "C1" "U2" "a1b2c3d4" Sample.survey Cases.opened H1 H2 H3)))).
Defined.







(** X16: [/pulse export] on a stored survey.  A user other than the creator is
    told that only the creator can export, and nothing is written and Slack
    is not called.  For the creator nothing is written either, and the one
    call to Slack uploads to the channel of the command the CSV export of the
    responses on record, under a file name that carries the survey id. *)
Theorem handleExport_creator_only (channelId userId surveyId : string) (survey : Survey)
    (s : Session) :
  Scenario.noFault (world s) ->
  surveyId ≠ EmptyString ->
  surveyStore (world s) !! surveyId = Some (SurveyRecord survey) ->
  (userId ≠ createdBy survey ->
   exists s',
     Pulse.handleExport channelId userId (Some surveyId) s
     = Fulfilled (Ephemeral None ":lock: Only the survey creator can export results.") s'
     /\ Runs.untouched s s')
  /\ (userId = createdBy survey ->
      exists s',
        Pulse.handleExport channelId userId (Some surveyId) s
        = Fulfilled (Body EmptyString 200) s'
        /\ surveyStore (world s') = surveyStore (world s)
        /\ responseStore (world s') = responseStore (world s)
        /\ trackingStore (world s') = trackingStore (world s)
        /\ writes (world s') = writes (world s)
        /\ calls s'
           = calls s
             ++ [filesUploadV2 channelId
                   (Blocks.buildCsvExport survey (Scenario.recorded (world s) surveyId))
                   ("pulse-survey-" +:+ surveyId +:+ "-results.csv")
                   (title survey +:+ " - Export")
                   (":bar_chart: CSV export for *" +:+ title survey +:+ "* ("
                    +:+ JsString.ofNat (length (Scenario.recorded (world s) surveyId))
                    +:+ " responses)")]).
Proof.
  intros H Hid Hs. unfold Pulse.handleExport. rewrite given_Some by done.
  rewrite (bind_Fulfilled _ _ _ _ _ (store_getSurvey surveyId s H)), Hs.
  split.
  - intros Hu. apply String.eqb_neq in Hu. rewrite Hu. simpl.
    eexists; split; [reflexivity|]. apply untouched_afterRead.
  - intros ->. rewrite String.eqb_refl. simpl.
    erewrite bind_Fulfilled.
    2:{ apply store_getResponses. by apply noFault_consume. }
    eexists; split; [reflexivity|]. done.
Qed.

(** X16 at the sample survey, just created, and user U1, who created it. *)
Lemma handleExport_creator_only_witness :
  (Scenario.noFault (world Cases.opened))
  /\ ("a1b2c3d4" ≠ EmptyString)
  /\ (surveyStore (world Cases.opened) !! "a1b2c3d4" = Some (SurveyRecord Sample.survey))
  /\ (("U1" ≠ createdBy Sample.survey ->
     exists s',
       Pulse.handleExport "C1" "U1" (Some "a1b2c3d4") Cases.opened
       = Fulfilled (Ephemeral None ":lock: Only the survey creator can export results.") s'
       /\ Runs.untouched Cases.opened s')
    /\ ("U1" = createdBy Sample.survey ->
        exists s',
          Pulse.handleExport "C1" "U1" (Some "a1b2c3d4") Cases.opened
          = Fulfilled (Body EmptyString 200) s'
          /\ surveyStore (world s') = surveyStore (world Cases.opened)
          /\ responseStore (world s') = responseStore (world Cases.opened)
          /\ trackingStore (world s') = trackingStore (world Cases.opened)
          /\ writes (world s') = writes (world Cases.opened)
          /\ calls s'
             = calls Cases.opened
               ++ [filesUploadV2 "C1"
                     (Blocks.buildCsvExport Sample.survey (Scenario.recorded (world Cases.opened) "a1b2c3d4"))
                     ("pulse-survey-" +:+ "a1b2c3d4" +:+ "-results.csv")
                     (title Sample.survey +:+ " - Export")
                     (":bar_chart: CSV export for *" +:+ title Sample.survey +:+ "* ("
                      +:+ JsString.ofNat (length (Scenario.recorded (world Cases.opened) "a1b2c3d4"))
                      +:+ " responses)")])).
Proof.
  assert (H1 : Scenario.noFault (world Cases.opened)).
  { constructor. }
  assert (H2 : "a1b2c3d4" ≠ EmptyString).
  { discriminate. }
  assert (H3 : surveyStore (world Cases.opened) !! "a1b2c3d4" = Some (SurveyRecord Sample.survey)).
  { vm_compute; reflexivity. }
  exact (conj H1 (conj H2 (conj H3 (handleExport_creator_only "C1" "U1" "a1b2c3d4" Sample.survey Cases.opened H1 H2 H3)))).
Defined.







Section Hidden.
Import JsString Js Blocks Spec.

Lemma freeTextBlock_hidden survey q rs1 rs2 ctx key :
  showFreeText survey ctx = false ->
  length (freeTexts rs1 key) = length (freeTexts rs2 key) ->
  freeTextBlock survey q rs1 ctx key = freeTextBlock survey q rs2 ctx key.
Proof. intros H Hlen. unfold freeTextBlock. rewrite H. simpl. by rewrite Hlen. Qed.

Lemma questionBlocks_hidden survey rs1 rs2 ctx i q :
  showFreeText survey ctx = false ->
  sameUpToFreeText survey rs1 rs2 ->
  questions survey !! i = Some q ->
  questionBlocks survey rs1 ctx (i, q) = questionBlocks survey rs2 ctx (i, q).
Proof.
  intros Hctx [Hlen Hq] Hi. specialize (Hq i q Hi). unfold questionBlocks.
  destruct (String.eqb (type q) "scale") eqn:E1.
  { apply String.eqb_eq in E1. rewrite E1 in Hq. simpl in Hq.
    unfold scaleBlock. by rewrite !scaleValues_answersAt, Hq. }
  destruct (String.eqb (type q) "multi-select") eqn:E2.
  { apply String.eqb_eq in E2. rewrite E2 in Hq. simpl in Hq.
    unfold multiSelectBlock. by rewrite !allSelections_answersAt, Hq, Hlen. }
  destruct (String.eqb (type q) "free-text") eqn:E3; [|done].
  apply String.eqb_eq in E3. rewrite E3 in Hq. simpl in Hq.
  by rewrite (freeTextBlock_hidden survey q rs1 rs2 ctx).
Qed.

Lemma buildResultsBlocks_hidden survey rs1 rs2 ctx :
  showFreeText survey ctx = false ->
  sameUpToFreeText survey rs1 rs2 ->
  buildResultsBlocks survey rs1 ctx = buildResultsBlocks survey rs2 ctx.
Proof.
  intros Hctx Hsame. pose proof Hsame as [Hlen _].
  unfold buildResultsBlocks, headerBlock. rewrite Hlen.
  destruct (length rs2 =? 0)%nat; [done|].
  rewrite (forEach_ext (questionBlocks survey rs1 ctx) (questionBlocks survey rs2 ctx)); [done|].
  intros [i q] Hin. apply list_elem_of_lookup in Hin as [j Hj].
  rewrite list_lookup_imap in Hj.
  destruct (questions survey !! j) as [q'|] eqn:Eq; [|done].
  simpl in Hj. inversion Hj; subst. by apply questionBlocks_hidden.
Qed.

End Hidden.

(** X17: [/pulse results] for a user who is not the creator, on a survey whose
    settings do not share free text: the calls made to Slack are the same
    when the responses on record differ only in what their free-text answers
    say.  When the blocks can be built, the one call is the ephemeral message
    to that user with the blocks built for a viewer who is neither admin nor
    looking at a share. *)
Theorem handleResults_hides_free_text (channelId userId surveyId : string)
    (survey : Survey) (s1 s2 : Session) :
  Scenario.noFault (world s1) -> Scenario.noFault (world s2) ->
  surveyId ≠ EmptyString ->
  surveyStore (world s1) !! surveyId = Some (SurveyRecord survey) ->
  surveyStore (world s2) !! surveyId = Some (SurveyRecord survey) ->
  calls s1 = calls s2 ->
  userId ≠ createdBy survey ->
  (forall st, settings survey = Some st -> shareFreetext st = false) ->
  Spec.sameUpToFreeText survey
    (Scenario.recorded (world s1) surveyId) (Scenario.recorded (world s2) surveyId) ->
  calls (sessionOf (Pulse.handleResults channelId userId (Some surveyId) s1))
  = calls (sessionOf (Pulse.handleResults channelId userId (Some surveyId) s2))
  /\ (forall blocks,
        Blocks.buildResultsBlocks survey (Scenario.recorded (world s1) surveyId)
          {| isAdmin := false; isShare := false |} = Normal blocks ->
        exists s1' s2',
          Pulse.handleResults channelId userId (Some surveyId) s1
          = Fulfilled (Body EmptyString 200) s1'
          /\ Pulse.handleResults channelId userId (Some surveyId) s2
             = Fulfilled (Body EmptyString 200) s2'
          /\ calls s1'
             = calls s1
               ++ [chat_postEphemeral channelId userId (Some blocks)
                     ("Results for " +:+ title survey)]
          /\ calls s2' = calls s1').
Proof.
  intros H1 H2 Hid Hs1 Hs2 Hcalls Hu Hset Hsame.
  assert (Hhidden : Blocks.showFreeText survey {| isAdmin := false; isShare := false |} = false).
  { unfold Blocks.showFreeText. simpl. destruct (settings survey) as [st|] eqn:E; [|done].
    by apply Hset. }
  pose proof (buildResultsBlocks_hidden survey _ _ _ Hhidden Hsame) as Hb.
  apply String.eqb_neq in Hu.
  unfold Pulse.handleResults. rewrite given_Some by done.
  rewrite (bind_Fulfilled _ _ _ _ _ (store_getSurvey surveyId s1 H1)), Hs1.
  rewrite (bind_Fulfilled _ _ _ _ _ (store_getSurvey surveyId s2 H2)), Hs2.
  erewrite (bind_Fulfilled _ _ (Runs.afterRead s1));
    [|apply store_getResponses; by apply noFault_consume].
  erewrite (bind_Fulfilled _ _ (Runs.afterRead s2));
    [|apply store_getResponses; by apply noFault_consume].
  cbn [world Runs.afterRead]. 
  change (Scenario.recorded (Store.consumeFault (world s1)) surveyId)
    with (Scenario.recorded (world s1) surveyId).
  change (Scenario.recorded (Store.consumeFault (world s2)) surveyId)
    with (Scenario.recorded (world s2) surveyId).
  unfold Pulse.isCreator. rewrite Hu. unfold Commands.resultsBlocks. rewrite <- Hb.
  unfold mbind, Task_bind, run, slack, Commands.titleOf.
  destruct (Blocks.buildResultsBlocks survey (Scenario.recorded (world s1) surveyId) _)
    as [blocks|e|]; simpl; (split; [by rewrite ?Hcalls|]); intros blocks' Hb'; [|done..].
  inversion Hb'; subst. eexists _, _. repeat split; try reflexivity. simpl. by rewrite Hcalls.
Qed.

(** X17 at two records of the sample responses that differ in the text of one answer. *)
Lemma handleResults_hides_free_text_witness :
  (Scenario.noFault (world (Cases.heard Sample.told)))
  /\ (Scenario.noFault (world (Cases.heard Sample.toldOtherwise)))
  /\ ("a1b2c3d4" ≠ EmptyString)
  /\ (surveyStore (world (Cases.heard Sample.told)) !! "a1b2c3d4" = Some (SurveyRecord Cases.discreet))
  /\ (surveyStore (world (Cases.heard Sample.toldOtherwise)) !! "a1b2c3d4" = Some (SurveyRecord Cases.discreet))
  /\ (calls (Cases.heard Sample.told) = calls (Cases.heard Sample.toldOtherwise))
  /\ ("U2" ≠ createdBy Cases.discreet)
  /\ ((forall st, settings Cases.discreet = Some st -> shareFreetext st = false))
  /\ (Spec.sameUpToFreeText Cases.discreet
      (Scenario.recorded (world (Cases.heard Sample.told)) "a1b2c3d4") (Scenario.recorded (world (Cases.heard Sample.toldOtherwise)) "a1b2c3d4"))
  /\ (calls (sessionOf (Pulse.handleResults "C1" "U2" (Some "a1b2c3d4") (Cases.heard Sample.told)))
    = calls (sessionOf (Pulse.handleResults "C1" "U2" (Some "a1b2c3d4") (Cases.heard Sample.toldOtherwise)))
    /\ (forall blocks,
          Blocks.buildResultsBlocks Cases.discreet (Scenario.recorded (world (Cases.heard Sample.told)) "a1b2c3d4")
            {| isAdmin := false; isShare := false |} = Normal blocks ->
          exists s1' s2',
            Pulse.handleResults "C1" "U2" (Some "a1b2c3d4") (Cases.heard Sample.told)
            = Fulfilled (Body EmptyString 200) s1'
            /\ Pulse.handleResults "C1" "U2" (Some "a1b2c3d4") (Cases.heard Sample.toldOtherwise)
               = Fulfilled (Body EmptyString 200) s2'
            /\ calls s1'
               = calls (Cases.heard Sample.told)
                 ++ [chat_postEphemeral "C1" "U2" (Some blocks)
                       ("Results for " +:+ title Cases.discreet)]
            /\ calls s2' = calls s1')).
Proof.
  assert (H1 : Scenario.noFault (world (Cases.heard Sample.told))).
  { constructor. }
  assert (H2 : Scenario.noFault (world (Cases.heard Sample.toldOtherwise))).
  { constructor. }
  assert (H3 : "a1b2c3d4" ≠ EmptyString).
  { discriminate. }
  assert (H4 : surveyStore (world (Cases.heard Sample.told)) !! "a1b2c3d4" = Some (SurveyRecord Cases.discreet)).
  { vm_compute; reflexivity. }
  assert (H5 : surveyStore (world (Cases.heard Sample.toldOtherwise)) !! "a1b2c3d4" = Some (SurveyRecord Cases.discreet)).
  { vm_compute; reflexivity. }
  assert (H6 : calls (Cases.heard Sample.told) = calls (Cases.heard Sample.toldOtherwise)).
  { reflexivity. }
  assert (H7 : "U2" ≠ createdBy Cases.discreet).
  { discriminate. }
  assert (H8 : (forall st, settings Cases.discreet = Some st -> shareFreetext st = false)).
  { intros st [= <-]; reflexivity. }
  assert (H9 : Spec.sameUpToFreeText Cases.discreet
        (Scenario.recorded (world (Cases.heard Sample.told)) "a1b2c3d4") (Scenario.recorded (world (Cases.heard Sample.toldOtherwise)) "a1b2c3d4")).
  { split; [vm_compute; reflexivity|]. intros [|[|[|i]]] q Hq; vm_compute in Hq; simplify_eq; vm_compute; reflexivity. }
  exact (conj H1 (conj H2 (conj H3 (conj H4 (conj H5 (conj H6 (conj H7 (conj H8 (conj H9 (handleResults_hides_free_text "C1" "U2" "a1b2c3d4" Cases.discreet (Cases.heard Sample.told) (Cases.heard Sample.toldOtherwise) H1 H2 H3 H4 H5 H6 H7 H8 H9)))))))))).
Defined.







(** X18: A click on [Take Survey].  The answer is empty with the status 200 and
    exactly one call is made to Slack.  When no survey is stored under the id
    the user is told so.  For a stored survey nothing is written, and the
    call is: the notice that the survey is closed when its status is closed;
    else the notice that the user has responded already when the digest of
    the survey and the user is on record; else the opening of the response
    form of the survey, with the trigger of the click. *)
Theorem takeSurvey_gate (userId channelId triggerId surveyId : string) (s : Session) :
  Scenario.noFault (world s) ->
  (surveyStore (world s) !! surveyId = None ->
   exists s',
     Interactions.handleBlockActions userId channelId triggerId
       [{| Action.action_id := "take_survey"; Action.value := surveyId |}] s
     = Fulfilled (Body EmptyString 200) s'
     /\ calls s'
        = calls s
          ++ [chat_postEphemeral channelId userId None ":x: This survey could not be found."])
  /\ (forall survey,
        surveyStore (world s) !! surveyId = Some (SurveyRecord survey) ->
        exists s',
          Interactions.handleBlockActions userId channelId triggerId
            [{| Action.action_id := "take_survey"; Action.value := surveyId |}] s
          = Fulfilled (Body EmptyString 200) s'
          /\ surveyStore (world s') = surveyStore (world s)
          /\ responseStore (world s') = responseStore (world s)
          /\ trackingStore (world s') = trackingStore (world s)
          /\ writes (world s') = writes (world s)
          /\ calls s'
             = calls s
               ++ [if String.eqb (status survey) "closed" then
                     chat_postEphemeral channelId userId None
                       ":checkered_flag: This survey is closed and no longer accepting responses."
                   else if Store.Array_includes (Scenario.tracked (world s) surveyId)
                             (Store.digest surveyId userId) then
                     chat_postEphemeral channelId userId None
                       ":white_check_mark: You've already submitted a response to this survey. Thank you!"
                   else views_open triggerId (Forms.buildResponseModal survey)]).
Proof.
  intros H. unfold Interactions.handleBlockActions, Interactions.handleAction.
  change (String.eqb (Action.action_id
            {| Action.action_id := "take_survey"; Action.value := surveyId |}) "take_survey")
    with true. cbv iota. cbn [Action.value].
  unfold Interactions.takeSurvey.
  split.
  - intros Hs. unfold mbind at 1, Task_bind at 1.
    rewrite (bind_Fulfilled _ _ _ _ _ (store_getSurvey surveyId s H)), Hs.
    eexists; split; reflexivity.
  - intros survey Hs. unfold mbind at 1, Task_bind at 1.
    rewrite (bind_Fulfilled _ _ _ _ _ (store_getSurvey surveyId s H)), Hs.
    destruct (String.eqb (status survey) "closed").
    + eexists; split; [reflexivity|]. done.
    + erewrite bind_Fulfilled.
      2:{ apply store_hasUserResponded. by apply noFault_consume. }
      cbn [world Runs.afterRead].
      change (Scenario.tracked (Store.consumeFault (world s)) surveyId)
        with (Scenario.tracked (world s) surveyId).
      destruct (Store.Array_includes _ _); eexists; (split; [reflexivity|]); done.
Qed.

(** X18 at the sample survey, just created. *)
Lemma takeSurvey_gate_witness :
  (Scenario.noFault (world Cases.opened))
  /\ ((surveyStore (world Cases.opened) !! "a1b2c3d4" = None ->
     exists s',
       Interactions.handleBlockActions "U2" "C1" "T1"
         [{| Action.action_id := "take_survey"; Action.value := "a1b2c3d4" |}] Cases.opened
       = Fulfilled (Body EmptyString 200) s'
       /\ calls s'
          = calls Cases.opened
            ++ [chat_postEphemeral "C1" "U2" None ":x: This survey could not be found."])
    /\ (forall survey,
          surveyStore (world Cases.opened) !! "a1b2c3d4" = Some (SurveyRecord survey) ->
          exists s',
            Interactions.handleBlockActions "U2" "C1" "T1"
              [{| Action.action_id := "take_survey"; Action.value := "a1b2c3d4" |}] Cases.opened
            = Fulfilled (Body EmptyString 200) s'
            /\ surveyStore (world s') = surveyStore (world Cases.opened)
            /\ responseStore (world s') = responseStore (world Cases.opened)
            /\ trackingStore (world s') = trackingStore (world Cases.opened)
            /\ writes (world s') = writes (world Cases.opened)
            /\ calls s'
               = calls Cases.opened
                 ++ [if String.eqb (status survey) "closed" then
                       chat_postEphemeral "C1" "U2" None
                         ":checkered_flag: This survey is closed and no longer accepting responses."
                     else if Store.Array_includes (Scenario.tracked (world Cases.opened) "a1b2c3d4")
                               (Store.digest "a1b2c3d4" "U2") then
                       chat_postEphemeral "C1" "U2" None
                         ":white_check_mark: You've already submitted a response to this survey. Thank you!"
                     else views_open "T1" (Forms.buildResponseModal survey)])).
Proof.
  assert (H1 : Scenario.noFault (world Cases.opened)).
  { constructor. }
  exact (conj H1 (takeSurvey_gate "U2" "C1" "T1" "a1b2c3d4" Cases.opened H1)).
Defined.







Section Submissions.
Import Store Scenario Runs Interactions.

Lemma sessionOf_bind_ret {A B} (m : Task A) (b : B) s :
  sessionOf ((m ≫= fun _ => mret b) s) = sessionOf (m s).
Proof. unfold mbind, Task_bind. by destruct (m s). Qed.

Lemma handleSurveyResponseSubmit_run userId surveyId values survey s :
  noFault (world s) ->
  surveyStore (world s) !! surveyId = Some (SurveyRecord survey) ->
  Array_includes (tracked (world s) surveyId) (digest surveyId userId) = false ->
  let answers := collectAnswers (questions survey) values in
  let n := S (length (recorded (world s) surveyId)) in
  exists s',
    sessionOf (handleSurveyResponseSubmit userId surveyId values s) = s'
    /\ noFault (world s')
    /\ responseStore (world s')
       = <[surveyId := map jsonObject (recorded (world s) surveyId ++ [answers])]>
           (responseStore (world s))
    /\ surveyStore (world s')
       = <[surveyId := SurveyRecord (withResponseCount n survey)]> (surveyStore (world s))
    /\ trackingStore (world s')
       = <[surveyId := tracked (world s) surveyId ++ [digest surveyId userId]]>
           (trackingStore (world s))
    /\ (showsResults survey = false ->
        handleSurveyResponseSubmit userId surveyId values s = Fulfilled clear s'
        /\ calls s'
           = calls s
             ++ [chat_postMessage userId None
                   (":white_check_mark: *Thank you!* Your anonymous response to *"
                    +:+ title survey +:+ "* has been recorded. (Response #"
                    +:+ JsString.ofNat n +:+ ")")]).
Proof.
  intros H Hs Ht answers n. unfold handleSurveyResponseSubmit.
  rewrite (bind_Fulfilled _ _ _ _ _ (store_getSurvey surveyId s H)), Hs.
  erewrite bind_Fulfilled.
  2:{ apply store_hasUserResponded. by apply noFault_consume. }
  cbn [world]. change (tracked (consumeFault (world s)) surveyId)
    with (tracked (world s) surveyId). rewrite Ht. 
  set (w1 := consumeFault (consumeFault (world s))).
  assert (F1 : noFault w1) by by do 2 apply noFault_consume.
  destruct (addResponse_noFault surveyId (collectAnswers (questions survey) values) w1 F1)
    as (w2 & E2 & R2 & S2 & T2 & _ & _ & F2).
  change (recorded w1 surveyId) with (recorded (world s) surveyId) in *.
  change (surveyStore w1) with (surveyStore (world s)) in *.
  change (responseStore w1) with (responseStore (world s)) in *.
  change (trackingStore w1) with (trackingStore (world s)) in *.
  rewrite Hs in S2. fold answers in E2, R2, S2.
  assert (Hn : length (recorded (world s) surveyId ++ [answers]) = n)
    by (rewrite length_app; simpl; lia).
  rewrite Hn in E2, S2.
  erewrite bind_Fulfilled; [|apply store_Resolved; exact E2].
  destruct (markUserResponded_noFault surveyId userId w2 F2)
    as (w3 & E3 & T3 & _ & S3 & R3 & _ & F3).
  assert (Htr : tracked w2 surveyId = tracked (world s) surveyId)
    by (unfold tracked; by rewrite T2).
  rewrite Htr, Ht, T2 in T3.
  erewrite bind_Fulfilled; [|apply store_Resolved; exact E3].
  cbn [calls].
  destruct (showsResults survey) eqn:Eshow.
  - rewrite sessionOf_bind_ret.
    erewrite bind_Fulfilled; [|by apply store_getResponses].
    eexists; split; [reflexivity|].
    assert (Hw : forall r : settled (),
              world (sessionOf r) = consumeFault w3 ->
              noFault (world (sessionOf r))
              /\ responseStore (world (sessionOf r))
                 = <[surveyId := map jsonObject (recorded (world s) surveyId ++ [answers])]>
                     (responseStore (world s))
              /\ surveyStore (world (sessionOf r))
                 = <[surveyId := SurveyRecord (withResponseCount n survey)]>
                     (surveyStore (world s))
              /\ trackingStore (world (sessionOf r))
                 = <[surveyId := tracked (world s) surveyId ++ [digest surveyId userId]]>
                     (trackingStore (world s))).
    { intros r ->. split; [by apply noFault_consume|].
      change (responseStore (consumeFault w3)) with (responseStore w3).
      change (surveyStore (consumeFault w3)) with (surveyStore w3).
      change (trackingStore (consumeFault w3)) with (trackingStore w3).
      by rewrite R3, S3, R2, S2, T3. }
    unfold mbind, Task_bind, run, slack.
    destruct (Blocks.buildResultsBlocks survey _ _) as [blocks|e|];
      (match goal with |- context [sessionOf ?r] => destruct (Hw r eq_refl) as (? & ? & ? & ?) end);
      repeat split; done.
  - unfold mbind, Task_bind, slack, mret, Task_ret. cbn [sessionOf world calls].
    eexists; split; [reflexivity|]. cbn [world calls].
    rewrite R3, S3, R2, S2, T3. done.
Qed.

End Submissions.

(** X19: One response per user.  A submission by a user whose digest is not on
    record for the survey, whatever the status of the survey and however the
    handler settles afterwards, appends the collected answers to the
    responses on record, in the form that JSON keeps, which is the answers
    themselves when they and the responses on record are made of values that
    JSON gives back as they are; it sets the response count of the stored
    survey to their number and leaves its status, and adds the digest to the
    tracking record.  A second submission by the same user, whatever its
    answers, is answered with the error [You've already submitted a
    response.] on [q_0]: nothing is written and Slack is not called. *)
Theorem handleSurveyResponseSubmit_once (userId surveyId : string)
    (values values' : gmap string (gmap string BlockState.t)) (survey : Survey)
    (s : Session) :
  Scenario.noFault (world s) ->
  surveyStore (world s) !! surveyId = Some (SurveyRecord survey) ->
  Store.digest surveyId userId ∉ Scenario.tracked (world s) surveyId ->
  let s1 := sessionOf (Interactions.handleSurveyResponseSubmit userId surveyId values s) in
  Scenario.recorded (world s1) surveyId
  = map Store.jsonObject (Scenario.recorded (world s) surveyId)
    ++ [Store.jsonObject (Interactions.collectAnswers (questions survey) values)]
  /\ (Forall Spec.jsonRecord
        (Scenario.recorded (world s) surveyId
         ++ [Interactions.collectAnswers (questions survey) values]) ->
      Scenario.recorded (world s1) surveyId
      = Scenario.recorded (world s) surveyId
        ++ [Interactions.collectAnswers (questions survey) values])
  /\ (exists counted,
        surveyStore (world s1) !! surveyId = Some (SurveyRecord counted)
        /\ responseCount counted = S (length (Scenario.recorded (world s) surveyId))
        /\ status counted = status survey)
  /\ Scenario.tracked (world s1) surveyId
     = Scenario.tracked (world s) surveyId ++ [Store.digest surveyId userId]
  /\ exists s2,
       Interactions.handleSurveyResponseSubmit userId surveyId values' s1
       = Fulfilled
           (ResponseAction "errors" (Some ("q_0", "You've already submitted a response.")))
           s2
       /\ Runs.untouched s1 s2.
Proof.
  intros H Hs Ht s1. apply Array_includes_not_elem_of in Ht.
  destruct (handleSurveyResponseSubmit_run userId surveyId values survey s H Hs Ht)
    as (s' & E & F & R & S' & T & _).
  subst s1. rewrite E. clear E.
  assert (Htr : Scenario.tracked (world s') surveyId
                = Scenario.tracked (world s) surveyId ++ [Store.digest surveyId userId]).
  { unfold Scenario.tracked at 1. by rewrite T, lookup_insert_eq. }
  split; [|split; [|split; [|split]]].
  - unfold Scenario.recorded at 1. rewrite R, lookup_insert_eq. simpl.
    by rewrite map_app.
  - intros Hj. unfold Scenario.recorded at 1. rewrite R, lookup_insert_eq. simpl.
    clear -Hj. induction Hj as [|r rs Hr _ IH]; [done|].
    simpl. by rewrite jsonObject_record, IH.
  - eexists. rewrite S', lookup_insert_eq. split; [reflexivity|]. done.
  - exact Htr.
  - unfold Interactions.handleSurveyResponseSubmit.
    rewrite (bind_Fulfilled _ _ _ _ _ (store_getSurvey surveyId s' F)).
    rewrite S', lookup_insert_eq.
    erewrite bind_Fulfilled.
    2:{ apply store_hasUserResponded. by apply noFault_consume. }
    cbn [world]. change (Scenario.tracked (Store.consumeFault (world s')) surveyId)
      with (Scenario.tracked (world s') surveyId).
    assert (Hin : Store.Array_includes (Scenario.tracked (world s') surveyId)
                    (Store.digest surveyId userId) = true).
    { apply Array_includes_elem_of. rewrite Htr. apply elem_of_app. right. left. }
    rewrite Hin. eexists; split; [reflexivity|]. by repeat split.
Qed.

(** X19 at the sample survey, just created: user U2 submits twice. *)
Lemma handleSurveyResponseSubmit_once_witness :
  (Scenario.noFault (world Cases.opened))
  /\ (surveyStore (world Cases.opened) !! "a1b2c3d4" = Some (SurveyRecord Sample.survey))
  /\ (Store.digest "a1b2c3d4" "U2" ∉ Scenario.tracked (world Cases.opened) "a1b2c3d4")
  /\ (let s1 := sessionOf (Interactions.handleSurveyResponseSubmit "U2" "a1b2c3d4" (Cases.filled "fine") Cases.opened) in
    Scenario.recorded (world s1) "a1b2c3d4"
    = map Store.jsonObject (Scenario.recorded (world Cases.opened) "a1b2c3d4")
      ++ [Store.jsonObject (Interactions.collectAnswers (questions Sample.survey) (Cases.filled "fine"))]
    /\ (Forall Spec.jsonRecord
          (Scenario.recorded (world Cases.opened) "a1b2c3d4"
           ++ [Interactions.collectAnswers (questions Sample.survey) (Cases.filled "fine")]) ->
        Scenario.recorded (world s1) "a1b2c3d4"
        = Scenario.recorded (world Cases.opened) "a1b2c3d4"
          ++ [Interactions.collectAnswers (questions Sample.survey) (Cases.filled "fine")])
    /\ (exists counted,
          surveyStore (world s1) !! "a1b2c3d4" = Some (SurveyRecord counted)
          /\ responseCount counted = S (length (Scenario.recorded (world Cases.opened) "a1b2c3d4"))
          /\ status counted = status Sample.survey)
    /\ Scenario.tracked (world s1) "a1b2c3d4"
       = Scenario.tracked (world Cases.opened) "a1b2c3d4" ++ [Store.digest "a1b2c3d4" "U2"]
    /\ exists s2,
         Interactions.handleSurveyResponseSubmit "U2" "a1b2c3d4" (Cases.filled "on second thoughts") s1
         = Fulfilled
             (ResponseAction "errors" (Some ("q_0", "You've already submitted a response.")))
             s2
         /\ Runs.untouched s1 s2).
Proof.
  assert (H1 : Scenario.noFault (world Cases.opened)).
  { constructor. }
  assert (H2 : surveyStore (world Cases.opened) !! "a1b2c3d4" = Some (SurveyRecord Sample.survey)).
  { vm_compute; reflexivity. }
  assert (H3 : Store.digest "a1b2c3d4" "U2" ∉ Scenario.tracked (world Cases.opened) "a1b2c3d4").
  { vm_compute; apply not_elem_of_nil. }
  exact (conj H1 (conj H2 (conj H3 (handleSurveyResponseSubmit_once "U2" "a1b2c3d4" (Cases.filled "fine") (Cases.filled "on second thoughts") Sample.survey Cases.opened H1 H2 H3)))).
Defined.







(** X20: The stores do not learn who responded.  After the same answers
    submitted by one or another user, neither of whom has responded yet, the
    response store is the same and the survey store is the same; what
    differs is the digest added to the tracking record of the survey. *)
Theorem handleSurveyResponseSubmit_anonymous (user1 user2 surveyId : string)
    (values : gmap string (gmap string BlockState.t)) (survey : Survey) (s : Session) :
  Scenario.noFault (world s) ->
  surveyStore (world s) !! surveyId = Some (SurveyRecord survey) ->
  Store.digest surveyId user1 ∉ Scenario.tracked (world s) surveyId ->
  Store.digest surveyId user2 ∉ Scenario.tracked (world s) surveyId ->
  let s1 := sessionOf (Interactions.handleSurveyResponseSubmit user1 surveyId values s) in
  let s2 := sessionOf (Interactions.handleSurveyResponseSubmit user2 surveyId values s) in
  responseStore (world s1) = responseStore (world s2)
  /\ surveyStore (world s1) = surveyStore (world s2)
  /\ trackingStore (world s1)
     = <[surveyId := Scenario.tracked (world s) surveyId ++ [Store.digest surveyId user1]]>
         (trackingStore (world s))
  /\ trackingStore (world s2)
     = <[surveyId := Scenario.tracked (world s) surveyId ++ [Store.digest surveyId user2]]>
         (trackingStore (world s)).
Proof.
  intros H Hs Ht1 Ht2 s1 s2.
  apply Array_includes_not_elem_of in Ht1. apply Array_includes_not_elem_of in Ht2.
  destruct (handleSurveyResponseSubmit_run user1 surveyId values survey s H Hs Ht1)
    as (s1' & E1 & _ & R1 & S1 & T1 & _).
  destruct (handleSurveyResponseSubmit_run user2 surveyId values survey s H Hs Ht2)
    as (s2' & E2 & _ & R2 & S2 & T2 & _).
  subst s1 s2. rewrite E1, E2, R1, R2, S1, S2. done.
Qed.

(** X20 at the sample survey, just created: the same form from user U2 or from user U3. *)
Lemma handleSurveyResponseSubmit_anonymous_witness :
  (Scenario.noFault (world Cases.opened))
  /\ (surveyStore (world Cases.opened) !! "a1b2c3d4" = Some (SurveyRecord Sample.survey))
  /\ (Store.digest "a1b2c3d4" "U2" ∉ Scenario.tracked (world Cases.opened) "a1b2c3d4")
  /\ (Store.digest "a1b2c3d4" "U3" ∉ Scenario.tracked (world Cases.opened) "a1b2c3d4")
  /\ (let s1 := sessionOf (Interactions.handleSurveyResponseSubmit "U2" "a1b2c3d4" (Cases.filled "fine") Cases.opened) in
    let s2 := sessionOf (Interactions.handleSurveyResponseSubmit "U3" "a1b2c3d4" (Cases.filled "fine") Cases.opened) in
    responseStore (world s1) = responseStore (world s2)
    /\ surveyStore (world s1) = surveyStore (world s2)
    /\ trackingStore (world s1)
       = <["a1b2c3d4" := Scenario.tracked (world Cases.opened) "a1b2c3d4" ++ [Store.digest "a1b2c3d4" "U2"]]>
           (trackingStore (world Cases.opened))
    /\ trackingStore (world s2)
       = <["a1b2c3d4" := Scenario.tracked (world Cases.opened) "a1b2c3d4" ++ [Store.digest "a1b2c3d4" "U3"]]>
           (trackingStore (world Cases.opened))).
Proof.
  assert (H1 : Scenario.noFault (world Cases.opened)).
  { constructor. }
  assert (H2 : surveyStore (world Cases.opened) !! "a1b2c3d4" = Some (SurveyRecord Sample.survey)).
  { vm_compute; reflexivity. }
  assert (H3 : Store.digest "a1b2c3d4" "U2" ∉ Scenario.tracked (world Cases.opened) "a1b2c3d4").
  { vm_compute; apply not_elem_of_nil. }
  assert (H4 : Store.digest "a1b2c3d4" "U3" ∉ Scenario.tracked (world Cases.opened) "a1b2c3d4").
  { vm_compute; apply not_elem_of_nil. }
  exact (conj H1 (conj H2 (conj H3 (conj H4 (handleSurveyResponseSubmit_anonymous "U2" "U3" "a1b2c3d4" (Cases.filled "fine") Sample.survey Cases.opened H1 H2 H3 H4))))).
Defined.







(** X21: The creation form, submitted.  With an id of hexadecimal digits and no
    survey record in the place of the creator's index, the answer clears the
    form; the record stored under the id has the title of the form, the
    questions parsed from its two text fields, the submitting user as
    creator, [showResults] and [shareFreetext] according to the boxes ticked,
    the status open and no response; the id is the last entry of the
    creator's index; and two messages are posted: the confirmation to the
    creator, then the survey card, whose button carries the id, to the channel
    of the form, or to the creator when the form carries no channel. *)
Theorem handleCreateSurveySubmit_flow (uuid now userId channelId : string)
    (form : CreateForm.t) (s : Session) :
  Scenario.noFault (world s) ->
  Surveys.allHex (Surveys.shortId uuid) = true ->
  (forall sv, surveyStore (world s) !! Surveys.indexKey userId ≠ Some (SurveyRecord sv)) ->
  let selected := default [] (CreateForm.selectedSettings form) in
  let record :=
    {| id := Surveys.shortId uuid;
       title := CreateForm.title form;
       questions := Parser.parseQuestions (CreateForm.rawQuestions form)
                      (default EmptyString (CreateForm.rawOptions form));
       createdBy := userId;
       settings := Some {| showResults := Store.Array_includes selected "show_results";
                           shareFreetext := Store.Array_includes selected "share_freetext" |};
       status := "open";
       responseCount := 0;
       createdAt := now |} in
  exists s',
    Interactions.handleCreateSurveySubmit uuid now userId channelId form s
    = Fulfilled (ResponseAction "clear" None) s'
    /\ surveyStore (world s') !! Surveys.shortId uuid = Some (SurveyRecord record)
    /\ Surveys.indexed (world s') userId
       = Surveys.indexed (world s) userId ++ [Surveys.shortId uuid]
    /\ responseStore (world s') = responseStore (world s)
    /\ trackingStore (world s') = trackingStore (world s)
    /\ calls s'
       = calls s
         ++ [chat_postMessage userId None
               (":white_check_mark: *Survey created!*" +:+ JsString.LF +:+ JsString.LF
                +:+ "Title: *" +:+ CreateForm.title form +:+ "*" +:+ JsString.LF
                +:+ "Questions: " +:+ JsString.ofNat (length (questions record))
                +:+ JsString.LF +:+ JsString.LF
                +:+ "Use `/pulse list` to view results, export data, or close your survey.");
             chat_postMessage (if String.eqb channelId EmptyString then userId else channelId)
               (Some (Forms.buildSurveyMessage record))
               (CreateForm.title form +:+ " - Take the survey!")].
Proof.
  intros H Hhex Hs selected record.
  assert (Hne : forall u, Surveys.shortId uuid ≠ Surveys.indexKey u)
    by (intros; by apply shortId_not_indexKey).
  assert (Hraw : match CreateForm.rawOptions form with
                 | Some raw => if Js.ToBoolean (VString raw) then raw else EmptyString
                 | None => EmptyString
                 end = default EmptyString (CreateForm.rawOptions form)).
  { destruct (CreateForm.rawOptions form) as [[|c raw]|]; reflexivity. }
  unfold Interactions.handleCreateSurveySubmit. rewrite Hraw.
  erewrite bind_Fulfilled.
  2:{ apply store_Resolved. by apply createSurvey_run. }
  fold selected. fold record. cbn [id].
  erewrite bind_Fulfilled.
  2:{ apply store_Resolved. apply addSurveyToUserIndex_run.
      - cbn [world]. by apply noFault_afterSurveyWrite.
      - intros sv. cbn [world Runs.afterSurveyWrite surveyStore].
        rewrite lookup_insert_ne by apply Hne. apply Hs. }
  unfold mbind, Task_bind, slack, mret, Task_ret. cbn [world calls].
  eexists; split; [reflexivity|]. cbn [world calls].
  split; [|split; [|split; [|split]]].
  - simpl. rewrite lookup_insert_ne by (symmetry; apply Hne). by rewrite lookup_insert_eq.
  - rewrite indexed_afterSurveyWrite. f_equal. unfold Surveys.indexed. simpl.
    by rewrite lookup_insert_ne by apply Hne.
  - done.
  - done.
  - rewrite <- app_assoc. simpl. do 3 f_equal. by destruct channelId.
Qed.

(** X21 at empty stores: user U1 submits the sample form from channel C1. *)
Lemma handleCreateSurveySubmit_flow_witness :
  (Scenario.noFault (world Cases.blank))
  /\ (Surveys.allHex (Surveys.shortId "a1b2c3d4-0000-4000-8000-000000000000") = true)
  /\ ((forall sv, surveyStore (world Cases.blank) !! Surveys.indexKey "U1" ≠ Some (SurveyRecord sv)))
  /\ (let selected := default [] (CreateForm.selectedSettings Cases.form) in
    let record :=
      {| id := Surveys.shortId "a1b2c3d4-0000-4000-8000-000000000000";
         title := CreateForm.title Cases.form;
         questions := Parser.parseQuestions (CreateForm.rawQuestions Cases.form)
                        (default EmptyString (CreateForm.rawOptions Cases.form));
         createdBy := "U1";
         settings := Some {| showResults := Store.Array_includes selected "show_results";
                             shareFreetext := Store.Array_includes selected "share_freetext" |};
         status := "open";
         responseCount := 0;
         createdAt := "2024-05-01T10:00:00.000Z" |} in
    exists s',
      Interactions.handleCreateSurveySubmit "a1b2c3d4-0000-4000-8000-000000000000" "2024-05-01T10:00:00.000Z" "U1" "C1" Cases.form Cases.blank
      = Fulfilled (ResponseAction "clear" None) s'
      /\ surveyStore (world s') !! Surveys.shortId "a1b2c3d4-0000-4000-8000-000000000000" = Some (SurveyRecord record)
      /\ Surveys.indexed (world s') "U1"
         = Surveys.indexed (world Cases.blank) "U1" ++ [Surveys.shortId "a1b2c3d4-0000-4000-8000-000000000000"]
      /\ responseStore (world s') = responseStore (world Cases.blank)
      /\ trackingStore (world s') = trackingStore (world Cases.blank)
      /\ calls s'
         = calls Cases.blank
           ++ [chat_postMessage "U1" None
                 (":white_check_mark: *Survey created!*" +:+ JsString.LF +:+ JsString.LF
                  +:+ "Title: *" +:+ CreateForm.title Cases.form +:+ "*" +:+ JsString.LF
                  +:+ "Questions: " +:+ JsString.ofNat (length (questions record))
                  +:+ JsString.LF +:+ JsString.LF
                  +:+ "Use `/pulse list` to view results, export data, or close your survey.");
               chat_postMessage (if String.eqb "C1" EmptyString then "U1" else "C1")
                 (Some (Forms.buildSurveyMessage record))
                 (CreateForm.title Cases.form +:+ " - Take the survey!")]).
Proof.
  assert (H1 : Scenario.noFault (world Cases.blank)).
  { constructor. }
  assert (H2 : Surveys.allHex (Surveys.shortId "a1b2c3d4-0000-4000-8000-000000000000") = true).
  { reflexivity. }
  assert (H3 : (forall sv, surveyStore (world Cases.blank) !! Surveys.indexKey "U1" ≠ Some (SurveyRecord sv))).
  { intros sv; vm_compute; discriminate. }
  exact (conj H1 (conj H2 (conj H3 (handleCreateSurveySubmit_flow "a1b2c3d4-0000-4000-8000-000000000000" "2024-05-01T10:00:00.000Z" "U1" "C1" Cases.form Cases.blank H1 H2 H3)))).
Defined.








(** X22: The buttons of the list act for whoever clicks them: the handler does
    not compare the user with the creator of the survey.  On a stored
    survey, [list_close] stores it with the status closed unless it is
    closed already, [list_results] sends the results as built for the admin,
    free-text answers included, whenever they can be built, and
    [list_export] uploads the CSV export of the responses on record; each
    goes to the direct messages of the user who clicked, and the last two
    write nothing. *)
Theorem list_buttons (userId channelId triggerId surveyId : string) (survey : Survey)
    (s : Session) :
  Scenario.noFault (world s) ->
  surveyStore (world s) !! surveyId = Some (SurveyRecord survey) ->
  (status survey ≠ "closed" ->
   exists s',
     Interactions.handleBlockActions userId channelId triggerId
       [{| Action.action_id := "list_close"; Action.value := surveyId |}] s
     = Fulfilled (Body EmptyString 200) s'
     /\ surveyStore (world s')
        = <[surveyId := SurveyRecord (Runs.closedRecord survey)]> (surveyStore (world s))
     /\ calls s'
        = calls s
          ++ [chat_postMessage userId None
                (":checkered_flag: *" +:+ title survey +:+ "* is now closed. "
                 +:+ JsString.ofNat (responseCount survey) +:+ " total responses.")])
  /\ (forall blocks,
        Blocks.buildResultsBlocks survey (Scenario.recorded (world s) surveyId)
          {| isAdmin := true; isShare := false |} = Normal blocks ->
        exists s',
          Interactions.handleBlockActions userId channelId triggerId
            [{| Action.action_id := "list_results"; Action.value := surveyId |}] s
          = Fulfilled (Body EmptyString 200) s'
          /\ surveyStore (world s') = surveyStore (world s)
          /\ responseStore (world s') = responseStore (world s)
          /\ trackingStore (world s') = trackingStore (world s)
          /\ writes (world s') = writes (world s)
          /\ calls s'
             = calls s
               ++ [chat_postMessage userId (Some (map Plain blocks))
                     ("Results for " +:+ title survey)])
  /\ (exists s',
        Interactions.handleBlockActions userId channelId triggerId
          [{| Action.action_id := "list_export"; Action.value := surveyId |}] s
        = Fulfilled (Body EmptyString 200) s'
        /\ surveyStore (world s') = surveyStore (world s)
        /\ responseStore (world s') = responseStore (world s)
        /\ trackingStore (world s') = trackingStore (world s)
        /\ writes (world s') = writes (world s)
        /\ calls s'
           = calls s
             ++ [filesUploadV2 userId
                   (Blocks.buildCsvExport survey (Scenario.recorded (world s) surveyId))
                   ("pulse-survey-" +:+ surveyId +:+ "-results.csv")
                   (title survey +:+ " - Export")
                   (":bar_chart: CSV export for *" +:+ title survey +:+ "* ("
                    +:+ JsString.ofNat (length (Scenario.recorded (world s) surveyId))
                    +:+ " responses)")]).
Proof.
  intros H Hs. unfold Interactions.handleBlockActions, Interactions.handleAction.
  cbn [Action.action_id Action.value String.eqb Ascii.eqb Bool.eqb].
  split; [|split].
  - intros Hc. apply String.eqb_neq in Hc. unfold Interactions.listClose.
    unfold mbind at 1, Task_bind at 1.
    rewrite (bind_Fulfilled _ _ _ _ _ (store_getSurvey surveyId s H)), Hs, Hc.
    erewrite bind_Fulfilled.
    2:{ apply store_closeSurvey; [by apply noFault_consume | exact Hs]. }
    eexists; split; [reflexivity|]. done.
  - intros blocks Hb. unfold Interactions.listResults.
    unfold mbind at 1, Task_bind at 1.
    rewrite (bind_Fulfilled _ _ _ _ _ (store_getSurvey surveyId s H)), Hs.
    erewrite bind_Fulfilled.
    2:{ apply store_getResponses. by apply noFault_consume. }
    cbn [world]. change (Scenario.recorded (Store.consumeFault (world s)) surveyId)
      with (Scenario.recorded (world s) surveyId).
    unfold Commands.resultsBlocks. rewrite Hb.
    eexists; split; [reflexivity|]. by repeat split.
  - unfold Interactions.listExport.
    unfold mbind at 1, Task_bind at 1.
    rewrite (bind_Fulfilled _ _ _ _ _ (store_getSurvey surveyId s H)), Hs.
    erewrite bind_Fulfilled.
    2:{ apply store_getResponses. by apply noFault_consume. }
    eexists; split; [reflexivity|]. by repeat split.
Qed.

(** X22 at the sample survey, just created, and user U2, who did not create it. *)
Lemma list_buttons_witness :
  (Scenario.noFault (world Cases.opened))
  /\ (surveyStore (world Cases.opened) !! "a1b2c3d4" = Some (SurveyRecord Sample.survey))
  /\ ((status Sample.survey ≠ "closed" ->
     exists s',
       Interactions.handleBlockActions "U2" "C1" "T1"
         [{| Action.action_id := "list_close"; Action.value := "a1b2c3d4" |}] Cases.opened
       = Fulfilled (Body EmptyString 200) s'
       /\ surveyStore (world s')
          = <["a1b2c3d4" := SurveyRecord (Runs.closedRecord Sample.survey)]> (surveyStore (world Cases.opened))
       /\ calls s'
          = calls Cases.opened
            ++ [chat_postMessage "U2" None
                  (":checkered_flag: *" +:+ title Sample.survey +:+ "* is now closed. "
                   +:+ JsString.ofNat (responseCount Sample.survey) +:+ " total responses.")])
    /\ (forall blocks,
          Blocks.buildResultsBlocks Sample.survey (Scenario.recorded (world Cases.opened) "a1b2c3d4")
            {| isAdmin := true; isShare := false |} = Normal blocks ->
          exists s',
            Interactions.handleBlockActions "U2" "C1" "T1"
              [{| Action.action_id := "list_results"; Action.value := "a1b2c3d4" |}] Cases.opened
            = Fulfilled (Body EmptyString 200) s'
            /\ surveyStore (world s') = surveyStore (world Cases.opened)
            /\ responseStore (world s') = responseStore (world Cases.opened)
            /\ trackingStore (world s') = trackingStore (world Cases.opened)
            /\ writes (world s') = writes (world Cases.opened)
            /\ calls s'
               = calls Cases.opened
                 ++ [chat_postMessage "U2" (Some (map Plain blocks))
                       ("Results for " +:+ title Sample.survey)])
    /\ (exists s',
          Interactions.handleBlockActions "U2" "C1" "T1"
            [{| Action.action_id := "list_export"; Action.value := "a1b2c3d4" |}] Cases.opened
          = Fulfilled (Body EmptyString 200) s'
          /\ surveyStore (world s') = surveyStore (world Cases.opened)
          /\ responseStore (world s') = responseStore (world Cases.opened)
          /\ trackingStore (world s') = trackingStore (world Cases.opened)
          /\ writes (world s') = writes (world Cases.opened)
          /\ calls s'
             = calls Cases.opened
               ++ [filesUploadV2 "U2"
                     (Blocks.buildCsvExport Sample.survey (Scenario.recorded (world Cases.opened) "a1b2c3d4"))
                     ("pulse-survey-" +:+ "a1b2c3d4" +:+ "-results.csv")
                     (title Sample.survey +:+ " - Export")
                     (":bar_chart: CSV export for *" +:+ title Sample.survey +:+ "* ("
                      +:+ JsString.ofNat (length (Scenario.recorded (world Cases.opened) "a1b2c3d4"))
                      +:+ " responses)")])).
Proof.
  assert (H1 : Scenario.noFault (world Cases.opened)).
  { constructor. }
  assert (H2 : surveyStore (world Cases.opened) !! "a1b2c3d4" = Some (SurveyRecord Sample.survey)).
  { vm_compute; reflexivity. }
  exact (conj H1 (conj H2 (list_buttons "U2" "C1" "T1" "a1b2c3d4" Sample.survey Cases.opened H1 H2))).
Defined.






(** * The life of a survey *)

Section Button.
Import Store Scenario Runs Interactions.

Lemma takeSurvey_run userId channelId triggerId surveyId survey s :
  noFault (world s) ->
  surveyStore (world s) !! surveyId = Some (SurveyRecord survey) ->
  exists s',
    handleBlockActions userId channelId triggerId
      [{| Action.action_id := "take_survey"; Action.value := surveyId |}] s
    = Fulfilled (Body EmptyString 200) s'
    /\ untouched s {| world := world s'; calls := calls s |}
    /\ calls s'
       = calls s
         ++ [if String.eqb (status survey) "closed" then
               chat_postEphemeral channelId userId None
                 ":checkered_flag: This survey is closed and no longer accepting responses."
             else if Array_includes (tracked (world s) surveyId) (digest surveyId userId) then
               chat_postEphemeral channelId userId None
                 ":white_check_mark: You've already submitted a response to this survey. Thank you!"
             else views_open triggerId (Forms.buildResponseModal survey)].
Proof.
  intros H Hs. unfold handleBlockActions, handleAction.
  change (String.eqb (Action.action_id
            {| Action.action_id := "take_survey"; Action.value := surveyId |}) "take_survey")
    with true. cbv iota. cbn [Action.value].
  unfold takeSurvey. unfold mbind at 1, Task_bind at 1.
  rewrite (bind_Fulfilled _ _ _ _ _ (store_getSurvey surveyId s H)), Hs.
  destruct (String.eqb (status survey) "closed").
  - eexists; split; [reflexivity|]. done.
  - erewrite bind_Fulfilled.
    2:{ apply store_hasUserResponded. by apply noFault_consume. }
    cbn [world afterRead].
    change (tracked (consumeFault (world s)) surveyId) with (tracked (world s) surveyId).
    destruct (Array_includes _ _); eexists; (split; [reflexivity|]); done.
Qed.

End Button.

Section Creation.
Import Store Scenario Runs Interactions.

Lemma handleCreateSurveySubmit_run uuid now userId channelId form s :
  noFault (world s) ->
  Surveys.allHex (Surveys.shortId uuid) = true ->
  (forall sv, surveyStore (world s) !! Surveys.indexKey userId ≠ Some (SurveyRecord sv)) ->
  let selected := default [] (CreateForm.selectedSettings form) in
  let record :=
    {| id := Surveys.shortId uuid;
       title := CreateForm.title form;
       questions := Parser.parseQuestions (CreateForm.rawQuestions form)
                      (default EmptyString (CreateForm.rawOptions form));
       createdBy := userId;
       settings := Some {| showResults := Array_includes selected "show_results";
                           shareFreetext := Array_includes selected "share_freetext" |};
       status := "open";
       responseCount := 0;
       createdAt := now |} in
  handleCreateSurveySubmit uuid now userId channelId form s
  = Fulfilled clear
      {| world :=
           afterSurveyWrite (Surveys.indexKey userId)
             (UserIndex (Surveys.indexed (world s) userId ++ [Surveys.shortId uuid]))
             (consumeFault
                (afterSurveyWrite (Surveys.shortId uuid) (SurveyRecord record) (world s)));
         calls :=
           calls s
           ++ [chat_postMessage userId None
                 (":white_check_mark: *Survey created!*" +:+ JsString.LF +:+ JsString.LF
                  +:+ "Title: *" +:+ CreateForm.title form +:+ "*" +:+ JsString.LF
                  +:+ "Questions: " +:+ JsString.ofNat (length (questions record))
                  +:+ JsString.LF +:+ JsString.LF
                  +:+ "Use `/pulse list` to view results, export data, or close your survey.");
               chat_postMessage (if String.eqb channelId EmptyString then userId else channelId)
                 (Some (Forms.buildSurveyMessage record))
                 (CreateForm.title form +:+ " - Take the survey!")] |}.
Proof.
  intros H Hhex Hs selected record.
  assert (Hne : forall u, Surveys.shortId uuid ≠ Surveys.indexKey u)
    by (intros; by apply shortId_not_indexKey).
  assert (Hraw : match CreateForm.rawOptions form with
                 | Some raw => if Js.ToBoolean (VString raw) then raw else EmptyString
                 | None => EmptyString
                 end = default EmptyString (CreateForm.rawOptions form)).
  { destruct (CreateForm.rawOptions form) as [[|c raw]|]; reflexivity. }
  unfold handleCreateSurveySubmit. rewrite Hraw.
  erewrite bind_Fulfilled.
  2:{ apply store_Resolved. by apply createSurvey_run. }
  fold selected. fold record. cbn [id].
  erewrite bind_Fulfilled.
  2:{ apply store_Resolved. apply addSurveyToUserIndex_run.
      - cbn [world]. by apply noFault_afterSurveyWrite.
      - intros sv. cbn [world afterSurveyWrite surveyStore].
        rewrite lookup_insert_ne by apply Hne. apply Hs. }
  unfold mbind, Task_bind, slack, mret, Task_ret. cbn [world calls].
  unfold clear. f_equal. f_equal.
  - f_equal. f_equal. unfold Surveys.indexed. cbn [afterSurveyWrite surveyStore].
    by rewrite lookup_insert_ne by apply Hne.
  - rewrite <- app_assoc. simpl. do 3 f_equal. by destruct channelId.
Qed.

End Creation.


(** X23: From the creation form to the response form.  After the creation form
    is submitted, the survey is stored under its id and the last message
    posted is the survey card, in the channel of the form or else to the
    creator; a click on a button of that card, by a user of whom the
    tracking record of the id has no digest, opens the response form of the
    stored survey with the trigger of the click, and writes nothing. *)
Theorem created_survey_can_be_taken (uuid now userId channelId : string)
    (form : CreateForm.t) (respondent channel triggerId : string) (s : Session) :
  Scenario.noFault (world s) ->
  Surveys.allHex (Surveys.shortId uuid) = true ->
  (forall sv, surveyStore (world s) !! Surveys.indexKey userId ≠ Some (SurveyRecord sv)) ->
  Store.digest (Surveys.shortId uuid) respondent
    ∉ Scenario.tracked (world s) (Surveys.shortId uuid) ->
  let s1 := sessionOf (Interactions.handleCreateSurveySubmit uuid now userId channelId form s) in
  exists record text,
    surveyStore (world s1) !! Surveys.shortId uuid = Some (SurveyRecord record)
    /\ last (calls s1)
       = Some (chat_postMessage (if String.eqb channelId EmptyString then userId else channelId)
                 (Some (Forms.buildSurveyMessage record)) text)
    /\ forall block_id buttons button,
         ActionsBlock block_id buttons ∈ Forms.buildSurveyMessage record ->
         button ∈ buttons ->
         exists s2,
           Interactions.handleBlockActions respondent channel triggerId
             [{| Action.action_id := buttonAction button;
                 Action.value := buttonValue button |}] s1
           = Fulfilled (Body EmptyString 200) s2
           /\ surveyStore (world s2) = surveyStore (world s1)
           /\ responseStore (world s2) = responseStore (world s1)
           /\ trackingStore (world s2) = trackingStore (world s1)
           /\ calls s2 = calls s1 ++ [views_open triggerId (Forms.buildResponseModal record)].
Proof.
  intros H Hhex Hs Ht s1. subst s1.
  rewrite handleCreateSurveySubmit_run by done. cbn [sessionOf].
  set (s1 := {| world := _; calls := _ |}).
  assert (Hne : forall u, Surveys.shortId uuid ≠ Surveys.indexKey u)
    by (intros; by apply shortId_not_indexKey).
  eexists _, _. split; [|split].
  - subst s1. cbn [world Runs.afterSurveyWrite surveyStore Store.consumeFault].
    rewrite lookup_insert_ne by (symmetry; apply Hne). by rewrite lookup_insert_eq.
  - subst s1. cbn [calls]. by rewrite last_app.
  - intros block_id buttons button Hb Hin.
    unfold Forms.buildSurveyMessage in Hb.
    repeat (apply elem_of_cons in Hb as [Hb|Hb]; [try discriminate|]).
    2:{ by apply elem_of_nil in Hb. }
    injection Hb as _ ->. apply list_elem_of_singleton in Hin as ->.
    cbn [buttonAction buttonValue id].
    assert (F1 : Scenario.noFault (world s1)).
    { subst s1. cbn [world]. apply noFault_afterSurveyWrite, noFault_consume.
      by apply noFault_afterSurveyWrite. }
    match goal with |- context [Forms.buildResponseModal ?r] => set (record := r) end.
    assert (Hs1 : surveyStore (world s1) !! Surveys.shortId uuid = Some (SurveyRecord record)).
    { subst s1. cbn [world Runs.afterSurveyWrite surveyStore Store.consumeFault].
      rewrite lookup_insert_ne by (symmetry; apply Hne). by rewrite lookup_insert_eq. }
    destruct (takeSurvey_run respondent channel triggerId _ record s1 F1 Hs1)
      as (s2 & E & (U1 & U2 & U3 & _) & C).
    exists s2. split; [done|]. do 3 (split; [done|]). rewrite C. do 2 f_equal.
    change (String.eqb (status record) "closed") with false. cbv iota.
    apply Array_includes_not_elem_of in Ht.
    change (Scenario.tracked (world s1) (Surveys.shortId uuid))
      with (Scenario.tracked (world s) (Surveys.shortId uuid)).
    by rewrite Ht.
Qed.

(** X23 at empty stores: user U1 submits the sample form from channel C1, and user U2 clicks. *)
Lemma created_survey_can_be_taken_witness :
  (Scenario.noFault (world Cases.blank))
  /\ (Surveys.allHex (Surveys.shortId "a1b2c3d4-0000-4000-8000-000000000000") = true)
  /\ ((forall sv, surveyStore (world Cases.blank) !! Surveys.indexKey "U1" ≠ Some (SurveyRecord sv)))
  /\ (Store.digest (Surveys.shortId "a1b2c3d4-0000-4000-8000-000000000000") "U2"
      ∉ Scenario.tracked (world Cases.blank) (Surveys.shortId "a1b2c3d4-0000-4000-8000-000000000000"))
  /\ (let s1 := sessionOf (Interactions.handleCreateSurveySubmit "a1b2c3d4-0000-4000-8000-000000000000" "2024-05-01T10:00:00.000Z" "U1" "C1" Cases.form Cases.blank) in
    exists record text,
      surveyStore (world s1) !! Surveys.shortId "a1b2c3d4-0000-4000-8000-000000000000" = Some (SurveyRecord record)
      /\ last (calls s1)
         = Some (chat_postMessage (if String.eqb "C1" EmptyString then "U1" else "C1")
                   (Some (Forms.buildSurveyMessage record)) text)
      /\ forall block_id buttons button,
           ActionsBlock block_id buttons ∈ Forms.buildSurveyMessage record ->
           button ∈ buttons ->
           exists s2,
             Interactions.handleBlockActions "U2" "C1" "T1"
               [{| Action.action_id := buttonAction button;
                   Action.value := buttonValue button |}] s1
             = Fulfilled (Body EmptyString 200) s2
             /\ surveyStore (world s2) = surveyStore (world s1)
             /\ responseStore (world s2) = responseStore (world s1)
             /\ trackingStore (world s2) = trackingStore (world s1)
             /\ calls s2 = calls s1 ++ [views_open "T1" (Forms.buildResponseModal record)]).
Proof.
  assert (H1 : Scenario.noFault (world Cases.blank)).
  { constructor. }
  assert (H2 : Surveys.allHex (Surveys.shortId "a1b2c3d4-0000-4000-8000-000000000000") = true).
  { reflexivity. }
  assert (H3 : (forall sv, surveyStore (world Cases.blank) !! Surveys.indexKey "U1" ≠ Some (SurveyRecord sv))).
  { intros sv; vm_compute; discriminate. }
  assert (H4 : Store.digest (Surveys.shortId "a1b2c3d4-0000-4000-8000-000000000000") "U2"
        ∉ Scenario.tracked (world Cases.blank) (Surveys.shortId "a1b2c3d4-0000-4000-8000-000000000000")).
  { vm_compute; apply not_elem_of_nil. }
  exact (conj H1 (conj H2 (conj H3 (conj H4 (created_survey_can_be_taken "a1b2c3d4-0000-4000-8000-000000000000" "2024-05-01T10:00:00.000Z" "U1" "C1" Cases.form "U2" "C1" "T1" Cases.blank H1 H2 H3 H4))))).
Defined.





(** X24: A user who has responded is not asked again.  After a submission by a
    user whose digest was not on record, to a survey that is not closed, a
    click of that user on [Take Survey] is answered with the notice that
    the response is in: no form is opened and nothing is written. *)
Theorem handleSurveyResponseSubmit_then_takeSurvey (userId surveyId channelId triggerId : string)
    (values : gmap string (gmap string BlockState.t)) (survey : Survey) (s : Session) :
  Scenario.noFault (world s) ->
  surveyStore (world s) !! surveyId = Some (SurveyRecord survey) ->
  status survey ≠ "closed" ->
  Store.digest surveyId userId ∉ Scenario.tracked (world s) surveyId ->
  let s1 := sessionOf (Interactions.handleSurveyResponseSubmit userId surveyId values s) in
  exists s2,
    Interactions.handleBlockActions userId channelId triggerId
      [{| Action.action_id := "take_survey"; Action.value := surveyId |}] s1
    = Fulfilled (Body EmptyString 200) s2
    /\ surveyStore (world s2) = surveyStore (world s1)
    /\ responseStore (world s2) = responseStore (world s1)
    /\ trackingStore (world s2) = trackingStore (world s1)
    /\ calls s2
       = calls s1
         ++ [chat_postEphemeral channelId userId None
               ":white_check_mark: You've already submitted a response to this survey. Thank you!"].
Proof.
  intros H Hs Hc Ht s1. apply Array_includes_not_elem_of in Ht.
  destruct (handleSurveyResponseSubmit_run userId surveyId values survey s H Hs Ht)
    as (s' & E & F & R & S' & T & _).
  subst s1. rewrite E. clear E.
  assert (Hs' : surveyStore (world s') !! surveyId
                = Some (SurveyRecord
                          (Store.withResponseCount
                             (S (length (Scenario.recorded (world s) surveyId))) survey)))
    by (by rewrite S', lookup_insert_eq).
  destruct (takeSurvey_run userId channelId triggerId surveyId _ s' F Hs')
    as (s2 & E & (U1 & U2 & U3 & _) & C).
  exists s2. split; [done|]. do 3 (split; [done|]). rewrite C. do 2 f_equal.
  apply String.eqb_neq in Hc. cbn [Store.withResponseCount status]. rewrite Hc.
  assert (Hin : Store.Array_includes (Scenario.tracked (world s') surveyId)
                  (Store.digest surveyId userId) = true).
  { apply Array_includes_elem_of. unfold Scenario.tracked at 1.
    rewrite T, lookup_insert_eq. apply elem_of_app. right. left. }
  by rewrite Hin.
Qed.

(** X24 at the sample survey, just created: user U2 submits, then clicks. *)
Lemma handleSurveyResponseSubmit_then_takeSurvey_witness :
  (Scenario.noFault (world Cases.opened))
  /\ (surveyStore (world Cases.opened) !! "a1b2c3d4" = Some (SurveyRecord Sample.survey))
  /\ (status Sample.survey ≠ "closed")
  /\ (Store.digest "a1b2c3d4" "U2" ∉ Scenario.tracked (world Cases.opened) "a1b2c3d4")
  /\ (let s1 := sessionOf (Interactions.handleSurveyResponseSubmit "U2" "a1b2c3d4" (Cases.filled "fine") Cases.opened) in
    exists s2,
      Interactions.handleBlockActions "U2" "C1" "T1"
        [{| Action.action_id := "take_survey"; Action.value := "a1b2c3d4" |}] s1
      = Fulfilled (Body EmptyString 200) s2
      /\ surveyStore (world s2) = surveyStore (world s1)
      /\ responseStore (world s2) = responseStore (world s1)
      /\ trackingStore (world s2) = trackingStore (world s1)
      /\ calls s2
         = calls s1
           ++ [chat_postEphemeral "C1" "U2" None
                 ":white_check_mark: You've already submitted a response to this survey. Thank you!"]).
Proof.
  assert (H1 : Scenario.noFault (world Cases.opened)).
  { constructor. }
  assert (H2 : surveyStore (world Cases.opened) !! "a1b2c3d4" = Some (SurveyRecord Sample.survey)).
  { vm_compute; reflexivity. }
  assert (H3 : status Sample.survey ≠ "closed").
  { vm_compute; discriminate. }
  assert (H4 : Store.digest "a1b2c3d4" "U2" ∉ Scenario.tracked (world Cases.opened) "a1b2c3d4").
  { vm_compute; apply not_elem_of_nil. }
  exact (conj H1 (conj H2 (conj H3 (conj H4 (handleSurveyResponseSubmit_then_takeSurvey "U2" "a1b2c3d4" "C1" "T1" (Cases.filled "fine") Sample.survey Cases.opened H1 H2 H3 H4))))).
Defined.





(** X25: A closed survey takes no response form.  After the creator's
    [/pulse close], whether the survey was closed already or not, a click on
    [Take Survey] by any user is answered with the notice that the survey is
    closed: no form is opened and nothing is written. *)
Theorem handleClose_then_takeSurvey (channelId surveyId userId channel triggerId : string)
    (survey : Survey) (s : Session) :
  Scenario.noFault (world s) ->
  surveyId ≠ EmptyString ->
  surveyStore (world s) !! surveyId = Some (SurveyRecord survey) ->
  let s1 := sessionOf (Pulse.handleClose channelId (createdBy survey) (Some surveyId) s) in
  exists s2,
    Interactions.handleBlockActions userId channel triggerId
      [{| Action.action_id := "take_survey"; Action.value := surveyId |}] s1
    = Fulfilled (Body EmptyString 200) s2
    /\ surveyStore (world s2) = surveyStore (world s1)
    /\ responseStore (world s2) = responseStore (world s1)
    /\ trackingStore (world s2) = trackingStore (world s1)
    /\ calls s2
       = calls s1
         ++ [chat_postEphemeral channel userId None
               ":checkered_flag: This survey is closed and no longer accepting responses."].
Proof.
  intros H Hid Hs s1.
  assert (exists closed,
            Scenario.noFault (world s1)
            /\ surveyStore (world s1) !! surveyId = Some (SurveyRecord closed)
            /\ status closed = "closed") as (closed & H1 & Hs1 & Hc).
  { subst s1. unfold Pulse.handleClose. rewrite given_Some by done.
    rewrite (bind_Fulfilled _ _ _ _ _ (store_getSurvey surveyId s H)), Hs.
    rewrite String.eqb_refl. cbn [negb].
    destruct (String.eqb_spec (status survey) "closed") as [Hc|Hc].
    - exists survey. split; [by apply noFault_consume|]. done.
    - erewrite bind_Fulfilled.
      2:{ apply store_closeSurvey; [by apply noFault_consume | exact Hs]. }
      exists (Runs.closedRecord survey). split; [|split; [|done]].
      + unfold mbind, Task_bind, slack, mret, Task_ret. cbn [sessionOf world].
        apply noFault_afterSurveyWrite. by do 2 apply noFault_consume.
      + unfold mbind, Task_bind, slack, mret, Task_ret.
        cbn [sessionOf world Runs.afterSurveyWrite surveyStore].
        by rewrite lookup_insert_eq. }
  destruct (takeSurvey_run userId channel triggerId surveyId closed s1 H1 Hs1)
    as (s2 & E & (U1 & U2 & U3 & _) & C).
  rewrite Hc in C. exists s2. done.
Qed.

(** X25 at the sample survey, just created: its creator closes it, then user U2 clicks. *)
Lemma handleClose_then_takeSurvey_witness :
  (Scenario.noFault (world Cases.opened))
  /\ ("a1b2c3d4" ≠ EmptyString)
  /\ (surveyStore (world Cases.opened) !! "a1b2c3d4" = Some (SurveyRecord Sample.survey))
  /\ (let s1 := sessionOf (Pulse.handleClose "C1" (createdBy Sample.survey) (Some "a1b2c3d4") Cases.opened) in
    exists s2,
      Interactions.handleBlockActions "U2" "C2" "T1"
        [{| Action.action_id := "take_survey"; Action.value := "a1b2c3d4" |}] s1
      = Fulfilled (Body EmptyString 200) s2
      /\ surveyStore (world s2) = surveyStore (world s1)
      /\ responseStore (world s2) = responseStore (world s1)
      /\ trackingStore (world s2) = trackingStore (world s1)
      /\ calls s2
         = calls s1
           ++ [chat_postEphemeral "C2" "U2" None
                 ":checkered_flag: This survey is closed and no longer accepting responses."]).
Proof.
  assert (H1 : Scenario.noFault (world Cases.opened)).
  { constructor. }
  assert (H2 : "a1b2c3d4" ≠ EmptyString).
  { discriminate. }
  assert (H3 : surveyStore (world Cases.opened) !! "a1b2c3d4" = Some (SurveyRecord Sample.survey)).
  { vm_compute; reflexivity. }
  exact (conj H1 (conj H2 (conj H3 (handleClose_then_takeSurvey "C1" "a1b2c3d4" "U2" "C2" "T1" Sample.survey Cases.opened H1 H2 H3)))).
Defined.






(** * The words of a command *)

Section Words.
Import JsString Js Lines Pulse.
Local Arguments String.append !_ _ / : simpl nomatch.
Local Arguments Ascii.eqb : simpl never.

Lemma word_start s : word s = true -> stripAny whiteSpace s = None.
Proof.
  destruct s as [|c r]; [done|]. cbn [word].
  by destruct (stripAny whiteSpace (String c r)).
Qed.

Lemma word_suffix x y : word (x +:+ y) = true -> word y = true.
Proof.
  induction x as [|c x IH]; [done|].
  change (String c x +:+ y) with (String c (x +:+ y)). cbn [word].
  by destruct (stripAny whiteSpace (String c (x +:+ y))).
Qed.

Lemma word_end s : word s = true -> stripAny (map reverse whiteSpace) (reverse s) = None.
Proof.
  intros H. destruct (stripAny _ (reverse s)) as [r|] eqn:E; [|done].
  apply stripAny_elem in E as (p' & Hp & E).
  apply list_elem_of_fmap in Hp as (p & -> & Hp).
  assert (Hs : s = reverse r +:+ p).
  { rewrite <- (reverse_involutive s), E, reverse_append. by rewrite reverse_involutive. }
  rewrite Hs in H. apply word_suffix, word_start in H.
  assert (is_Some (stripAny whiteSpace p)) as [? Hsome].
  { apply (stripAny_Some _ p); [done|]. rewrite <- (append_empty_r p) at 2.
    rewrite stripPrefix_here. by eexists. }
  congruence.
Qed.

Lemma reversed_space :
  Forall (fun p => p = " " \/ includes " " p = false) (map reverse whiteSpace).
Proof.
  apply Forall_forall. intros p Hp.
  assert (H : forallb (fun p => String.eqb p " " || negb (includes " " p))
                (map reverse whiteSpace) = true)
    by (vm_compute; reflexivity).
  rewrite forallb_forall in H. specialize (H p (proj1 (list_elem_of_In _ _) Hp)).
  apply orb_true_iff in H as [H|H].
  - left. by apply String.eqb_eq.
  - right. by apply negb_true_iff.
Qed.

Lemma trim_word s : word s = true -> trim s = s.
Proof.
  intros H. unfold trim. rewrite (trimStart_None s) by by apply word_start.
  apply trimEnd_fixed. by apply word_end.
Qed.

Lemma trim_words a b :
  word a = true -> a ≠ EmptyString -> word b = true -> b ≠ EmptyString ->
  trim (a +:+ String " " b) = a +:+ String " " b.
Proof.
  intros Ha Hne Hb Hnb. unfold trim.
  assert (Hs : trimStart (a +:+ String " " b) = a +:+ String " " b).
  { apply trimStart_None.
    rewrite stripAny_append_space by (done || apply whiteSpace_space).
    by rewrite word_start. }
  rewrite Hs. apply trimEnd_fixed.
  change (String " " b) with (" " +:+ b). rewrite <- append_assoc, reverse_append.
  rewrite reverse_append. change (reverse " ") with " ".
  change (" " +:+ reverse a) with (String " " (reverse a)).
  rewrite stripAny_append_space.
  - by rewrite word_end.
  - apply reversed_space.
  - intros E. apply (f_equal reverse) in E. rewrite reverse_involutive in E. done.
Qed.

Lemma splitWhiteSpace_word s : forall fuel,
  word s = true -> splitWhiteSpace fuel s = [s].
Proof.
  induction s as [|c r IH]; intros fuel H; [by destruct fuel|].
  destruct fuel as [|fuel]; [done|]. cbn [splitWhiteSpace].
  rewrite word_start by done. cbn [word] in H.
  destruct (stripAny whiteSpace (String c r)); [done|]. by rewrite IH.
Qed.

Lemma splitWhiteSpace_words b : forall a fuel,
  word a = true -> word b = true -> b ≠ EmptyString ->
  (String.length (a +:+ String " " b) <= fuel)%nat ->
  splitWhiteSpace fuel (a +:+ String " " b) = [a; b].
Proof.
  induction a as [|c a IH]; intros fuel Ha Hb Hnb Hlen.
  - change (EmptyString +:+ String " " b) with (String " " b) in *.
    destruct fuel as [|fuel]; [simpl in Hlen; lia|].
    cbn [splitWhiteSpace].
    change (stripAny whiteSpace (String " " b)) with (Some b). cbv iota.
    rewrite trimStart_None by by apply word_start.
    by rewrite splitWhiteSpace_word.
  - change (String c a +:+ String " " b) with (String c (a +:+ String " " b)) in *.
    destruct fuel as [|fuel]; [simpl in Hlen; lia|].
    cbn [splitWhiteSpace].
    change (String c (a +:+ String " " b)) with (String c a +:+ String " " b).
    rewrite stripAny_append_space by (done || apply whiteSpace_space).
    rewrite word_start by done. cbn [option_map].
    cbn [word] in Ha. destruct (stripAny whiteSpace (String c a)); [done|].
    rewrite IH; [done..|]. simpl in Hlen. lia.
Qed.

Lemma lowerCase_empty s : lowerCase s = EmptyString -> s = EmptyString.
Proof. by destruct s. Qed.

End Words.

Section Routing.
Import JsString Js Lines Pulse.

Lemma tryCatch_settles body s e s' : tryCatch body s ≠ Failed e s'.
Proof. unfold tryCatch. by destruct (body s). Qed.

Lemma handler_parts signingSecret docsUrl now headers rawBody params subcommand surveyId s :
  Verify.verifySlackRequest signingSecret now headers rawBody = Normal true ->
  word subcommand = true ->
  (forall id, surveyId = Some id -> subcommand ≠ EmptyString /\ word id = true /\ id ≠ EmptyString) ->
  default EmptyString (Params.text params) = command subcommand surveyId ->
  handler signingSecret docsUrl now headers rawBody params s
  = tryCatch (route docsUrl params subcommand surveyId) s.
Proof.
  intros Hv Hw Hid Ht. unfold handler. rewrite Hv.
  unfold mbind at 1, Task_bind at 1, run at 1. cbn [negb].
  assert (Hc : match Params.text params with
               | Some text => trim text
               | None => EmptyString
               end = command subcommand surveyId).
  { destruct (Params.text params) as [text|]; simpl in Ht; [|done]. subst text.
    destruct surveyId as [id|]; simpl.
    - destruct (Hid id eq_refl) as (? & ? & ?).
      change (subcommand +:+ " " +:+ id) with (subcommand +:+ String " " id).
      by apply trim_words.
    - by apply trim_word. }
  rewrite Hc. destruct surveyId as [id|]; simpl.
  - destruct (Hid id eq_refl) as (? & ? & ?).
    change (subcommand +:+ " " +:+ id) with (subcommand +:+ String " " id).
    by rewrite splitWhiteSpace_words.
  - by rewrite splitWhiteSpace_word.
Qed.

End Routing.

(** X26: The words of [/pulse].  For a request with a valid signature whose text
    is one word, or a first word, a space and a second word, the first word,
    compared without regard to the case of its ASCII letters, selects the
    sub-command, and the second word, if any, is the survey id handed to
    it; [create] and [help] ignore it.  A text that is missing or empty is
    answered as [help] is.  Any other first word is answered with the notice
    of an unknown command, which quotes the word as typed.  Whatever a
    sub-command throws is caught: the handler does not reject. *)
Theorem handler_routes (signingSecret docsUrl : option string) (now : Z)
    (headers : gmap string string) (rawBody : string) (params : Params.t)
    (subcommand : string) (surveyId : option string) (s : Session) :
  Verify.verifySlackRequest signingSecret now headers rawBody = Normal true ->
  Lines.word subcommand = true ->
  (forall id, surveyId = Some id ->
     subcommand ≠ EmptyString /\ Lines.word id = true /\ id ≠ EmptyString) ->
  default EmptyString (Params.text params) = Lines.command subcommand surveyId ->
  let name := Pulse.lowerCase subcommand in
  let userId := Params.user_id params in
  let channelId := Params.channel_id params in
  let answer := Pulse.handler signingSecret docsUrl now headers rawBody params s in
  (name = "create" ->
   answer = Pulse.tryCatch (Pulse.handleCreate (Params.trigger_id params) channelId) s)
  /\ (name = "results" ->
      answer = Pulse.tryCatch (Pulse.handleResults channelId userId surveyId) s)
  /\ (name = "share" ->
      answer
      = Pulse.tryCatch
          (r ← store (Commands.handleShare channelId surveyId); mret (Pulse.ofReply r)) s)
  /\ (name = "export" ->
      answer = Pulse.tryCatch (Pulse.handleExport channelId userId surveyId) s)
  /\ (name = "close" ->
      answer = Pulse.tryCatch (Pulse.handleClose channelId userId surveyId) s)
  /\ (name = "help" \/ subcommand = EmptyString ->
      answer = Pulse.handleHelp docsUrl s)
  /\ (name ∉ ["create"; "results"; "share"; "export"; "close"; "help"] ->
      subcommand ≠ EmptyString ->
      answer
      = Fulfilled
          (Ephemeral None
             ("Unknown command: `" +:+ subcommand
              +:+ "`. Try `/pulse help` for a list of commands.")) s)
  /\ forall e s', answer ≠ Failed e s'.
Proof.
  intros Hv Hw Hid Ht name userId channelId answer.
  subst answer. rewrite (handler_parts _ _ _ _ _ _ subcommand surveyId) by done.
  unfold Pulse.route. fold name userId channelId.
  repeat split.
  - by intros ->.
  - by intros ->.
  - by intros ->.
  - by intros ->.
  - by intros ->.
  - intros [-> | E]; [done|]. subst name. by rewrite E.
  - intros Hn Hne.
    assert (Hx : forall x, x ∈ ["create"; "results"; "share"; "export"; "close"; "help"] ->
                   String.eqb name x = false).
    { intros x Hx. apply String.eqb_neq. by intros ->. }
    rewrite !Hx by (repeat constructor).
    assert (He : String.eqb name EmptyString = false).
    { apply String.eqb_neq. intros E. by apply lowerCase_empty in E. }
    by rewrite He.
  - intros e s'. apply tryCatch_settles.
Qed.

(** X26 at a signed request with the text CLOSE a1b2c3d4. *)
Lemma handler_routes_witness :
  (Verify.verifySlackRequest (Some "8f742231b10e8888abcd99yyyzzz85a5") 1531420618000 ({[ "x-slack-request-timestamp" := "1531420618"; "x-slack-signature" := "v0=21637b8f266586b4259028e642125760172d93a726a83f3b487093cd1b12af3c" ]}) "text=CLOSE+a1b2c3d4" = Normal true)
  /\ (Lines.word "CLOSE" = true)
  /\ ((forall id, (Some "a1b2c3d4") = Some id ->
       "CLOSE" ≠ EmptyString /\ Lines.word id = true /\ id ≠ EmptyString))
  /\ (default EmptyString (Params.text (Cases.typed "CLOSE a1b2c3d4")) = Lines.command "CLOSE" (Some "a1b2c3d4"))
  /\ (let name := Pulse.lowerCase "CLOSE" in
    let userId := Params.user_id (Cases.typed "CLOSE a1b2c3d4") in
    let channelId := Params.channel_id (Cases.typed "CLOSE a1b2c3d4") in
    let answer := Pulse.handler (Some "8f742231b10e8888abcd99yyyzzz85a5") None 1531420618000 ({[ "x-slack-request-timestamp" := "1531420618"; "x-slack-signature" := "v0=21637b8f266586b4259028e642125760172d93a726a83f3b487093cd1b12af3c" ]}) "text=CLOSE+a1b2c3d4" (Cases.typed "CLOSE a1b2c3d4") Cases.opened in
    (name = "create" ->
     answer = Pulse.tryCatch (Pulse.handleCreate (Params.trigger_id (Cases.typed "CLOSE a1b2c3d4")) channelId) Cases.opened)
    /\ (name = "results" ->
        answer = Pulse.tryCatch (Pulse.handleResults channelId userId (Some "a1b2c3d4")) Cases.opened)
    /\ (name = "share" ->
        answer
        = Pulse.tryCatch
            (r ← store (Commands.handleShare channelId (Some "a1b2c3d4")); mret (Pulse.ofReply r)) Cases.opened)
    /\ (name = "export" ->
        answer = Pulse.tryCatch (Pulse.handleExport channelId userId (Some "a1b2c3d4")) Cases.opened)
    /\ (name = "close" ->
        answer = Pulse.tryCatch (Pulse.handleClose channelId userId (Some "a1b2c3d4")) Cases.opened)
    /\ (name = "help" \/ "CLOSE" = EmptyString ->
        answer = Pulse.handleHelp None Cases.opened)
    /\ (name ∉ ["create"; "results"; "share"; "export"; "close"; "help"] ->
        "CLOSE" ≠ EmptyString ->
        answer
        = Fulfilled
            (Ephemeral None
               ("Unknown command: `" +:+ "CLOSE"
                +:+ "`. Try `/pulse help` for a list of commands.")) Cases.opened)
    /\ forall e s', answer ≠ Failed e s').
Proof.
  assert (H1 : Verify.verifySlackRequest (Some "8f742231b10e8888abcd99yyyzzz85a5") 1531420618000 ({[ "x-slack-request-timestamp" := "1531420618"; "x-slack-signature" := "v0=21637b8f266586b4259028e642125760172d93a726a83f3b487093cd1b12af3c" ]}) "text=CLOSE+a1b2c3d4" = Normal true).
  { vm_compute; reflexivity. }
  assert (H2 : Lines.word "CLOSE" = true).
  { reflexivity. }
  assert (H3 : (forall id, (Some "a1b2c3d4") = Some id ->
         "CLOSE" ≠ EmptyString /\ Lines.word id = true /\ id ≠ EmptyString)).
  { intros id [= <-]; repeat split; discriminate || reflexivity. }
  assert (H4 : default EmptyString (Params.text (Cases.typed "CLOSE a1b2c3d4")) = Lines.command "CLOSE" (Some "a1b2c3d4")).
  { reflexivity. }
  exact (conj H1 (conj H2 (conj H3 (conj H4 (handler_routes (Some "8f742231b10e8888abcd99yyyzzz85a5") None 1531420618000 ({[ "x-slack-request-timestamp" := "1531420618"; "x-slack-signature" := "v0=21637b8f266586b4259028e642125760172d93a726a83f3b487093cd1b12af3c" ]}) "text=CLOSE+a1b2c3d4" (Cases.typed "CLOSE a1b2c3d4") "CLOSE" (Some "a1b2c3d4") Cases.opened H1 H2 H3 H4))))).
Defined.



